(** * Summit: a shallow embedding of the reconciliation core

    The development follows the Go packages of the repository:

    - [GoStrings]: the functions of Go's [strings] package the code calls;
    - [Model]:     [pkg/model] (state records, validation, intrinsic ignores);
    - [Host], [Afero], [OsUser], [Bufio]: the machine the engine runs on and
                   the libraries through which it reaches it (file tree,
                   account databases, command runner, logger, line scanner);
    - [System]:    [pkg/system] (the live command runner, the audit of /etc);
    - [Actions]:   [pkg/actions] (the action catalog);
    - [Cmd]:       [cmd/apply.go] (the transactional executor);
    - [Diff]:      [pkg/diff] (glob matcher, dependency validation, planner);
    - [Config]:    [pkg/config] (loading, includes with cycle detection,
                   merging);
    - [Scenario]:  concrete hosts, runners and states.

    Definitions come first, the theorems about them follow. *)

From Stdlib Require Import String Ascii List ZArith NArith Lia Bool.
From stdpp Require Import gmap strings list pretty.

Local Open Scope string_scope.
Local Open Scope list_scope.

(* ===================================================================== *)
(** * Go's [strings] package *)
(* ===================================================================== *)

Module GoStrings.

(** [strings.HasPrefix(s, prefix)] *)
Fixpoint HasPrefix (s prefix : string) {struct prefix} : bool :=
  match prefix with
  | EmptyString => true
  | String c p' =>
      match s with
      | EmptyString => false
      | String d s' => if Ascii.eqb c d then HasPrefix s' p' else false
      end
  end.

(** [strings.HasSuffix(s, suffix)] *)
Definition HasSuffix (s suffix : string) : bool :=
  HasPrefix (String.rev s) (String.rev suffix).

(** [strings.Contains(s, substr)] *)
Fixpoint Contains (s substr : string) : bool :=
  HasPrefix s substr ||
  match s with
  | EmptyString => false
  | String _ s' => Contains s' substr
  end.

(** [s[n:]] for [n <= len(s)] *)
Fixpoint drop (n : nat) (s : string) : string :=
  match n, s with
  | O, _ => s
  | S k, String _ s' => drop k s'
  | S _, EmptyString => EmptyString
  end.

(** [s[:n]] for [n <= len(s)] *)
Fixpoint take (n : nat) (s : string) : string :=
  match n, s with
  | O, _ => EmptyString
  | S k, String c s' => String c (take k s')
  | S _, EmptyString => EmptyString
  end.

(** [strings.Count(s, sep)] for a non-empty [sep]: the number of
    non-overlapping instances, found leftmost first.  [skip] counts the
    bytes of the instance just found that are still to be passed. *)
Fixpoint count_from (sep : string) (skip : nat) (s : string) : nat :=
  match s with
  | EmptyString => 0
  | String _ s' =>
      match skip with
      | S k => count_from sep k s'
      | O => if HasPrefix s sep
             then S (count_from sep (String.length sep - 1) s')
             else count_from sep 0 s'
      end
  end.

Definition Count (s sep : string) : nat := count_from sep 0 s.

(** [strings.Split(s, sep)] for a non-empty [sep]: the pieces between the
    non-overlapping instances of [sep]; [cur] is the piece being read. *)
Fixpoint split_from (sep : string) (skip : nat) (cur : string) (s : string)
  : list string :=
  match s with
  | EmptyString => [cur]
  | String c s' =>
      match skip with
      | S k => split_from sep k cur s'
      | O => if HasPrefix s sep
             then cur :: split_from sep (String.length sep - 1) "" s'
             else split_from sep 0 (cur +:+ String c "") s'
      end
  end.

Definition Split (s sep : string) : list string := split_from sep 0 "" s.

(** [strings.SplitN(s, sep, 2)] for a non-empty [sep]: cut at the first
    instance of [sep], if any. *)
Fixpoint cut_first (sep : string) (cur : string) (s : string) : list string :=
  match s with
  | EmptyString => [cur]
  | String c s' =>
      if HasPrefix s sep
      then [cur; drop (String.length sep) s]
      else cut_first sep (cur +:+ String c "") s'
  end.

Definition SplitN2 (s sep : string) : list string := cut_first sep "" s.

(** The white-space runes of [unicode.IsSpace], in their UTF-8 encoding:
    U+0009..U+000D, U+0020, U+0085, U+00A0, U+1680, U+2000..U+200A,
    U+2028, U+2029, U+202F, U+205F, U+3000. *)
Definition bytes (l : list nat) : string :=
  string_of_list_ascii (map ascii_of_nat l).

Definition space_runes : list string :=
  map bytes
    [ [9]; [10]; [11]; [12]; [13]; [32];
      [194; 133]; [194; 160];
      [225; 154; 128];
      [226; 128; 128]; [226; 128; 129]; [226; 128; 130]; [226; 128; 131];
      [226; 128; 132]; [226; 128; 133]; [226; 128; 134]; [226; 128; 135];
      [226; 128; 136]; [226; 128; 137]; [226; 128; 138];
      [226; 128; 168]; [226; 128; 169]; [226; 128; 175];
      [226; 129; 159];
      [227; 128; 128] ].

(** Byte length of the white-space rune [s] starts with, [0] if none. *)
Fixpoint leading_space (runes : list string) (s : string) : nat :=
  match runes with
  | [] => 0
  | r :: rs => if HasPrefix s r then String.length r else leading_space rs s
  end.

(** Byte length of the white-space rune [s] ends with, [0] if none. *)
Fixpoint trailing_space (runes : list string) (s : string) : nat :=
  match runes with
  | [] => 0
  | r :: rs => if HasSuffix s r then String.length r else trailing_space rs s
  end.

Fixpoint trim_left (fuel : nat) (s : string) : string :=
  match fuel with
  | O => s
  | S f =>
      match leading_space space_runes s with
      | O => s
      | n => trim_left f (drop n s)
      end
  end.

Fixpoint trim_right (fuel : nat) (s : string) : string :=
  match fuel with
  | O => s
  | S f =>
      match trailing_space space_runes s with
      | O => s
      | n => trim_right f (take (String.length s - n) s)
      end
  end.

(** [strings.TrimSpace(s)]: every rune removed is at least one byte long,
    so [len(s)] rounds are enough on either side. *)
Definition TrimSpace (s : string) : string :=
  let l := trim_left (String.length s) s in
  trim_right (String.length l) l.

(** [strings.TrimPrefix(s, prefix)] *)
Definition TrimPrefix (s prefix : string) : string :=
  if HasPrefix s prefix then drop (String.length prefix) s else s.

(** [strings.Join(elems, sep)] *)
Fixpoint Join (elems : list string) (sep : string) : string :=
  match elems with
  | [] => ""
  | [x] => x
  | x :: rest => x +:+ sep +:+ Join rest sep
  end.

End GoStrings.

(* ===================================================================== *)
(** * [pkg/model]: states, validation and the intrinsic-ignore predicate *)
(* ===================================================================== *)

Module Model.
Import GoStrings.

(** [FileOrigin]; [OriginUnset] is the zero value of the Go string type. *)
Inductive FileOrigin : Type :=
| OriginUnset
| OriginManaged
| OriginUserCreated
| OriginPackageModified.

(** [UserPackageActionState] is a string type with two named values. *)
Definition UserPackageActionState : Type := string.
Definition PackageStatePresent : UserPackageActionState := "present".
Definition PackageStateAbsent : UserPackageActionState := "absent".

Definition ValidRunlevels (rl : string) : bool :=
  String.eqb rl "boot" || String.eqb rl "default" || String.eqb rl "sysinit"
  || String.eqb rl "nonetwork" || String.eqb rl "shutdown".

Record ValidationError : Type := mkValidationError {
  Field : string;
  Message : string
}.

Definition ValidationErrors : Type := list ValidationError.

Record UserPackageState : Type := mkUserPackageState {
  User : string;
  Pipx : list string;
  Npm : list string
}.

Record UserState : Type := mkUserState {
  UserName : string;
  Groups : list string;
  PrimaryGroup : string
}.

Record PackageState : Type := mkPackageState {
  PackageName : string
}.

Record ServiceState : Type := mkServiceState {
  ServiceName : string;
  Enabled : bool;
  Runlevel : string
}.

Record SystemConfigState : Type := mkSystemConfigState {
  Path : string;
  Content : string;
  Mode : string;
  Owner : string;
  Group : string;
  Origin : FileOrigin;
  Deleted : bool;
  FileStatus : string;
  OriginPackage : string
}.

Record IgnoredConfig : Type := mkIgnoredConfig {
  IgnoredPath : string;
  Reason : string
}.

Record SystemState : Type := mkSystemState {
  Includes : list string;
  Packages : list PackageState;
  Services : list ServiceState;
  Users : list UserState;
  Configs : list SystemConfigState;
  IgnoredConfigs : list string;
  UserPackages : list UserPackageState
}.

Definition emptyState : SystemState :=
  mkSystemState [] [] [] [] [] [] [].

(** A rune loop [for _, r := range name] that rejects on a byte test: the
    tests below only accept or reject bytes under 128, which UTF-8 decodes
    to themselves, so the loop over runes is a loop over bytes. *)
Fixpoint all_bytes (ok : nat -> bool) (s : string) : bool :=
  match s with
  | EmptyString => true
  | String c s' => ok (nat_of_ascii c) && all_bytes ok s'
  end.

Definition isValidPackageName (name : string) : bool :=
  all_bytes (fun r => negb ((r <? 32) || (r =? 127)))%nat name.

Definition isValidUserName (name : string) : bool :=
  all_bytes (fun r => ((97 <=? r) && (r <=? 122)) || ((48 <=? r) && (r <=? 57))
                      || (r =? 45) || (r =? 95))%nat name.

Definition isValidOctalMode (mode : string) : bool :=
  match mode with
  | String c0 rest =>
      (String.length mode =? 4)%nat && Ascii.eqb c0 "0"%char
      && all_bytes (fun r => (48 <=? r) && (r <=? 55))%nat rest
  | EmptyString => false
  end.

Definition intrinsicIgnores : list string :=
  ["/etc/passwd"; "/etc/group"; "/etc/shadow"; "/etc/apk/world"].

Definition prefixIgnores : list string :=
  ["/etc/apk/keys"; "/etc/runlevels"].

Definition isIntrinsicIgnore (path : string) : bool :=
  if existsb (fun ignore => String.eqb path ignore) intrinsicIgnores then true
  else if existsb (fun ignore => HasPrefix path ignore) prefixIgnores then true
  else if HasSuffix path "-" || HasSuffix path ".bak" then true
  else false.

Definition idx (field : string) (i : nat) (rest : string) : string :=
  field +:+ "[" +:+ pretty i +:+ "]" +:+ rest.

Definition when (b : bool) (e : ValidationError) : ValidationErrors :=
  if b then [e] else [].

Definition validateInclude (i : nat) (include : string) : ValidationErrors :=
  when (String.eqb (TrimSpace include) "")
    (mkValidationError (idx "includes" i "") "include path cannot be empty").

Definition validatePackage (i : nat) (pkg : PackageState) : ValidationErrors :=
  when (String.eqb (TrimSpace (PackageName pkg)) "")
    (mkValidationError (idx "packages" i ".name") "package name cannot be empty")
  ++ when (negb (isValidPackageName (PackageName pkg)))
    (mkValidationError (idx "packages" i ".name")
       "package name contains invalid characters (only alphanumeric, hyphens, and dots allowed)").

Definition validateService (i : nat) (svc : ServiceState) : ValidationErrors :=
  when (String.eqb (TrimSpace (ServiceName svc)) "")
    (mkValidationError (idx "services" i ".name") "service name cannot be empty")
  ++ when (negb (String.eqb (Runlevel svc) "") && negb (ValidRunlevels (Runlevel svc)))
    (mkValidationError (idx "services" i ".runlevel")
       ("invalid runlevel '" +:+ Runlevel svc
        +:+ "', must be one of: boot, default, sysinit, nonetwork, shutdown")).

Definition validateUserGroup (i j : nat) (group : string) : ValidationErrors :=
  when (negb (isValidUserName group))
    (mkValidationError (idx "users" i (idx ".groups" j ""))
       "group name contains invalid characters").

Definition validateUser (i : nat) (user : UserState) : ValidationErrors :=
  when (String.eqb (TrimSpace (UserName user)) "")
    (mkValidationError (idx "users" i ".name") "user name cannot be empty")
  ++ when (negb (isValidUserName (UserName user)))
    (mkValidationError (idx "users" i ".name")
       "user name contains invalid characters (only lowercase letters, numbers, hyphens, and underscores allowed)")
  ++ concat (imap (validateUserGroup i) (Groups user)).

Definition validateConfig (i : nat) (cfg : SystemConfigState) : ValidationErrors :=
  when (String.eqb (TrimSpace (Path cfg)) "")
    (mkValidationError (idx "configs" i ".path") "config path cannot be empty")
  ++ when (negb (HasPrefix (Path cfg) "/"))
    (mkValidationError (idx "configs" i ".path")
       "config path must be absolute (start with '/')")
  ++ when (Contains (Path cfg) "..")
    (mkValidationError (idx "configs" i ".path") "config path cannot contain '..'")
  ++ when (isIntrinsicIgnore (Path cfg))
    (mkValidationError (idx "configs" i ".path")
       "cannot manage intrinsically ignored file (security/safety reasons)")
  ++ when (negb (String.eqb (Mode cfg) "") && negb (isValidOctalMode (Mode cfg)))
    (mkValidationError (idx "configs" i ".mode")
       "mode must be a valid octal value like '0755' or '0644'")
  ++ when (negb (String.eqb (Owner cfg) "") && negb (isValidUserName (Owner cfg)))
    (mkValidationError (idx "configs" i ".owner") "owner contains invalid characters")
  ++ when (negb (String.eqb (Group cfg) "") && negb (isValidUserName (Group cfg)))
    (mkValidationError (idx "configs" i ".group") "group contains invalid characters").

Definition validateUserPackageName (i : nat) (mgr : string) (j : nat) (pkg : string)
  : ValidationErrors :=
  when (negb (isValidPackageName pkg))
    (mkValidationError (idx "user-packages" i (idx mgr j ""))
       "package name contains invalid characters").

Definition validateUserPackage (userMap : gset string) (i : nat) (up : UserPackageState)
  : ValidationErrors :=
  when (negb (bool_decide (User up ∈ userMap)))
    (mkValidationError (idx "user-packages" i ".user")
       ("user '" +:+ User up +:+ "' not defined in users section"))
  ++ concat (imap (validateUserPackageName i ".pipx") (Pipx up))
  ++ concat (imap (validateUserPackageName i ".npm") (Npm up)).

(** [SystemState.Validate] *)
Definition Validate (s : SystemState) : ValidationErrors :=
  concat (imap validateInclude (Includes s))
  ++ concat (imap validatePackage (Packages s))
  ++ concat (imap validateService (Services s))
  ++ concat (imap validateUser (Users s))
  ++ concat (imap validateConfig (Configs s))
  ++ (let userMap : gset string := list_to_set (map UserName (Users s)) in
      concat (imap (validateUserPackage userMap) (UserPackages s))).

End Model.

(* ===================================================================== *)
(** * The host: file store, account databases, command runner, logger *)
(* ===================================================================== *)

(** Go's [error] values are carried by their message. *)
Definition error : Type := string.

Inductive Result (A : Type) : Type :=
| Ok (a : A)
| Err (e : error).
Arguments Ok {A} a.
Arguments Err {A} e.

Module Host.

(** An entry of the file tree.  [perm] holds the nine permission bits
    ([FileMode.Perm]); set-user-ID, set-group-ID and sticky bits are not
    modelled. *)
Record File : Type := mkFile {
  isDir : bool;
  data : string;
  perm : N;
  uid : Z;
  gid : Z
}.

(** What the engine runs on.  [files] is the file tree keyed by absolute
    path (parent directories are taken to exist); [umask], [euid] and [egid]
    belong to the engine's process; [passwd] and [groupdb] are the account
    databases behind [os/user], as (name, numeric id) entries in file order;
    [tempSeq] numbers the temporary directories handed out so far; [rest]
    stands for everything else on the host (package database, init system,
    ...), which only commands read and change. *)
Record Machine : Type := mkMachine {
  files : gmap string File;
  umask : N;
  euid : Z;
  egid : Z;
  passwd : list (string * Z);
  groupdb : list (string * Z);
  tempSeq : N;
  rest : gmap string string
}.

Definition with_files (m : Machine) (fs : gmap string File) : Machine :=
  mkMachine fs (umask m) (euid m) (egid m) (passwd m) (groupdb m) (tempSeq m) (rest m).

(** [runner.CommandRunner]: [Run(user, command)] returns the output and an
    error, and may change the machine. *)
Definition CommandRunner : Type :=
  string -> string -> Machine -> (string * option error) * Machine.

Inductive Level : Type := LvDebug | LvInfo | LvWarn | LvError.

(** The machine together with the record of what was asked of the two
    collaborators, the commands handed to the runner, as (user, command), and
    the messages handed to the logger, and of what the engine wrote to its
    standard output and standard error. *)
Record World : Type := mkWorld {
  machine : Machine;
  calls : list (string * string);
  logged : list (Level * string);
  printed : list string
}.

(** Computations over the world that may stop with an error; an error keeps
    the world reached so far. *)
Definition M (A : Type) : Type := World -> Result A * World.

Definition ret {A : Type} (a : A) : M A := fun w => (Ok a, w).

Definition fail {A : Type} (e : error) : M A := fun w => (Err e, w).

Definition bind {A B : Type} (c : M A) (k : A -> M B) : M B :=
  fun w =>
    match c w with
    | (Ok a, w') => k a w'
    | (Err e, w') => (Err e, w')
    end.

(** Runs [c] and hands its outcome, error or not, to the continuation. *)
Definition try {A B : Type} (c : M A) (k : Result A -> M B) : M B :=
  fun w => let '(r, w') := c w in k r w'.

Definition lift {A : Type} (r : Result A) : M A := fun w => (r, w).

Definition get_machine : M Machine := fun w => (Ok (machine w), w).

Definition put_machine (m : Machine) : M unit :=
  fun w => (Ok tt, mkWorld m (calls w) (logged w) (printed w)).

Definition print (text : string) : M unit :=
  fun w => (Ok tt, mkWorld (machine w) (calls w) (logged w) (printed w ++ [text])).

Definition logAt (lv : Level) (msg : string) : M unit :=
  fun w => (Ok tt, mkWorld (machine w) (calls w) (logged w ++ [(lv, msg)]) (printed w)).

(** [runner.Run(user, command)], output and error as Go returns them. *)
Definition Run (runner : CommandRunner) (user command : string)
  : M (string * option error) :=
  fun w =>
    let '(r, m') := runner user command (machine w) in
    (Ok r, mkWorld m' (calls w ++ [(user, command)]) (logged w) (printed w)).

End Host.

Notation "'let*' x ':=' c 'in' k" := (Host.bind c (fun x => k))
  (at level 10, x name, c at level 100, k at level 200).
Notation "c ';;' k" := (Host.bind c (fun _ => k))
  (at level 100, k at level 200, right associativity).

(** [afero] over the machine's file tree.  Operations fail on a missing path
    and on a directory where a file is needed; nothing else fails. *)
Module Afero.
Import Host.

Definition ModeDir : N := 2147483648.
Definition ModePerm : N := 511.

Definition notExist (op name : string) : error :=
  op +:+ " " +:+ name +:+ ": file does not exist".

Definition isDirectory (op name : string) : error :=
  op +:+ " " +:+ name +:+ ": is a directory".

(** [FileInfo.Mode()] *)
Definition Mode (f : File) : N :=
  N.lor (perm f) (if isDir f then ModeDir else 0%N).

Definition statIn (m : Machine) (name : string) : Result File :=
  match files m !! name with
  | Some f => Ok f
  | None => Err (notExist "stat" name)
  end.

Definition readIn (m : Machine) (name : string) : Result string :=
  match files m !! name with
  | Some f => if isDir f then Err (isDirectory "read" name) else Ok (data f)
  | None => Err (notExist "open" name)
  end.

(** [O_WRONLY|O_CREATE|O_TRUNC]: an existing file keeps mode and owner, a
    new one gets [mode] less the umask and the identity of the process. *)
Definition writeIn (m : Machine) (name content : string) (mode : N) : Result Machine :=
  match files m !! name with
  | Some f =>
      if isDir f then Err (isDirectory "open" name)
      else Ok (with_files m (<[name := mkFile false content (perm f) (uid f) (gid f)]> (files m)))
  | None =>
      Ok (with_files m
            (<[name := mkFile false content
                         (N.ldiff (N.land mode ModePerm) (umask m)) (euid m) (egid m)]>
               (files m)))
  end.

Definition chmodIn (m : Machine) (name : string) (mode : N) : Result Machine :=
  match files m !! name with
  | Some f =>
      Ok (with_files m
            (<[name := mkFile (isDir f) (data f) (N.land mode ModePerm) (uid f) (gid f)]>
               (files m)))
  | None => Err (notExist "chmod" name)
  end.

(** An id of [-1] leaves that side as it is. *)
Definition chownIn (m : Machine) (name : string) (u g : Z) : Result Machine :=
  match files m !! name with
  | Some f =>
      Ok (with_files m
            (<[name := mkFile (isDir f) (data f) (perm f)
                         (if (u =? -1)%Z then uid f else u)
                         (if (g =? -1)%Z then gid f else g)]>
               (files m)))
  | None => Err (notExist "chown" name)
  end.

Definition removeIn (m : Machine) (name : string) : Result Machine :=
  match files m !! name with
  | Some _ => Ok (with_files m (delete name (files m)))
  | None => Err (notExist "remove" name)
  end.

Definition renameIn (m : Machine) (oldname newname : string) : Result Machine :=
  match files m !! oldname with
  | Some f => Ok (with_files m (<[newname := f]> (delete oldname (files m))))
  | None => Err (notExist "rename" oldname)
  end.

Definition under (dir name : string) : bool :=
  String.eqb name dir || GoStrings.HasPrefix name (dir +:+ "/").

Definition removeAllIn (m : Machine) (dir : string) : Machine :=
  with_files m (filter (fun kv => under dir (fst kv) = false) (files m)).

(** [afero.TempDir(fs, dir, prefix)]: a fresh directory, mode 0700 less the
    umask, named after the next sequence number. *)
Definition tempDirIn (m : Machine) (dir pre : string) : Result (string * Machine) :=
  let name := (if String.eqb dir "" then "/tmp" else dir) +:+ "/" +:+ pre
              +:+ pretty (tempSeq m) in
  match files m !! name with
  | Some _ => Err ("mkdir " +:+ name +:+ ": file exists")
  | None =>
      Ok (name,
          mkMachine (<[name := mkFile true "" (N.ldiff 448 (umask m)) (euid m) (egid m)]>
                       (files m))
            (umask m) (euid m) (egid m) (passwd m) (groupdb m) (tempSeq m + 1) (rest m))
  end.

Definition notDirectory (op name : string) : error :=
  op +:+ " " +:+ name +:+ ": not a directory".

(** The name [path] has inside [dir], when [path] is an entry of [dir]:
    what follows [dir/], when it is a single path element other than [.]
    and [..]. *)
Definition entryName (dir path : string) : option string :=
  if GoStrings.HasPrefix path (dir +:+ "/")
  then
    let name := GoStrings.drop (String.length dir + 1) path in
    if String.eqb name "" || String.eqb name "." || String.eqb name ".."
       || GoStrings.Contains name "/"
    then None else Some name
  else None.

(** [sort.Sort(byName(list))]; the names of one directory are distinct. *)
Fixpoint insertEntry (x : string * File) (l : list (string * File))
  : list (string * File) :=
  match l with
  | [] => [x]
  | y :: l' => if String.ltb (fst y) (fst x) then y :: insertEntry x l' else x :: l
  end.

Definition sortEntries (l : list (string * File)) : list (string * File) :=
  fold_right insertEntry [] l.

(** [afero.ReadDir(fs, dirname)]: name and [FileInfo] of every entry of the
    directory, sorted by name.  The directory itself has to be in the
    tree. *)
Definition readDirIn (m : Machine) (dirname : string) : Result (list (string * File)) :=
  match files m !! dirname with
  | Some d =>
      if isDir d
      then Ok (sortEntries
                 (omap (fun kv => match entryName dirname (fst kv) with
                                  | Some name => Some (name, snd kv)
                                  | None => None
                                  end)
                       (map_to_list (files m))))
      else Err (notDirectory "readdirent" dirname)
  | None => Err (notExist "open" dirname)
  end.

(** [fs.Open(name)]: a directory opens as a file does. *)
Definition openIn (m : Machine) (name : string) : Result File :=
  match files m !! name with
  | Some f => Ok f
  | None => Err (notExist "open" name)
  end.

Definition effect (f : Machine -> Result Machine) : M unit :=
  fun w =>
    match f (machine w) with
    | Ok m' => (Ok tt, mkWorld m' (calls w) (logged w) (printed w))
    | Err e => (Err e, w)
    end.

Definition query {A : Type} (f : Machine -> Result A) : M A :=
  fun w => (f (machine w), w).

Definition Stat (name : string) : M File := query (fun m => statIn m name).
Definition ReadDir (dirname : string) : M (list (string * File)) :=
  query (fun m => readDirIn m dirname).
Definition Open (name : string) : M File := query (fun m => openIn m name).
Definition ReadFile (name : string) : M string := query (fun m => readIn m name).
Definition WriteFile (name content : string) (mode : N) : M unit :=
  effect (fun m => writeIn m name content mode).
Definition Chmod (name : string) (mode : N) : M unit :=
  effect (fun m => chmodIn m name mode).
Definition Chown (name : string) (u g : Z) : M unit :=
  effect (fun m => chownIn m name u g).
Definition Remove (name : string) : M unit := effect (fun m => removeIn m name).
Definition Rename (oldname newname : string) : M unit :=
  effect (fun m => renameIn m oldname newname).
Definition RemoveAll (dir : string) : M unit :=
  effect (fun m => Ok (removeAllIn m dir)).
Definition TempDir (dir pre : string) : M string :=
  fun w =>
    match tempDirIn (machine w) dir pre with
    | Ok (name, m') => (Ok name, mkWorld m' (calls w) (logged w) (printed w))
    | Err e => (Err e, w)
    end.

End Afero.

(** [os/user]: lookups in the account databases, first entry first. *)
Module OsUser.
Import Host.

Fixpoint byName (db : list (string * Z)) (name : string) : option Z :=
  match db with
  | [] => None
  | (n, i) :: db' => if String.eqb n name then Some i else byName db' name
  end.

Fixpoint byId (db : list (string * Z)) (i : Z) : option string :=
  match db with
  | [] => None
  | (n, j) :: db' => if (j =? i)%Z then Some n else byId db' i
  end.

Definition found {A : Type} (what : string) (o : option A) : Result A :=
  match o with
  | Some a => Ok a
  | None => Err ("user: unknown " +:+ what)
  end.

Definition Lookup (name : string) : M Z :=
  Afero.query (fun m => found ("user " +:+ name) (byName (passwd m) name)).
Definition LookupId (i : Z) : M string :=
  Afero.query (fun m => found "userid" (byId (passwd m) i)).
Definition LookupGroup (name : string) : M Z :=
  Afero.query (fun m => found ("group " +:+ name) (byName (groupdb m) name)).
Definition LookupGroupId (i : Z) : M string :=
  Afero.query (fun m => found "groupid" (byId (groupdb m) i)).

End OsUser.

(** [bufio.Scanner] with the default line splitter. *)
Module Bufio.
Import GoStrings.

Definition MaxScanTokenSize : N := 65536.

Definition dropCR (l : string) : string :=
  if HasSuffix l (bytes [13]) then take (String.length l - 1) l else l.

(** The text between newlines; what follows the last newline is a line only
    when it is not empty. *)
Definition rawLines (s : string) : list string :=
  let ps := Split s (bytes [10]) in
  match last ps with
  | Some EmptyString => removelast ps
  | _ => ps
  end.

(** The tokens [Scan] delivers, and whether [Err()] is then [ErrTooLong]: a
    line that does not fit the buffer stops the scan. *)
Fixpoint scan (ls : list string) : list string * bool :=
  match ls with
  | [] => ([], false)
  | l :: ls' =>
      if (MaxScanTokenSize <=? N.of_nat (String.length l))%N then ([], true)
      else let '(ts, e) := scan ls' in (dropCR l :: ts, e)
  end.

Definition ScanLines (s : string) : list string * bool := scan (rawLines s).

End Bufio.

(* ===================================================================== *)
(** * [strconv] *)
(* ===================================================================== *)

Module Strconv.

Fixpoint decimal_value (s : string) (acc : Z) : option Z :=
  match s with
  | EmptyString => Some acc
  | String c s' =>
      let d := Z.of_N (N_of_ascii c) in
      if ((48 <=? d) && (d <=? 57))%Z then decimal_value s' (acc * 10 + (d - 48))%Z
      else None
  end.

(** [strconv.Atoi(s)] on a 64-bit platform, [None] for either error: an
    optional sign, then one decimal digit or more, the value within the
    range of [int]. *)
Definition Atoi (s : string) : option Z :=
  let signed :=
    match s with
    | String c rest =>
        if Ascii.eqb c "-" then (true, rest)
        else if Ascii.eqb c "+" then (false, rest)
        else (false, s)
    | EmptyString => (false, s)
    end in
  match snd signed with
  | EmptyString => None
  | digits =>
      match decimal_value digits 0 with
      | Some n =>
          let z := if fst signed then (- n)%Z else n in
          if ((-9223372036854775808 <=? z) && (z <=? 9223372036854775807))%Z
          then Some z else None
      | None => None
      end
  end.

End Strconv.

(* ===================================================================== *)
(** * [pkg/system]: the live runner and the audit of [/etc] *)
(* ===================================================================== *)

Module System.
Import GoStrings Host.

(** [exec.Cmd], as far as [exec.Command] fills it: [Credential] is the
    [SysProcAttr.Credential] under which the child would run; without one the
    child runs as the calling process. *)
Record Cmd : Type := mkCmd {
  CmdName : string;
  Args : list string;
  Credential : option (Z * Z)
}.

Definition exec_Command (name : string) (args : list string) : Cmd :=
  mkCmd name (name :: args) None.

(** The operating system behind [Cmd.CombinedOutput]. *)
Definition Os : Type := Cmd -> Machine -> (string * option error) * Machine.

(** [LiveCommandRunner.Run] *)
Definition LiveCommandRunner_Run (os : Os) : CommandRunner :=
  fun user command =>
    let cmd := exec_Command "sh" ["-c"; command] in
    os cmd.

Definition ignoredPaths : list string :=
  [ "/etc/passwd"; "/etc/group"; "/etc/shadow"; "/etc/apk/world";
    "/etc/apk/keys"; "/etc/apk/arch";
    "/etc/apk/protected_paths.d/ca-certificates.list" ].

(** The three suppression tests of the audit loop, in the order the loop
    makes them; the reason is the one recorded with the path. *)
Definition intrinsicReason (filePath : string) : option string :=
  if HasPrefix filePath "/etc/runlevels" then Some "intrinsic: runlevel files"
  else if HasSuffix filePath "-" || HasSuffix filePath ".bak"
  then Some "intrinsic: backup file"
  else
    match find (fun ignoredPath =>
                  String.eqb filePath ignoredPath || HasPrefix filePath ignoredPath)
               ignoredPaths with
    | Some ignoredPath => Some ("intrinsic: " +:+ ignoredPath)
    | None => None
    end.

(** [fmt.Errorf(prefix + ": %w", err)] around a computation. *)
Definition wrapErr {A : Type} (prefix : string) (c : M A) : M A :=
  fun w =>
    match c w with
    | (Ok a, w') => (Ok a, w')
    | (Err e, w') => (Err (prefix +:+ ": " +:+ e), w')
    end.

Record AuditAcc : Type := mkAuditAcc {
  configs : list Model.SystemConfigState;
  ignored : list Model.IgnoredConfig;
  modifiedFiles : list string
}.

Definition noteIgnored (skipIntrinsicIgnores : bool) (acc : AuditAcc)
           (filePath reason : string) : AuditAcc :=
  if skipIntrinsicIgnores then acc
  else mkAuditAcc (configs acc)
         (ignored acc ++ [Model.mkIgnoredConfig filePath reason])
         (modifiedFiles acc).

Definition newConfig (filePath : string) (o : Model.FileOrigin) (deleted : bool)
  : Model.SystemConfigState :=
  Model.mkSystemConfigState filePath "" "" "" "" o deleted "" "".

(** One round of the loop labelled [linesloop]. *)
Definition auditLine (skipIntrinsicIgnores : bool) (acc : AuditAcc) (line : string)
  : M AuditAcc :=
  let line := TrimSpace line in
  if (String.length line <? 2)%nat then ret acc
  else
    let fileStatus := take 1 line in
    let filePath := TrimSpace (drop 1 line) in
    let filePath := if HasPrefix filePath "/" then filePath else "/" +:+ filePath in
    if negb (HasPrefix filePath "/etc") then ret acc
    else
      match intrinsicReason filePath with
      | Some reason => ret (noteIgnored skipIntrinsicIgnores acc filePath reason)
      | None =>
          let* dir :=
            (if String.eqb fileStatus "X" then ret false
             else
               let* fileInfo := wrapErr ("error stating file " +:+ filePath)
                                        (Afero.Stat filePath) in
               ret (isDir fileInfo)) in
          if dir : bool
          then ret (noteIgnored skipIntrinsicIgnores acc filePath "intrinsic: directory")
          else
            if String.eqb fileStatus "A"
            then ret (mkAuditAcc (configs acc ++ [newConfig filePath Model.OriginUserCreated false])
                        (ignored acc) (modifiedFiles acc))
            else if String.eqb fileStatus "U"
            then ret (mkAuditAcc (configs acc ++ [newConfig filePath Model.OriginPackageModified false])
                        (ignored acc) (modifiedFiles acc ++ [filePath]))
            else if String.eqb fileStatus "X"
            then ret (mkAuditAcc (configs acc ++ [newConfig filePath Model.OriginUnset true])
                        (ignored acc) (modifiedFiles acc))
            else ret (mkAuditAcc (configs acc ++ [newConfig filePath Model.OriginUnset false])
                        (ignored acc) (modifiedFiles acc))
      end.

Fixpoint auditLines (skipIntrinsicIgnores : bool) (acc : AuditAcc) (lines : list string)
  : M AuditAcc :=
  match lines with
  | [] => ret acc
  | line :: lines' =>
      let* acc' := auditLine skipIntrinsicIgnores acc line in
      auditLines skipIntrinsicIgnores acc' lines'
  end.

(** [getPackageOwners]: the runner's error is dropped, the output parsed. *)
Definition ownerOf (line : string) : option (string * string) :=
  match SplitN2 line " is owned by " with
  | [p; o] => Some (TrimSpace p, TrimSpace o)
  | _ => None
  end.

Definition getPackageOwners (runner : CommandRunner) (files : list string)
  : M (gmap string string) :=
  let cmd := "apk " +:+ Join ("info" :: "--who-owns" :: files) " " in
  let* r := Run runner "" cmd in
  ret (fold_left (fun (ownerMap : gmap string string) line =>
                    match ownerOf line with
                    | Some (p, o) => <[p := o]> ownerMap
                    | None => ownerMap
                    end)
                 (fst (Bufio.ScanLines (fst r))) ∅).

Definition setOwnerPackage (ownerMap : gmap string string) (c : Model.SystemConfigState)
  : Model.SystemConfigState :=
  match ownerMap !! Model.Path c with
  | Some owner =>
      Model.mkSystemConfigState (Model.Path c) (Model.Content c) (Model.Mode c)
        (Model.Owner c) (Model.Group c) (Model.Origin c) (Model.Deleted c)
        (Model.FileStatus c) owner
  | None => c
  end.

(** [fmt.Sprintf("%o", n)] *)
Fixpoint octal_digits (fuel : nat) (n : N) (acc : string) : string :=
  match fuel with
  | O => acc
  | S f =>
      let acc' := String (ascii_of_N (48 + n mod 8)) acc in
      if (n / 8 =? 0)%N then acc' else octal_digits f (n / 8)%N acc'
  end.

Definition FormatOctal (n : N) : string :=
  octal_digits (S (N.to_nat (N.log2 n))) n "".

(** The last loop of [listSystemConfigs]: content, owner, group and mode of
    every entry that is not a deletion. *)
Definition readConfig (c : Model.SystemConfigState) : M Model.SystemConfigState :=
  if Model.Deleted c then ret c
  else
    let* content := wrapErr ("error reading file " +:+ Model.Path c)
                            (Afero.ReadFile (Model.Path c)) in
    let* fileInfo := wrapErr ("error stating file " +:+ Model.Path c)
                             (Afero.Stat (Model.Path c)) in
    try (OsUser.LookupId (uid fileInfo)) (fun u =>
    try (OsUser.LookupGroupId (gid fileInfo)) (fun g =>
      let ownerName := match u with Ok n => n | Err _ => pretty (uid fileInfo) end in
      let groupName := match g with Ok n => n | Err _ => pretty (gid fileInfo) end in
      ret (Model.mkSystemConfigState (Model.Path c) content
             ("0" +:+ FormatOctal (N.land (Afero.Mode fileInfo) Afero.ModePerm))
             ownerName groupName (Model.Origin c) (Model.Deleted c)
             (Model.FileStatus c) (Model.OriginPackage c)))).

Fixpoint readConfigs (cs : list Model.SystemConfigState) : M (list Model.SystemConfigState) :=
  match cs with
  | [] => ret []
  | c :: cs' =>
      let* c' := readConfig c in
      let* rest := readConfigs cs' in
      ret (c' :: rest)
  end.

(** [listSystemConfigs] *)
Definition listSystemConfigs (runner : CommandRunner) (skipIntrinsicIgnores : bool)
  : M (list Model.SystemConfigState * list Model.IgnoredConfig) :=
  let* r := Run runner "" "apk audit" in
  match snd r with
  | Some err => fail ("error running apk audit: " +:+ err)
  | None =>
      let lines := Split (fst r) (bytes [10]) in
      let* acc := auditLines skipIntrinsicIgnores (mkAuditAcc [] [] []) lines in
      let* cfgs :=
        (match modifiedFiles acc with
         | [] => ret (configs acc)
         | _ =>
             let* ownerMap := getPackageOwners runner (modifiedFiles acc) in
             ret (map (setOwnerPackage ownerMap) (configs acc))
         end) in
      let* cfgs := readConfigs cfgs in
      ret (cfgs, ignored acc)
  end.

(** [listInstalledPackages] *)
Definition listInstalledPackages : M (list Model.PackageState) :=
  let worldPath := "/etc/apk/world" in
  let* content := wrapErr ("Error reading " +:+ worldPath) (Afero.ReadFile worldPath) in
  ret (flat_map (fun packageName =>
                   let packageName := TrimSpace packageName in
                   if String.eqb packageName "" then []
                   else [Model.mkPackageState packageName])
                (Split content (bytes [10]))).

Definition runlevels : list string :=
  ["boot"; "default"; "sysinit"; "nonetwork"; "shutdown"].

(** The inner loop of [listServices]: the first runlevel, in the order of
    the list, under which [name] has an entry.  [filepath.Join] of the three
    elements is their joining by [/], [name] being a single path element.
    A [Stat] that fails reports a missing file here, the one failure the
    loop passes over; an entry of a runlevel directory is a symbolic link
    on a real host, and stands here for the file it leads to. *)
Fixpoint findRunlevel (rls : list string) (name : string) : M (option string) :=
  match rls with
  | [] => ret None
  | rl :: more =>
      try (Afero.Stat ("/etc/runlevels/" +:+ rl +:+ "/" +:+ name)) (fun r =>
        match r with
        | Ok _ => ret (Some rl)
        | Err _ => findRunlevel more name
        end)
  end.

(** The outer loop of [listServices]. *)
Fixpoint servicesOf (entries : list (string * File)) : M (list Model.ServiceState) :=
  match entries with
  | [] => ret []
  | entry :: more =>
      if isDir (snd entry) then servicesOf more
      else
        let name := fst entry in
        if HasSuffix name ".sh" then servicesOf more
        else
          let* rl := findRunlevel runlevels name in
          let* services := servicesOf more in
          ret (match rl with
               | Some runlevel => Model.mkServiceState name true runlevel
               | None => Model.mkServiceState name false ""
               end :: services)
  end.

(** [listServices] *)
Definition listServices : M (list Model.ServiceState) :=
  let servicesDir := "/etc/init.d" in
  let* entries := wrapErr ("error reading " +:+ servicesDir) (Afero.ReadDir servicesDir) in
  servicesOf entries.

(** A [bufio.Scanner] over an open file: the lines [Scan] delivers and the
    error [Err()] holds at the end.  Reading a directory fails at once. *)
Definition scanFile (name : string) (f : File) : list string * option error :=
  if isDir f then ([], Some ("read " +:+ name +:+ ": is a directory"))
  else
    let '(ls, tooLong) := Bufio.ScanLines (data f) in
    (ls, if tooLong : bool then Some "bufio.Scanner: token too long" else None).

Definition groupFilePath : string := "/etc/group".

(** [buildGidToNameMap] *)
Definition buildGidToNameMap : M (gmap Z string) :=
  let* groupFile := wrapErr ("Error opening " +:+ groupFilePath)
                            (Afero.Open groupFilePath) in
  let scanned := scanFile groupFilePath groupFile in
  let gidToName :=
    fold_left (fun (gidToName : gmap Z string) line =>
                 match Split line ":" with
                 | name :: _ :: gidField :: _ :: _ =>
                     match Strconv.Atoi gidField with
                     | Some gid => <[gid := name]> gidToName
                     | None => gidToName
                     end
                 | _ => gidToName
                 end) (fst scanned) ∅ in
  match snd scanned with
  | Some err => fail ("error reading " +:+ groupFilePath +:+ ": " +:+ err)
  | None => ret gidToName
  end.

(** [listGroupsForUser] *)
Definition listGroupsForUser (runner : CommandRunner) (userName : string)
  : M (list string) :=
  let cmd := "groups " +:+ userName in
  let* r := Run runner "" cmd in
  match snd r with
  | Some err =>
      if Contains err "no such user" then ret []
      else fail ("error getting groups for user " +:+ userName +:+ ": " +:+ err)
  | None =>
      let groupsString := TrimSpace (fst r) in
      if String.eqb groupsString "" then ret []
      else ret (Split groupsString " ")
  end.

(** What a line of [/etc/passwd] contributes to [listUsers]: the name and
    the name of the primary group of an account with a numeric id of 1000 or
    more and a login shell. *)
Definition accountOf (gidToName : gmap Z string) (line : string)
  : option (string * string) :=
  match Split line ":" with
  | userName :: _ :: uidField :: gidField :: _ :: _ :: shell :: _ =>
      match Strconv.Atoi uidField with
      | None => None
      | Some uid =>
          if (uid <? 1000)%Z then None
          else if String.eqb shell "" || Contains shell "nologin" then None
          else
            match Strconv.Atoi gidField with
            | None => None
            | Some gid =>
                Some (userName,
                      match gidToName !! gid with
                      | Some primaryGroupName => primaryGroupName
                      | None => pretty gid
                      end)
            end
      end
  | _ => None
  end.

(** The loop of [listUsers] over the lines of [/etc/passwd]. *)
Fixpoint usersOf (runner : CommandRunner) (gidToName : gmap Z string)
         (lines : list string) : M (list Model.UserState) :=
  match lines with
  | [] => ret []
  | line :: more =>
      match accountOf gidToName line with
      | None => usersOf runner gidToName more
      | Some (userName, primaryGroupName) =>
          let* userGroups := listGroupsForUser runner userName in
          let* users := usersOf runner gidToName more in
          ret (Model.mkUserState userName userGroups primaryGroupName :: users)
      end
  end.

(** [listUsers]; the scanner's error is not looked at. *)
Definition listUsers (runner : CommandRunner) : M (list Model.UserState) :=
  let* gidToName := buildGidToNameMap in
  let passwdPath := "/etc/passwd" in
  let* usersFile := wrapErr ("Error opening " +:+ passwdPath) (Afero.Open passwdPath) in
  usersOf runner gidToName (fst (scanFile passwdPath usersFile)).

(** [InferSystemState] *)
Definition InferSystemState (runner : CommandRunner) (skipIntrinsicIgnores : bool)
  : M (Model.SystemState * list Model.IgnoredConfig) :=
  let* packages := listInstalledPackages in
  let* services := listServices in
  let* users := listUsers runner in
  let* r := listSystemConfigs runner skipIntrinsicIgnores in
  ret (Model.mkSystemState [] packages services users (fst r) [] [], snd r).

End System.

(* ===================================================================== *)
(** * [pkg/actions]: the action catalog *)
(* ===================================================================== *)

Module Actions.
Import GoStrings Host.

(** One constructor per action type, with the fields of the Go struct; the
    lower-case fields are the originals an [Apply] captures for [Rollback].
    [Apply] has a pointer receiver and writes them: here it returns the
    action as it is after the call. *)
Inductive Action : Type :=
| PackageInstallAction (PackageName : string)
| PackageRemoveAction (PackageName : string)
| ServiceEnableAction (ServiceName Runlevel : string)
| ServiceDisableAction (ServiceName Runlevel : string)
| UserCreateAction (UserName : string)
| UserRemoveAction (UserName : string)
| GroupCreateAction (GroupName : string)
| AddUserToGroupAction (UserName GroupName : string)
| RemoveUserFromGroupAction (UserName GroupName : string)
| FileCreateAction (Path Content Mode Owner Group : string)
| FileUpdateAction (Path NewContent origContent : string) (origMode : N)
| FileDeleteAction (Path origContent : string) (origMode : N) (origOwner origGroup : string)
| FileRevertAction (Path OwnerPackage modifiedContent : string)
| FileChmodAction (Path Mode : string) (origMode : N)
| FileChownAction (Path Owner Group origOwner origGroup : string)
| UserPackageAction (User Manager Package : string) (State : Model.UserPackageActionState).

Definition blank (s : string) : bool := String.eqb (TrimSpace s) "".

Definition nonEmpty (s : string) : bool := negb (String.eqb s "").

(** [_, err := runner.Run(user, command); return err] *)
Definition runErr (runner : CommandRunner) (user command : string) : M unit :=
  let* r := Run runner user command in
  match snd r with
  | Some err => fail err
  | None => ret tt
  end.

(** [if err != nil { logger.Error(msg, ...) }; return err] *)
Definition orLogError {A : Type} (msg : string) (c : M A) : M A :=
  fun w =>
    match c w with
    | (Ok a, w') => (Ok a, w')
    | (Err e, w') =>
      (Err e, mkWorld (machine w') (calls w') (logged w' ++ [(LvError, msg)]) (printed w'))
    end.

(** [strconv.ParseUint(s, 8, 32)] *)
Fixpoint octal_value (s : string) (acc : N) : option N :=
  match s with
  | EmptyString => Some acc
  | String c s' =>
      let d := N_of_ascii c in
      if ((48 <=? d) && (d <=? 55))%N then octal_value s' (acc * 8 + (d - 48))%N
      else None
  end.

Definition ParseUint8 (s : string) : Result N :=
  match s with
  | EmptyString => Err ("strconv.ParseUint: parsing " +:+ s +:+ ": invalid syntax")
  | _ =>
      match octal_value s 0 with
      | Some n =>
          if (n <? 4294967296)%N then Ok n
          else Err ("strconv.ParseUint: parsing " +:+ s +:+ ": value out of range")
      | None => Err ("strconv.ParseUint: parsing " +:+ s +:+ ": invalid syntax")
      end
  end.

(** The numeric ids handed to [Chown]: a lookup for a name, [-1] for none. *)
Definition ownerId (name : string) : M Z :=
  if nonEmpty name then OsUser.Lookup name else ret (-1)%Z.

Definition groupId (name : string) : M Z :=
  if nonEmpty name then OsUser.LookupGroup name else ret (-1)%Z.

(** ** Packages *)

Definition PackageInstall_Apply (runner : CommandRunner) (PackageName : string) : M unit :=
  if blank PackageName then fail "package name cannot be empty"
  else
    logAt LvInfo "Installing package" ;;
    runErr runner "" ("apk add " +:+ PackageName).

Definition PackageInstall_Rollback (runner : CommandRunner) (PackageName : string) : M unit :=
  logAt LvInfo "Rolling back package install" ;;
  orLogError "Failed to roll back package install"
    (runErr runner "" ("apk del " +:+ PackageName)).

Definition PackageRemove_Apply (runner : CommandRunner) (PackageName : string) : M unit :=
  if blank PackageName then fail "package name cannot be empty"
  else
    logAt LvInfo "Removing package" ;;
    runErr runner "" ("apk del " +:+ PackageName).

Definition PackageRemove_Rollback (runner : CommandRunner) (PackageName : string) : M unit :=
  logAt LvInfo "Rolling back package removal" ;;
  orLogError "Failed to roll back package removal"
    (runErr runner "" ("apk add " +:+ PackageName)).

(** ** Services *)

Definition ServiceEnable_Apply (runner : CommandRunner) (ServiceName Runlevel : string)
  : M unit :=
  if blank ServiceName then fail "service name cannot be empty"
  else if blank Runlevel then fail "runlevel cannot be empty"
  else
    logAt LvInfo "Enabling and starting service" ;;
    runErr runner "" ("rc-update add " +:+ ServiceName +:+ " " +:+ Runlevel) ;;
    runErr runner "" ("rc-service " +:+ ServiceName +:+ " start").

(** Both commands are tried; the error returned is the last one seen. *)
Definition bothLastErr (msg1 msg2 : string) (c1 c2 : M unit) : M unit :=
  try (orLogError msg1 c1) (fun r1 =>
  try (orLogError msg2 c2) (fun r2 =>
    match r2, r1 with
    | Err e, _ => fail e
    | Ok _, Err e => fail e
    | Ok _, Ok _ => ret tt
    end)).

Definition ServiceEnable_Rollback (runner : CommandRunner) (ServiceName Runlevel : string)
  : M unit :=
  logAt LvInfo "Stopping and disabling service during rollback" ;;
  bothLastErr "Failed to stop service during rollback"
              "Failed to disable service during rollback"
    (runErr runner "" ("rc-service " +:+ ServiceName +:+ " stop"))
    (runErr runner "" ("rc-update del " +:+ ServiceName +:+ " " +:+ Runlevel)).

Definition ServiceDisable_Apply (runner : CommandRunner) (ServiceName Runlevel : string)
  : M unit :=
  if blank ServiceName then fail "service name cannot be empty"
  else if blank Runlevel then fail "runlevel cannot be empty"
  else
    logAt LvInfo "Stopping and disabling service" ;;
    runErr runner "" ("rc-service " +:+ ServiceName +:+ " stop") ;;
    runErr runner "" ("rc-update del " +:+ ServiceName +:+ " " +:+ Runlevel).

Definition ServiceDisable_Rollback (runner : CommandRunner) (ServiceName Runlevel : string)
  : M unit :=
  logAt LvInfo "Enabling and starting service during rollback" ;;
  bothLastErr "Failed to enable service during rollback"
              "Failed to start service during rollback"
    (runErr runner "" ("rc-update add " +:+ ServiceName +:+ " " +:+ Runlevel))
    (runErr runner "" ("rc-service " +:+ ServiceName +:+ " start")).

(** ** Users and groups *)

Definition UserCreate_Apply (runner : CommandRunner) (UserName : string) : M unit :=
  if blank UserName then fail "username cannot be empty"
  else
    logAt LvInfo "Creating user" ;;
    runErr runner "" ("adduser -D " +:+ UserName) ;;
    logAt LvWarn "User created without password".

Definition UserCreate_Rollback (runner : CommandRunner) (UserName : string) : M unit :=
  logAt LvInfo "Rolling back user creation" ;;
  orLogError "Failed to roll back user creation"
    (runErr runner "" ("deluser " +:+ UserName)).

Definition UserRemove_Apply (runner : CommandRunner) (UserName : string) : M unit :=
  if blank UserName then fail "username cannot be empty"
  else
    logAt LvInfo "Removing user" ;;
    runErr runner "" ("deluser " +:+ UserName).

Definition UserRemove_Rollback (runner : CommandRunner) (UserName : string) : M unit :=
  logAt LvInfo "Rolling back user removal" ;;
  orLogError "Failed to roll back user removal"
    (runErr runner "" ("adduser -D " +:+ UserName)).

Definition GroupCreate_Apply (runner : CommandRunner) (GroupName : string) : M unit :=
  if blank GroupName then fail "group name cannot be empty"
  else
    logAt LvInfo "Creating group" ;;
    runErr runner "" ("addgroup " +:+ GroupName).

Definition GroupCreate_Rollback (runner : CommandRunner) (GroupName : string) : M unit :=
  logAt LvInfo "Rolling back group creation" ;;
  orLogError "Failed to roll back group creation"
    (runErr runner "" ("delgroup " +:+ GroupName)).

Definition AddUserToGroup_Apply (runner : CommandRunner) (UserName GroupName : string)
  : M unit :=
  if blank UserName then fail "username cannot be empty"
  else if blank GroupName then fail "group name cannot be empty"
  else
    logAt LvInfo "Adding user to group" ;;
    runErr runner "" ("addgroup " +:+ UserName +:+ " " +:+ GroupName).

Definition AddUserToGroup_Rollback (runner : CommandRunner) (UserName GroupName : string)
  : M unit :=
  logAt LvInfo "Rolling back adding user to group" ;;
  orLogError "Failed to roll back adding user to group"
    (runErr runner "" ("delgroup " +:+ UserName +:+ " " +:+ GroupName)).

Definition RemoveUserFromGroup_Apply (runner : CommandRunner) (UserName GroupName : string)
  : M unit :=
  if blank UserName then fail "username cannot be empty"
  else if blank GroupName then fail "group name cannot be empty"
  else
    logAt LvInfo "Removing user from group" ;;
    runErr runner "" ("delgroup " +:+ UserName +:+ " " +:+ GroupName).

Definition RemoveUserFromGroup_Rollback (runner : CommandRunner) (UserName GroupName : string)
  : M unit :=
  logAt LvInfo "Rolling back removing user from group" ;;
  orLogError "Failed to roll back removing user from group"
    (runErr runner "" ("addgroup " +:+ UserName +:+ " " +:+ GroupName)).

(** ** User packages *)

Definition UserPackage_Apply (runner : CommandRunner) (User Manager Package : string)
           (State : Model.UserPackageActionState) : M unit :=
  if blank User then fail "user cannot be empty"
  else if blank Manager then fail "manager cannot be empty"
  else if blank Package then fail "package cannot be empty"
  else
    let* command :=
      (if String.eqb State Model.PackageStatePresent
       then ret (Manager +:+ " install " +:+ Package)
       else if String.eqb State Model.PackageStateAbsent
       then ret (Manager +:+ " uninstall " +:+ Package)
       else fail ("unknown user package state: " +:+ State)) in
    logAt LvInfo "Running user package command" ;;
    runErr runner User command.

Definition UserPackage_Rollback (runner : CommandRunner) (User Manager Package : string)
           (State : Model.UserPackageActionState) : M unit :=
  let oppositeState :=
    if String.eqb State Model.PackageStatePresent
    then Model.PackageStateAbsent else Model.PackageStatePresent in
  fun w =>
    match UserPackage_Apply runner User Manager Package oppositeState w with
    | (Ok a, w') => (Ok a, w')
    | (Err e, w') =>
        (Err e,
         mkWorld (machine w') (calls w')
           (logged w' ++
              [(LvError, "Failed to roll back user package action");
               (LvWarn, "The user's package environment may be in an inconsistent state and may require manual intervention.")])
           (printed w'))
    end.

(** ** Files *)

Definition FileCreate_Apply (Path Content Mode Owner Group : string) : M unit :=
  logAt LvInfo "Creating file" ;;
  Afero.WriteFile Path Content 420 ;;
  (if nonEmpty Mode
   then let* mode := lift (ParseUint8 Mode) in Afero.Chmod Path mode
   else ret tt) ;;
  (if nonEmpty Owner || nonEmpty Group
   then
     let* uid := ownerId Owner in
     let* gid := groupId Group in
     Afero.Chown Path uid gid
   else ret tt).

Definition FileCreate_Rollback (Path : string) : M unit :=
  logAt LvInfo "Rolling back file creation" ;;
  orLogError "Failed to roll back file creation" (Afero.Remove Path).

(** Returns the captured content and mode. *)
Definition FileUpdate_Apply (Path NewContent : string) : M (string * N) :=
  logAt LvInfo "Updating file content" ;;
  let* info := Afero.Stat Path in
  let origMode := Afero.Mode info in
  let* content := Afero.ReadFile Path in
  Afero.WriteFile Path NewContent origMode ;;
  ret (content, origMode).

Definition FileUpdate_Rollback (Path origContent : string) (origMode : N) : M unit :=
  logAt LvInfo "Rolling back file update" ;;
  orLogError "Failed to roll back file update"
    (Afero.WriteFile Path origContent origMode).

(** A name is captured when the numeric id resolves; otherwise the field
    keeps the value it had.  Returns content, mode, owner and group. *)
Definition FileDelete_Apply (Path origOwner origGroup : string)
  : M (string * N * string * string) :=
  logAt LvInfo "Deleting file" ;;
  let* info := Afero.Stat Path in
  let origMode := Afero.Mode info in
  try (OsUser.LookupId (uid info)) (fun u =>
  try (OsUser.LookupGroupId (gid info)) (fun g =>
    let origOwner' := match u with Ok n => n | Err _ => origOwner end in
    let origGroup' := match g with Ok n => n | Err _ => origGroup end in
    let* content := Afero.ReadFile Path in
    Afero.Remove Path ;;
    ret (content, origMode, origOwner', origGroup'))).

Definition FileDelete_Rollback (Path origContent : string) (origMode : N)
           (origOwner origGroup : string) : M unit :=
  logAt LvInfo "Rolling back file deletion by restoring content" ;;
  orLogError "Failed to restore file content during rollback"
    (Afero.WriteFile Path origContent origMode) ;;
  if nonEmpty origOwner || nonEmpty origGroup
  then
    logAt LvInfo "Rolling back file ownership" ;;
    let* uid := orLogError "Failed to lookup original owner for rollback"
                           (ownerId origOwner) in
    let* gid := orLogError "Failed to lookup original group for rollback"
                           (groupId origGroup) in
    orLogError "Failed to chown file during rollback" (Afero.Chown Path uid gid)
  else ret tt.

(** The steps of the revert after the temporary directory exists; the
    deferred [RemoveAll] follows them on every path. *)
Definition extractAndReplace (runner : CommandRunner) (Path cachedApkPath tempDir : string)
  : M unit :=
  let relPath := TrimPrefix Path "/" in
  let* r := Run runner "" ("tar -xzf " +:+ cachedApkPath +:+ " -C " +:+ tempDir
                           +:+ " " +:+ relPath) in
  match snd r with
  | Some err => fail ("could not extract file from package: " +:+ err)
  | None => Afero.Rename (tempDir +:+ "/" +:+ relPath) Path
  end.

(** Returns the captured content. *)
Definition FileRevert_Apply (runner : CommandRunner) (Path OwnerPackage : string)
  : M string :=
  logAt LvInfo "Reverting file to package version" ;;
  let* content := Afero.ReadFile Path in
  let* r := Run runner "" ("apk info " +:+ OwnerPackage) in
  match snd r with
  | Some err => fail ("could not get package info for " +:+ OwnerPackage +:+ ": " +:+ err)
  | None =>
      match SplitN2 (fst r) "-" with
      | [_; rest] =>
          let version := hd "" (Split rest " ") in
          let cachedApkPath :=
            "/var/cache/apk/" +:+ OwnerPackage +:+ "-" +:+ version +:+ ".apk" in
          System.wrapErr ("cached apk not found at " +:+ cachedApkPath)
                         (Afero.Stat cachedApkPath) ;;
          logAt LvInfo "Found cached apk" ;;
          let* tempDir := System.wrapErr "could not create temp dir"
                                         (Afero.TempDir "" "summit-apk-") in
          try (extractAndReplace runner Path cachedApkPath tempDir) (fun res =>
            Afero.RemoveAll tempDir ;;
            match res with
            | Ok _ => ret content
            | Err e => fail e
            end)
      | _ => fail ("could not parse package version from: " +:+ fst r)
      end
  end.

Definition FileRevert_Rollback (Path modifiedContent : string) : M unit :=
  logAt LvInfo "Rolling back file revert" ;;
  orLogError "Failed to roll back file revert"
    (Afero.WriteFile Path modifiedContent 420).

(** Returns the captured mode. *)
Definition FileChmod_Apply (Path Mode : string) : M N :=
  logAt LvInfo "Changing file mode" ;;
  let* info := Afero.Stat Path in
  let origMode := Afero.Mode info in
  let* mode := lift (ParseUint8 Mode) in
  Afero.Chmod Path mode ;;
  ret origMode.

Definition FileChmod_Rollback (Path : string) (origMode : N) : M unit :=
  logAt LvInfo "Rolling back file mode" ;;
  orLogError "Failed to roll back file mode" (Afero.Chmod Path origMode).

(** Returns the captured owner and group names. *)
Definition FileChown_Apply (Path Owner Group origOwner origGroup : string)
  : M (string * string) :=
  logAt LvInfo "Changing file ownership" ;;
  let* info := Afero.Stat Path in
  try (OsUser.LookupId (uid info)) (fun u =>
  try (OsUser.LookupGroupId (gid info)) (fun g =>
    let origOwner' := match u with Ok n => n | Err _ => origOwner end in
    let origGroup' := match g with Ok n => n | Err _ => origGroup end in
    let* uid := ownerId Owner in
    let* gid := groupId Group in
    Afero.Chown Path uid gid ;;
    ret (origOwner', origGroup'))).

Definition FileChown_Rollback (Path origOwner origGroup : string) : M unit :=
  logAt LvInfo "Rolling back file ownership" ;;
  let* uid := orLogError "Failed to lookup original owner for rollback"
                         (ownerId origOwner) in
  let* gid := orLogError "Failed to lookup original group for rollback"
                         (groupId origGroup) in
  orLogError "Failed to chown file during rollback" (Afero.Chown Path uid gid).

(** ** The [Action] interface *)

Definition Description (a : Action) : string :=
  match a with
  | PackageInstallAction n => "Install package " +:+ n
  | PackageRemoveAction n => "Remove package " +:+ n
  | ServiceEnableAction n rl =>
      "Enable and start service " +:+ n +:+ " in runlevel " +:+ rl
  | ServiceDisableAction n rl =>
      "Stop and disable service " +:+ n +:+ " in runlevel " +:+ rl
  | UserCreateAction n => "Create user " +:+ n
  | UserRemoveAction n => "Remove user " +:+ n
  | GroupCreateAction n => "Create group " +:+ n
  | AddUserToGroupAction u g => "Add user " +:+ u +:+ " to group " +:+ g
  | RemoveUserFromGroupAction u g => "Remove user " +:+ u +:+ " from group " +:+ g
  | FileCreateAction p _ _ _ _ => "Create file " +:+ p
  | FileUpdateAction p _ _ _ => "Update file " +:+ p
  | FileDeleteAction p _ _ _ _ => "Delete file " +:+ p
  | FileRevertAction p pkg _ =>
      "Revert file " +:+ p +:+ " to state from package " +:+ pkg
  | FileChmodAction p m _ => "Chmod file " +:+ p +:+ " to " +:+ m
  | FileChownAction p o g _ _ => "Chown file " +:+ p +:+ " to " +:+ o +:+ ":" +:+ g
  | UserPackageAction u m p st =>
      "Ensure user package '" +:+ p +:+ "' for user '" +:+ u +:+ "' managed by '"
      +:+ m +:+ "' is " +:+ st
  end.

(** [ExecutionDetails], the lines a dry run prints under the description.
    [diffPrettyText orig new] is the text diffmatchpatch renders for the
    diff of the two contents. *)
Definition ExecutionDetails (diffPrettyText : string -> string -> string) (a : Action)
  : list string :=
  match a with
  | PackageInstallAction n => ["run: apk add " +:+ n]
  | PackageRemoveAction n => ["run: apk del " +:+ n]
  | ServiceEnableAction n rl =>
      ["run: rc-update add " +:+ n +:+ " " +:+ rl; "run: rc-service " +:+ n +:+ " start"]
  | ServiceDisableAction n rl =>
      ["run: rc-service " +:+ n +:+ " stop"; "run: rc-update del " +:+ n +:+ " " +:+ rl]
  | UserCreateAction n => ["run: adduser -D " +:+ n]
  | UserRemoveAction n => ["run: deluser " +:+ n]
  | GroupCreateAction n => ["run: addgroup " +:+ n]
  | AddUserToGroupAction u g => ["run: addgroup " +:+ u +:+ " " +:+ g]
  | RemoveUserFromGroupAction u g => ["run: delgroup " +:+ u +:+ " " +:+ g]
  | FileCreateAction p _ m o g =>
      ["create file: " +:+ p +:+ " with permissions " +:+ m]
      ++ (if nonEmpty o then ["set owner to " +:+ o] else [])
      ++ (if nonEmpty g then ["set group to " +:+ g] else [])
  | FileUpdateAction p c oc _ =>
      ["update file: " +:+ p; "--- diff ---"; diffPrettyText oc c; "--- end diff ---"]
  | FileDeleteAction p _ _ _ _ => ["delete file: " +:+ p]
  | FileRevertAction _ pkg _ => ["run: apk fix --reinstall " +:+ pkg]
  | FileChmodAction p m _ => ["chmod file " +:+ p +:+ " to " +:+ m]
  | FileChownAction p o g _ _ => ["chown file " +:+ p +:+ " to " +:+ o +:+ ":" +:+ g]
  | UserPackageAction u m p st =>
      let verb := if String.eqb st Model.PackageStateAbsent then "uninstall" else "install" in
      ["su -l " +:+ u +:+ " -c '" +:+ m +:+ " " +:+ verb +:+ " " +:+ p +:+ "'"]
  end.

Definition keep (a : Action) (c : M unit) : M Action := c ;; ret a.

Definition Apply (runner : CommandRunner) (a : Action) : M Action :=
  match a with
  | PackageInstallAction n => keep a (PackageInstall_Apply runner n)
  | PackageRemoveAction n => keep a (PackageRemove_Apply runner n)
  | ServiceEnableAction n rl => keep a (ServiceEnable_Apply runner n rl)
  | ServiceDisableAction n rl => keep a (ServiceDisable_Apply runner n rl)
  | UserCreateAction n => keep a (UserCreate_Apply runner n)
  | UserRemoveAction n => keep a (UserRemove_Apply runner n)
  | GroupCreateAction n => keep a (GroupCreate_Apply runner n)
  | AddUserToGroupAction u g => keep a (AddUserToGroup_Apply runner u g)
  | RemoveUserFromGroupAction u g => keep a (RemoveUserFromGroup_Apply runner u g)
  | FileCreateAction p c m o g => keep a (FileCreate_Apply p c m o g)
  | FileUpdateAction p c _ _ =>
      let* r := FileUpdate_Apply p c in
      ret (FileUpdateAction p c (fst r) (snd r))
  | FileDeleteAction p _ _ o g =>
      let* r := FileDelete_Apply p o g in
      let '(oc, om, oo, og) := r in
      ret (FileDeleteAction p oc om oo og)
  | FileRevertAction p pkg _ =>
      let* c := FileRevert_Apply runner p pkg in
      ret (FileRevertAction p pkg c)
  | FileChmodAction p m _ =>
      let* om := FileChmod_Apply p m in
      ret (FileChmodAction p m om)
  | FileChownAction p o g oo og =>
      let* r := FileChown_Apply p o g oo og in
      ret (FileChownAction p o g (fst r) (snd r))
  | UserPackageAction u m p st => keep a (UserPackage_Apply runner u m p st)
  end.

Definition Rollback (runner : CommandRunner) (a : Action) : M unit :=
  match a with
  | PackageInstallAction n => PackageInstall_Rollback runner n
  | PackageRemoveAction n => PackageRemove_Rollback runner n
  | ServiceEnableAction n rl => ServiceEnable_Rollback runner n rl
  | ServiceDisableAction n rl => ServiceDisable_Rollback runner n rl
  | UserCreateAction n => UserCreate_Rollback runner n
  | UserRemoveAction n => UserRemove_Rollback runner n
  | GroupCreateAction n => GroupCreate_Rollback runner n
  | AddUserToGroupAction u g => AddUserToGroup_Rollback runner u g
  | RemoveUserFromGroupAction u g => RemoveUserFromGroup_Rollback runner u g
  | FileCreateAction p _ _ _ _ => FileCreate_Rollback p
  | FileUpdateAction p _ oc om => FileUpdate_Rollback p oc om
  | FileDeleteAction p oc om oo og => FileDelete_Rollback p oc om oo og
  | FileRevertAction p _ mc => FileRevert_Rollback p mc
  | FileChmodAction p _ om => FileChmod_Rollback p om
  | FileChownAction p _ _ oo og => FileChown_Rollback p oo og
  | UserPackageAction u m p st => UserPackage_Rollback runner u m p st
  end.

(** The field-level prerequisites of the kinds that carry names: [unfit a]
    when a field [Apply] requires is empty or white space only, or the state
    of a user package is neither of the two known ones.  File actions have no
    such prerequisite. *)
Definition unfit (a : Action) : bool :=
  match a with
  | PackageInstallAction n | PackageRemoveAction n => blank n
  | ServiceEnableAction n rl | ServiceDisableAction n rl => blank n || blank rl
  | UserCreateAction n | UserRemoveAction n | GroupCreateAction n => blank n
  | AddUserToGroupAction u g | RemoveUserFromGroupAction u g => blank u || blank g
  | UserPackageAction u m p st =>
      blank u || blank m || blank p
      || negb (String.eqb st Model.PackageStatePresent
               || String.eqb st Model.PackageStateAbsent)
  | _ => false
  end.

(** The actions that take a user out of a group. *)
Definition removesFromGroup (a : Action) : Prop :=
  match a with
  | RemoveUserFromGroupAction _ _ => True
  | _ => False
  end.

(** ** Round trips of the file actions *)

(** Content, mode, owner and group of the file at [path], if there is one. *)
Definition attributes (m : Machine) (path : string) : option (string * N * Z * Z) :=
  match files m !! path with
  | Some f => Some (data f, perm f, uid f, gid f)
  | None => None
  end.

(** The round-trip property as the specification words it, for one action
    between the machine before its [Apply] and the machine after its
    [Rollback]: the file at the path of a file action has the content, mode,
    owner and group it had; after a creation there is no file. *)
Definition restoredAsStated (a : Action) (before after : Machine) : Prop :=
  match a with
  | FileCreateAction p _ _ _ _ => files after !! p = None
  | FileUpdateAction p _ _ _
  | FileDeleteAction p _ _ _ _
  | FileRevertAction p _ _
  | FileChmodAction p _ _
  | FileChownAction p _ _ _ _ => attributes after p = attributes before p
  | _ => True
  end.

(** The numeric owner and group of [f] resolve to names, and the names
    resolve back to them. *)
Definition namesResolve (m : Machine) (f : File) : Prop :=
  uid f <> (-1)%Z /\ gid f <> (-1)%Z
  /\ (exists name, OsUser.byId (passwd m) (uid f) = Some name /\ name <> ""
                   /\ OsUser.byName (passwd m) name = Some (uid f))
  /\ (exists name, OsUser.byId (groupdb m) (gid f) = Some name /\ name <> ""
                   /\ OsUser.byName (groupdb m) name = Some (gid f)).

(** What the code restores: everything after an update; everything after a
    change of mode; everything after a change of owner or a deletion when
    the owner and group resolve by name, and, for a deletion, when the umask
    clears none of the permission bits; after a revert, the content. *)
Definition restored (a : Action) (before after : Machine) : Prop :=
  match a with
  | FileCreateAction p _ _ _ _ => files after !! p = None
  | FileUpdateAction p _ _ _ => files after !! p = files before !! p
  | FileChmodAction p _ _ => files after !! p = files before !! p
  | FileChownAction p _ _ _ _ =>
      (forall f, files before !! p = Some f -> namesResolve before f) ->
      files after !! p = files before !! p
  | FileDeleteAction p _ _ _ _ =>
      (forall f, files before !! p = Some f ->
                 namesResolve before f /\ N.land (perm f) (umask before) = 0%N) ->
      files after !! p = files before !! p
  | FileRevertAction p _ _ =>
      data <$> files after !! p = data <$> files before !! p
      /\ isDir <$> files after !! p = isDir <$> files before !! p
  | _ => True
  end.

(** Every entry keeps its mode within the permission bits. *)
Definition permsWithinBits (m : Machine) : Prop :=
  forall path f, files m !! path = Some f -> N.land (perm f) Afero.ModePerm = perm f.

End Actions.

(* ===================================================================== *)
(** * [cmd/apply.go]: the transactional executor *)
(* ===================================================================== *)

Module Cmd.

(** What [executePlan] uses of its arguments: the three methods of the
    [actions.Action] interface it calls, with the runner they are given, and
    the two levels of the logger.  [W] is whatever state the collaborators
    keep. *)
Record Env (A W : Type) : Type := mkEnv {
  description : A -> string;
  apply : A -> W -> Result A * W;
  rollback : A -> W -> Result unit * W;
  logInfo : string -> W -> W;
  logError : string -> W -> W
}.
Arguments mkEnv {A W}.
Arguments description {A W}.
Arguments apply {A W}.
Arguments rollback {A W}.
Arguments logInfo {A W}.
Arguments logError {A W}.

Section Executor.
Context {A W : Type}.
Variable E : Env A W.

(** [for i := len(plan) - 1; i >= 0; i--]: [n] is [i + 1]. *)
Fixpoint rollbackLoop (plan : list A) (n : nat) (w : W) : W :=
  match n with
  | O => w
  | S i =>
      match nth_error plan i with
      | Some action =>
          let w1 := logInfo E ("<= Rolling back: " +:+ description E action) w in
          let '(_, w2) := rollback E action w1 in
          rollbackLoop plan i w2
      | None => w
      end
  end.

(** [rollbackPlan] *)
Definition rollbackPlan (plan : list A) (w : W) : W :=
  let w := logInfo E "--- Starting Rollback ---" w in
  let w := rollbackLoop plan (length plan) w in
  logInfo E "--- Rollback Complete ---" w.

(** The loop of [executePlan] over what is left of the plan. *)
Fixpoint executeLoop (plan completedActions : list A) (w : W) : option error * W :=
  match plan with
  | [] => (None, logInfo E "Apply complete." w)
  | action :: plan' =>
      let w := logInfo E ("=> " +:+ description E action) w in
      match apply E action w with
      | (Err err, w) =>
          let w := logError E "Action failed, rolling back changes" w in
          (Some err, rollbackPlan completedActions w)
      | (Ok action', w) => executeLoop plan' (completedActions ++ [action']) w
      end
  end.

(** [executePlan] *)
Definition executePlan (plan : list A) (w : W) : option error * W :=
  executeLoop plan [] w.

End Executor.

(** The executor as [apply] calls it: the action catalog, a runner, and
    the world of the host. *)
Definition hostEnv (runner : Host.CommandRunner) : Env Actions.Action Host.World :=
  mkEnv Actions.Description
        (Actions.Apply runner)
        (Actions.Rollback runner)
        (fun msg w => snd (Host.logAt Host.LvInfo msg w))
        (fun msg w => snd (Host.logAt Host.LvError msg w)).



Definition numbered {A : Type} (from : nat) (plan : list A) : list (nat * A) :=
  combine (seq from (length plan)) plan.


End Cmd.

(* ===================================================================== *)
(** * [pkg/diff]: glob matcher, dependency validation, planner *)
(* ===================================================================== *)

Module Diff.
Import GoStrings Host.

(** A Go map filled by [for _, v := range l { m[key(v)] = v }]. *)
Definition indexBy {V : Type} (key : V -> string) (l : list V) : gmap string V :=
  fold_left (fun m v => <[key v := v]> m) l ∅.

(** A Go map used as a set, filled from a list of keys. *)
Definition setOf (l : list string) : gset string := list_to_set l.

(** ** Dependency validation ([validation.go]) *)

Definition validateUserPackageDependencies (desired : Model.SystemState) : list string :=
  let desiredSystemPackages := setOf (map Model.PackageName (Model.Packages desired)) in
  let pipxPackages := flat_map Model.Pipx (Model.UserPackages desired) in
  let npmPackages := flat_map Model.Npm (Model.UserPackages desired) in
  (if negb (Nat.eqb (length pipxPackages) 0)
      && negb (bool_decide ("pipx" ∈ desiredSystemPackages))
   then ["user packages require 'pipx' to be installed for packages: "
         +:+ Join pipxPackages ", "
         +:+ ". Add 'pipx' to the system packages list."]
   else [])
  ++
  (if negb (Nat.eqb (length npmPackages) 0)
      && negb (bool_decide ("npm" ∈ desiredSystemPackages))
   then ["user packages require 'npm' to be installed for packages: "
         +:+ Join npmPackages ", "
         +:+ ". Add 'npm' to the system packages list."]
   else []).

Definition validateServiceDependencies (desired current : Model.SystemState) : list string :=
  let availableServices := setOf (map Model.ServiceName (Model.Services current)) in
  flat_map (fun s =>
              if bool_decide (Model.ServiceName s ∈ availableServices) then []
              else ["service '" +:+ Model.ServiceName s +:+ "' not found"])
           (Model.Services desired).

Definition validateUserDependencies (desired current : Model.SystemState) : list string :=
  let currentUserMap := setOf (map Model.UserName (Model.Users current)) in
  flat_map (fun up =>
              if bool_decide (Model.User up ∈ currentUserMap) then []
              else ["user '" +:+ Model.User up +:+ "' not found for user-packages"])
           (Model.UserPackages desired).

(** [ValidateDependencies]: [None] is the nil error. *)
Definition ValidateDependencies (desired current : Model.SystemState) : option error :=
  let errors :=
    validateUserPackageDependencies desired
    ++ validateServiceDependencies desired current
    ++ validateUserDependencies desired current in
  match errors with
  | [] => None
  | _ => Some ("dependency validation failed:" +:+ bytes [10] +:+ "  - "
               +:+ Join errors (bytes [10] +:+ "  - "))
  end.

(** ** The planner ([diff.go]) *)

(** Ranging over a Go map visits the keys in an order the language leaves
    open; the planner below visits them in the order of [map_to_list] and
    [elements].  What is proved of its plans does not depend on that order. *)

Definition groupFilePath : string := "/etc/group".

Definition unmanagedFileWarning (path : string) : string :=
  "Warning: unmanaged file found " +:+ path
  +:+ " (created outside package manager). Consider adding to ignored_configs or use --prune-unmanaged to delete."
  +:+ bytes [10].

Definition calculatePackageActions (desired current : list Model.PackageState)
  : list Actions.Action :=
  let desiredMap := indexBy Model.PackageName desired in
  let currentMap := indexBy Model.PackageName current in
  flat_map (fun kv =>
              match currentMap !! fst kv with
              | Some _ => []
              | None => [Actions.PackageInstallAction (fst kv)]
              end) (map_to_list desiredMap)
  ++
  flat_map (fun kv =>
              match desiredMap !! fst kv with
              | Some _ => []
              | None => [Actions.PackageRemoveAction (fst kv)]
              end) (map_to_list currentMap).

Definition calculateServiceActions (desired current : list Model.ServiceState)
  : list Actions.Action :=
  let desiredMap := indexBy Model.ServiceName desired in
  let currentMap := indexBy Model.ServiceName current in
  flat_map (fun kv =>
              let name := fst kv in
              let desiredService := snd kv in
              match currentMap !! name with
              | Some currentService =>
                  if Model.Enabled desiredService && negb (Model.Enabled currentService)
                  then [Actions.ServiceEnableAction name (Model.Runlevel desiredService)]
                  else if negb (Model.Enabled desiredService) && Model.Enabled currentService
                  then [Actions.ServiceDisableAction name (Model.Runlevel currentService)]
                  else []
              | None =>
                  if Model.Enabled desiredService
                  then [Actions.ServiceEnableAction name (Model.Runlevel desiredService)]
                  else []
              end) (map_to_list desiredMap)
  ++
  flat_map (fun kv =>
              let name := fst kv in
              let currentService := snd kv in
              match desiredMap !! name with
              | Some _ => []
              | None =>
                  if Model.Enabled currentService
                  then [Actions.ServiceDisableAction name (Model.Runlevel currentService)]
                  else []
              end) (map_to_list currentMap).

(** The name before the first colon of every line that is neither empty
    nor a comment. *)
Definition groupOfLine (line : string) : option string :=
  if negb (Nat.eqb (String.length line) 0) && negb (HasPrefix line "#")
  then
    match SplitN2 line ":" with
    | name :: _ => if String.eqb name "" then None else Some name
    | [] => None
    end
  else None.

(** The group names the scan of [output] collects. *)
Definition groupsListed (output : string) : gset string :=
  fold_left (fun (gs : gset string) line =>
               match groupOfLine line with
               | Some name => {[name]} ∪ gs
               | None => gs
               end) (fst (Bufio.ScanLines output)) ∅.

(** [inferCurrentSystemGroups] *)
Definition inferCurrentSystemGroups (runner : CommandRunner) : M (gset string) :=
  let* r := Run runner "" ("sh -c 'cat " +:+ groupFilePath +:+ "'") in
  match snd r with
  | Some err => fail ("failed to get current system groups: " +:+ err)
  | None =>
      if snd (Bufio.ScanLines (fst r))
      then fail "error reading system groups output: bufio.Scanner: token too long"
      else ret (groupsListed (fst r))
  end.

(** The loop that creates missing groups; a group created is added to the
    known ones. *)
Fixpoint createMissingGroups (requiredGroups : list string)
         (currentSystemGroups : gset string) : list Actions.Action :=
  match requiredGroups with
  | [] => []
  | groupName :: more =>
      if bool_decide (groupName ∈ currentSystemGroups)
      then createMissingGroups more currentSystemGroups
      else Actions.GroupCreateAction groupName
           :: createMissingGroups more ({[groupName]} ∪ currentSystemGroups)
  end.

(** The actions for one desired user. *)
Definition userActions (currentUsersMap : gmap string Model.UserState)
           (desiredUser : Model.UserState) : list Actions.Action :=
  match currentUsersMap !! Model.UserName desiredUser with
  | None =>
      Actions.UserCreateAction (Model.UserName desiredUser)
      :: map (fun groupName =>
                Actions.AddUserToGroupAction (Model.UserName desiredUser) groupName)
             (Model.Groups desiredUser)
  | Some currentUser =>
      let desiredGroups := setOf (Model.Groups desiredUser) in
      let currentGroups := setOf (Model.Groups currentUser) in
      flat_map (fun groupName =>
                  if bool_decide (groupName ∈ currentGroups) then []
                  else [Actions.AddUserToGroupAction (Model.UserName desiredUser) groupName])
               (elements desiredGroups)
      ++
      flat_map (fun groupName =>
                  if bool_decide (groupName ∈ desiredGroups) then []
                  else if String.eqb groupName (Model.PrimaryGroup currentUser) then []
                  else [Actions.RemoveUserFromGroupAction (Model.UserName desiredUser)
                          groupName])
               (elements currentGroups)
  end.

(** The map [currentUsersMap] of [calculateUserActions]: the current users
    by name, the last entry of a name standing for it. *)
Definition currentUsersMap (current : list Model.UserState) : gmap string Model.UserState :=
  indexBy Model.UserName current.

(** [calculateUserActions] *)
Definition calculateUserActions (desired current : list Model.UserState)
           (runner : CommandRunner) : M (list Actions.Action) :=
  let* currentSystemGroups :=
    System.wrapErr "failed to infer current system groups"
                   (inferCurrentSystemGroups runner) in
  let requiredGroups := setOf (flat_map Model.Groups desired) in
  let desiredMap := indexBy Model.UserName desired in
  ret (createMissingGroups (elements requiredGroups) currentSystemGroups
       ++ flat_map (userActions (currentUsersMap current)) desired
       ++ flat_map (fun kv =>
                      match desiredMap !! fst kv with
                      | Some _ => []
                      | None => [Actions.UserRemoveAction (fst kv)]
                      end) (map_to_list (currentUsersMap current))).

Section Planner.

(** [filepath.Match(pattern, name)], the match result alone. *)
Variable filepath_Match : string -> string -> bool.

(** [json.Unmarshal] into [PipxListOutput] and [NpmListOutput], as far as the
    planner reads the result: the package of every venv, and the names of
    the dependencies. *)
Variable pipxVenvPackages : string -> Result (list string).
Variable npmDependencies : string -> Result (list string).

(** [MatchesGlob] *)
Definition MatchesGlob (pattern path : string) : bool :=
  if Contains pattern "**"
  then
    match Split pattern "**" with
    | [prefix; suffix] =>
        let prefix :=
          if HasSuffix prefix "/*" then take (String.length prefix - 2) prefix
          else if HasSuffix prefix "*" then take (String.length prefix - 1) prefix
          else prefix in
        let suffix :=
          if HasPrefix suffix "/*" then drop 2 suffix
          else if HasPrefix suffix "*" then drop 1 suffix
          else suffix in
        HasPrefix path prefix && HasSuffix path suffix
    | _ => false
    end
  else filepath_Match pattern path.

(** The closure [isIgnored] of [calculateConfigActions]. *)
Definition isIgnored (desired : Model.SystemState) (path : string) : bool :=
  existsb (fun pattern => MatchesGlob pattern path) (Model.IgnoredConfigs desired).

Definition keptConfigs (desired : Model.SystemState) (cs : list Model.SystemConfigState)
  : gmap string Model.SystemConfigState :=
  indexBy Model.Path (List.filter (fun c => negb (isIgnored desired (Model.Path c))) cs).

(** [calculateConfigActions]; the second component is what it writes to
    standard error. *)
Definition calculateConfigActions (desired current : Model.SystemState)
           (pruneUnmanaged : bool) : list Actions.Action * list string :=
  let desiredMap := keptConfigs desired (Model.Configs desired) in
  let currentMap := keptConfigs desired (Model.Configs current) in
  let both :=
    flat_map (fun kv =>
                let path := fst kv in
                let desiredConfig := snd kv in
                match currentMap !! path with
                | Some currentConfig =>
                    (if negb (String.eqb (Model.Content desiredConfig)
                                         (Model.Content currentConfig))
                     then [Actions.FileUpdateAction path (Model.Content desiredConfig) "" 0]
                     else [])
                    ++
                    (if Actions.nonEmpty (Model.Mode desiredConfig)
                        && negb (String.eqb (Model.Mode desiredConfig)
                                            (Model.Mode currentConfig))
                     then [Actions.FileChmodAction path (Model.Mode desiredConfig) 0]
                     else [])
                    ++
                    (if (Actions.nonEmpty (Model.Owner desiredConfig)
                         && negb (String.eqb (Model.Owner desiredConfig)
                                             (Model.Owner currentConfig)))
                        || (Actions.nonEmpty (Model.Group desiredConfig)
                            && negb (String.eqb (Model.Group desiredConfig)
                                                (Model.Group currentConfig)))
                     then [Actions.FileChownAction path (Model.Owner desiredConfig)
                             (Model.Group desiredConfig) "" ""]
                     else [])
                | None =>
                    [Actions.FileCreateAction path (Model.Content desiredConfig)
                       (Model.Mode desiredConfig) (Model.Owner desiredConfig)
                       (Model.Group desiredConfig)]
                end) (map_to_list desiredMap) in
  let leftover :=
    map (fun kv =>
           let path := fst kv in
           let currentConfig := snd kv in
           match desiredMap !! path with
           | Some _ => ([], [])
           | None =>
               match Model.Origin currentConfig with
               | Model.OriginUserCreated =>
                   if pruneUnmanaged
                   then ([Actions.FileDeleteAction path "" 0 "" ""], [])
                   else if negb (isIgnored desired path)
                   then ([], [unmanagedFileWarning path])
                   else ([], [])
               | Model.OriginPackageModified =>
                   ([Actions.FileRevertAction path (Model.OriginPackage currentConfig) ""],
                    [])
               | _ => ([], [])
               end
           end) (map_to_list currentMap) in
  (both ++ flat_map fst leftover, flat_map snd leftover).

(** [compareUserPackages] *)
Definition compareUserPackages (user manager : string) (desiredPackages : list string)
           (runner : CommandRunner) : M (list Actions.Action) :=
  let* r := Run runner user (manager +:+ " list --json") in
  match snd r with
  | Some err =>
      print ("Warning: could not list " +:+ manager +:+ " packages for user " +:+ user
             +:+ ": " +:+ err +:+ bytes [10]) ;;
      ret []
  | None =>
      let parsed :=
        if String.eqb manager "pipx" then pipxVenvPackages (fst r)
        else if String.eqb manager "npm" then npmDependencies (fst r)
        else Ok [] in
      match parsed with
      | Err err =>
          print ("Warning: could not parse " +:+ manager +:+ " list output for user "
                 +:+ user +:+ ": " +:+ err +:+ bytes [10]) ;;
          ret []
      | Ok installedPackages =>
          let currentMap := setOf installedPackages in
          let desiredMap := setOf desiredPackages in
          ret (flat_map (fun pkg =>
                           if bool_decide (pkg ∈ currentMap) then []
                           else [Actions.UserPackageAction user manager pkg
                                   Model.PackageStatePresent])
                        (elements desiredMap)
               ++
               flat_map (fun pkg =>
                           if bool_decide (pkg ∈ desiredMap) then []
                           else [Actions.UserPackageAction user manager pkg
                                   Model.PackageStateAbsent])
                        (elements currentMap))
      end
  end.

(** [calculateUserPackageActions] *)
Fixpoint userPackageActions (ups : list Model.UserPackageState) (runner : CommandRunner)
  : M (list Actions.Action) :=
  match ups with
  | [] => ret []
  | userPackage :: more =>
      let* a1 :=
        (match Model.Pipx userPackage with
         | [] => ret []
         | _ => compareUserPackages (Model.User userPackage) "pipx"
                  (Model.Pipx userPackage) runner
         end) in
      let* a2 :=
        (match Model.Npm userPackage with
         | [] => ret []
         | _ => compareUserPackages (Model.User userPackage) "npm"
                  (Model.Npm userPackage) runner
         end) in
      let* a3 := userPackageActions more runner in
      ret (a1 ++ a2 ++ a3)
  end.

Definition calculateUserPackageActions (desired current : Model.SystemState)
           (runner : CommandRunner) : M (list Actions.Action) :=
  userPackageActions (Model.UserPackages desired) runner.

(** [CalculatePlan]: [Err] stands for the return of a nil plan with an
    error. *)
Definition CalculatePlan (desired current : Model.SystemState) (runner : CommandRunner)
           (pruneUnmanaged : bool) : M (list Actions.Action) :=
  match ValidateDependencies desired current with
  | Some err => fail err
  | None =>
      let packageActions :=
        calculatePackageActions (Model.Packages desired) (Model.Packages current) in
      let serviceActions :=
        calculateServiceActions (Model.Services desired) (Model.Services current) in
      let* userActions :=
        calculateUserActions (Model.Users desired) (Model.Users current) runner in
      let configActions := calculateConfigActions desired current pruneUnmanaged in
      fold_right (fun text k => print text ;; k) (ret tt) (snd configActions) ;;
      let* userPackageActions := calculateUserPackageActions desired current runner in
      ret (packageActions ++ serviceActions ++ userActions ++ fst configActions
           ++ userPackageActions)
  end.

(** The plan a caller of [CalculatePlan] holds: nil when an error came
    with it. *)
Definition returnedPlan (r : Result (list Actions.Action)) : list Actions.Action :=
  match r with
  | Ok plan => plan
  | Err _ => []
  end.









End Planner.

End Diff.

(* ===================================================================== *)
(** * [pkg/config]: loading, includes and merging *)
(* ===================================================================== *)

Module Config.
Import GoStrings Host.

(** [sort.Slice] by insertion.  Go's sort is not stable; the merges below
    sort lists whose keys are distinct, where the outcome is the same. *)
Fixpoint insertBy {V : Type} (less : V -> V -> bool) (x : V) (l : list V) : list V :=
  match l with
  | [] => [x]
  | y :: l' => if less y x then y :: insertBy less x l' else x :: l
  end.

Definition sortBy {V : Type} (less : V -> V -> bool) (l : list V) : list V :=
  fold_right (insertBy less) [] l.

(** [SystemState.Sort] of [pkg/model] *)
Definition Sort (s : Model.SystemState) : Model.SystemState :=
  Model.mkSystemState (Model.Includes s)
    (sortBy (fun a b => String.ltb (Model.PackageName a) (Model.PackageName b))
            (Model.Packages s))
    (sortBy (fun a b => String.ltb (Model.ServiceName a) (Model.ServiceName b))
            (Model.Services s))
    (sortBy (fun a b => String.ltb (Model.UserName a) (Model.UserName b))
            (Model.Users s))
    (sortBy (fun a b => String.ltb (Model.Path a) (Model.Path b)) (Model.Configs s))
    (Model.IgnoredConfigs s)
    (sortBy (fun a b => String.ltb (Model.User a) (Model.User b)) (Model.UserPackages s)).

(** The merges return their result and the warnings they log. *)

Fixpoint appendUnseen {V : Type} (key : V -> string) (seen : gset string)
         (l : list V) : list V :=
  match l with
  | [] => []
  | v :: l' =>
      if bool_decide (key v ∈ seen) then appendUnseen key seen l'
      else v :: appendUnseen key ({[key v]} ∪ seen) l'
  end.

Definition mergePackages (base override : list Model.PackageState)
  : list Model.PackageState :=
  base ++ appendUnseen Model.PackageName
            (list_to_set (map Model.PackageName base)) override.

(** The entries of [override] whose key the map holds when they are
    written, the map starting as [m]. *)
Fixpoint overridden {V : Type} (key : V -> string) (m : gset string) (l : list V)
  : list V :=
  match l with
  | [] => []
  | v :: l' =>
      (if bool_decide (key v ∈ m) then [v] else [])
      ++ overridden key ({[key v]} ∪ m) l'
  end.

Definition serviceKey (svc : Model.ServiceState) : string :=
  Model.ServiceName svc +:+ ":" +:+ Model.Runlevel svc.

Definition mergeServices (base override : list Model.ServiceState)
  : list Model.ServiceState * list string :=
  let serviceMap := Diff.indexBy serviceKey (base ++ override) in
  (sortBy (fun a b =>
             if String.eqb (Model.ServiceName a) (Model.ServiceName b)
             then String.ltb (Model.Runlevel a) (Model.Runlevel b)
             else String.ltb (Model.ServiceName a) (Model.ServiceName b))
          (map snd (map_to_list serviceMap)),
   map (fun _ => "Service overridden")
       (overridden serviceKey (list_to_set (map serviceKey base)) override)).

(** The loop of [mergeUsers] over [override]. *)
Fixpoint mergeUsersInto (userMap : gmap string Model.UserState)
         (override : list Model.UserState) : gmap string Model.UserState * list string :=
  match override with
  | [] => (userMap, [])
  | user :: more =>
      match userMap !! Model.UserName user with
      | Some existing =>
          let groupSet : gset string :=
            list_to_set (Model.Groups existing ++ Model.Groups user) in
          let user' := Model.mkUserState (Model.UserName user) (elements groupSet)
                         (Model.PrimaryGroup user) in
          let '(m, ws) := mergeUsersInto (<[Model.UserName user := user']> userMap) more in
          (m, "User groups merged" :: ws)
      | None => mergeUsersInto (<[Model.UserName user := user]> userMap) more
      end
  end.

Definition mergeUsers (base override : list Model.UserState)
  : list Model.UserState * list string :=
  let '(userMap, ws) := mergeUsersInto (Diff.indexBy Model.UserName base) override in
  (sortBy (fun a b => String.ltb (Model.UserName a) (Model.UserName b))
          (map snd (map_to_list userMap)), ws).

Definition mergeSystemConfigs (base override : list Model.SystemConfigState)
  : list Model.SystemConfigState * list string :=
  let configMap := Diff.indexBy Model.Path (base ++ override) in
  (sortBy (fun a b => String.ltb (Model.Path a) (Model.Path b))
          (map snd (map_to_list configMap)),
   map (fun _ => "Config overridden")
       (overridden Model.Path (list_to_set (map Model.Path base)) override)).

(** [mapKeysToSlice] *)
Definition mapKeysToSlice (m : gset string) : list string :=
  sortBy String.ltb (elements m).

Fixpoint mergeUserPackagesInto (userPkgMap : gmap string Model.UserPackageState)
         (override : list Model.UserPackageState)
  : gmap string Model.UserPackageState * list string :=
  match override with
  | [] => (userPkgMap, [])
  | up :: more =>
      match userPkgMap !! Model.User up with
      | Some existing =>
          let up' := Model.mkUserPackageState (Model.User up)
                       (mapKeysToSlice (list_to_set (Model.Pipx existing ++ Model.Pipx up)))
                       (mapKeysToSlice (list_to_set (Model.Npm existing ++ Model.Npm up))) in
          let '(m, ws) := mergeUserPackagesInto (<[Model.User up := up']> userPkgMap) more in
          (m, "User packages merged" :: ws)
      | None => mergeUserPackagesInto (<[Model.User up := up]> userPkgMap) more
      end
  end.

Definition mergeUserPackages (base override : list Model.UserPackageState)
  : list Model.UserPackageState * list string :=
  let '(userPkgMap, ws) := mergeUserPackagesInto (Diff.indexBy Model.User base) override in
  (sortBy (fun a b => String.ltb (Model.User a) (Model.User b))
          (map snd (map_to_list userPkgMap)), ws).

Definition mergeIgnoredConfigs (base override : list string) : list string :=
  appendUnseen (fun pattern => pattern) ∅ (base ++ override).

Fixpoint warnAll (msgs : list string) : M unit :=
  match msgs with
  | [] => ret tt
  | msg :: more => logAt LvWarn msg ;; warnAll more
  end.

(** [mergeConfigs]; the includes of the result stay empty. *)
Definition mergeConfigs (base override : Model.SystemState) : M Model.SystemState :=
  let packages := mergePackages (Model.Packages base) (Model.Packages override) in
  let services := mergeServices (Model.Services base) (Model.Services override) in
  warnAll (snd services) ;;
  let users := mergeUsers (Model.Users base) (Model.Users override) in
  warnAll (snd users) ;;
  let configs := mergeSystemConfigs (Model.Configs base) (Model.Configs override) in
  warnAll (snd configs) ;;
  let userPackages :=
    mergeUserPackages (Model.UserPackages base) (Model.UserPackages override) in
  warnAll (snd userPackages) ;;
  ret (Model.mkSystemState [] packages (fst services) (fst users) (fst configs)
         (mergeIgnoredConfigs (Model.IgnoredConfigs base) (Model.IgnoredConfigs override))
         (fst userPackages)).

(** [validateIncludes] *)
Definition validateIncludes (includes : list string) : Model.ValidationErrors :=
  concat (imap Model.validateInclude includes).

(** [ValidationErrors.Error] *)
Definition validationMessage (es : Model.ValidationErrors) : error :=
  "configuration validation failed:" +:+ bytes [10]
  +:+ fold_right (fun e acc =>
                    "  - " +:+ Model.Field e +:+ ": " +:+ Model.Message e
                    +:+ bytes [10] +:+ acc) "" es.

Definition setManaged (c : Model.SystemConfigState) : Model.SystemConfigState :=
  Model.mkSystemConfigState (Model.Path c) (Model.Content c) (Model.Mode c)
    (Model.Owner c) (Model.Group c) Model.OriginManaged (Model.Deleted c)
    (Model.FileStatus c) (Model.OriginPackage c).

Section Loader.

(** [yaml.Unmarshal] into a [SystemState]. *)
Variable yaml_Unmarshal : string -> Result Model.SystemState.

(** [filepath.Abs], [filepath.IsAbs], [filepath.Dir], [filepath.Join]. *)
Variable filepath_Abs : string -> Result string.
Variable filepath_IsAbs : string -> bool.
Variable filepath_Dir : string -> string.
Variable filepath_Join : string -> string -> string.

(** [loadConfigFile] *)
Definition loadConfigFile (filename : string) : M Model.SystemState :=
  let* f := Afero.ReadFile filename in
  let* cfg := lift (yaml_Unmarshal f) in
  ret (Model.mkSystemState (Model.Includes cfg) (Model.Packages cfg)
         (Model.Services cfg) (Model.Users cfg) (map setManaged (Model.Configs cfg))
         (Model.IgnoredConfigs cfg) (Model.UserPackages cfg)).

(** [resolveIncludePath] *)
Definition resolveIncludePath (baseFile includePath : string) : string :=
  if filepath_IsAbs includePath then includePath
  else filepath_Join (filepath_Dir baseFile) includePath.

(** A computation that may also run out of the fuel that bounds the depth
    of include nesting followed: [None]. *)
Definition Fueled (A : Type) : Type := World -> option (Result A * World).

Definition fueled {A : Type} (c : M A) : Fueled A := fun w => Some (c w).

Definition bindF {A B : Type} (c : Fueled A) (k : A -> Fueled B) : Fueled B :=
  fun w =>
    match c w with
    | Some (Ok a, w') => k a w'
    | Some (Err e, w') => Some (Err e, w')
    | None => None
    end.

(** The loop of [processIncludesRecursive] over the includes; [recur] is the
    function itself, [visited] the map it shares with its callers. *)
Fixpoint includeLoop
         (recur : Model.SystemState -> string -> gset string
                  -> Fueled (Model.SystemState * gset string))
         (includes : list string) (baseFile : string)
         (result : Model.SystemState) (visited : gset string)
  : Fueled (Model.SystemState * gset string) :=
  match includes with
  | [] => fueled (ret (result, visited))
  | includePath :: more =>
      let resolvedPath := resolveIncludePath baseFile includePath in
      bindF (fueled (System.wrapErr ("failed to load include '" +:+ includePath +:+ "'")
                                    (loadConfigFile resolvedPath)))
        (fun includedCfg =>
      bindF (match Model.Includes includedCfg with
             | [] => fueled (ret (includedCfg, visited))
             | _ => recur includedCfg resolvedPath visited
             end)
        (fun r =>
      bindF (fueled (mergeConfigs result (fst r)))
        (fun result' =>
      includeLoop recur more baseFile result' (snd r))))
  end.

(** [processIncludesRecursive]; the [visited] map comes back as the callee
    leaves it. *)
Fixpoint processIncludesRecursive (fuel : nat) (cfg : Model.SystemState)
         (baseFile : string) (visited : gset string)
  : Fueled (Model.SystemState * gset string) :=
  match fuel with
  | O => fun _ => None
  | S fuel' =>
      match filepath_Abs baseFile with
      | Err err =>
          fueled (fail ("failed to resolve absolute path for " +:+ baseFile +:+ ": "
                        +:+ err))
      | Ok absBase =>
          if bool_decide (absBase ∈ visited)
          then fueled (fail ("circular include detected: " +:+ baseFile))
          else
            bindF (includeLoop (processIncludesRecursive fuel') (Model.Includes cfg)
                     baseFile Model.emptyState ({[absBase]} ∪ visited))
              (fun r =>
            bindF (fueled (mergeConfigs (fst r) cfg))
              (fun result => fueled (ret (result, snd r))))
      end
  end.

(** [processIncludes] *)
Definition processIncludes (fuel : nat) (cfg : Model.SystemState) (baseFile : string)
  : Fueled Model.SystemState :=
  bindF (processIncludesRecursive fuel cfg baseFile ∅)
        (fun r => fueled (ret (fst r))).

(** [LoadConfig] *)
Definition LoadConfig (fuel : nat) (filename : string) : Fueled Model.SystemState :=
  bindF (fueled (loadConfigFile filename)) (fun cfg =>
  match validateIncludes (Model.Includes cfg) with
  | _ :: _ as errs => fueled (fail (validationMessage errs))
  | [] =>
      bindF (match Model.Includes cfg with
             | [] => fueled (ret cfg)
             | _ => processIncludes fuel cfg filename
             end)
        (fun cfg =>
      match Model.Validate cfg with
      | _ :: _ as errs => fueled (fail (validationMessage errs))
      | [] => fueled (ret (Sort cfg))
      end)
  end).

End Loader.

End Config.

(* ===================================================================== *)
(** * Scenarios: concrete hosts, runners and plans *)
(* ===================================================================== *)

Module Scenario.
Import Host.

(** A host with an empty tree, umask 022, run by root. *)
Definition bare : Machine :=
  mkMachine ∅ 18 0 0 [("root", 0%Z)] [("root", 0%Z)] 0 ∅.

Definition fresh (m : Machine) : World := mkWorld m [] [] [].

(** A runner whose commands all succeed silently, but for [failing]. *)
Definition failOn (failing : string) : CommandRunner :=
  fun user command m =>
    if String.eqb command failing then (("", Some "exit status 1"), m)
    else (("", None), m).

(** Scenario S5 of the specification. *)
Definition s5_plan : list Actions.Action :=
  [ Actions.PackageInstallAction "pipx";
    Actions.FileCreateAction "/etc/rollback_test.conf" "x" "0644" "" "";
    Actions.PackageInstallAction "vim" ].

(** A runner that answers [command] with [output] and everything else
    with nothing, never failing. *)
Definition answering (command output : string) : CommandRunner :=
  fun user cmd m =>
    if String.eqb cmd command then ((output, None), m) else (("", None), m).

Definition regular (content : string) (mode : N) : File := mkFile false content mode 0 0.

Definition withFiles (fs : list (string * File)) : Machine :=
  mkMachine (list_to_map fs) 18 0 0 [("root", 0%Z)] [("root", 0%Z)] 0 ∅.

Definition config (path content : string) : Model.SystemConfigState :=
  Model.mkSystemConfigState path content "" "" "" Model.OriginManaged false "" "".

(** No shell glob ever matches, no listing ever decodes: stand-ins for the
    libraries where a scenario does not reach them. *)
Definition noGlob : string -> string -> bool := fun _ _ => false.
Definition noJson : string -> Result (list string) := fun _ => Err "unexpected end of JSON input".

(** *** Intrinsic ignores *)

(** A desired state that manages [/etc/apk/arch]. *)
Definition archDesired : Model.SystemState :=
  Model.mkSystemState [] [] [] [] [config "/etc/apk/arch" "x86_64"] [] [].

(** An audit that reports the added file [/etc/groups]. *)
Definition groupsHost : Machine := withFiles [("/etc/groups", regular "staff" 420)].
Definition groupsAudit : CommandRunner := answering "apk audit" "A etc/groups".

(** *** Includes *)

(** A document format for the scenarios: a line [include P] names an
    include, a line [package N] a package. *)
Definition readDocument (text : string) : Result Model.SystemState :=
  let lines := GoStrings.Split text (GoStrings.bytes [10]) in
  Ok (Model.mkSystemState
        (map (fun l => GoStrings.TrimPrefix l "include ")
             (List.filter (fun l => GoStrings.HasPrefix l "include ") lines))
        (map (fun l => Model.mkPackageState (GoStrings.TrimPrefix l "package "))
             (List.filter (fun l => GoStrings.HasPrefix l "package ") lines))
        [] [] [] [] []).

Definition absolute (path : string) : Result string := Ok path.
Definition isAbs (path : string) : bool := GoStrings.HasPrefix path "/".
Definition dirOf (path : string) : string := "/cfg".
Definition join (dir path : string) : string := dir +:+ "/" +:+ path.

Definition load (fuel : nat) (filename : string) : Config.Fueled Model.SystemState :=
  Config.LoadConfig readDocument absolute isAbs dirOf join fuel filename.

Definition nl : string := GoStrings.bytes [10].

(** [a] includes [b] and [c]; both include [d]; [d] includes [e]. *)
Definition diamondHost : Machine :=
  withFiles
    [ ("/cfg/a.yaml", regular ("include /cfg/b.yaml" +:+ nl +:+ "include /cfg/c.yaml") 420);
      ("/cfg/b.yaml", regular ("include /cfg/d.yaml" +:+ nl +:+ "package vim") 420);
      ("/cfg/c.yaml", regular "include /cfg/d.yaml" 420);
      ("/cfg/d.yaml", regular "include /cfg/e.yaml" 420);
      ("/cfg/e.yaml", regular "package htop" 420) ].

(** The same, with [d] including nothing. *)
Definition leafDiamondHost : Machine :=
  withFiles
    [ ("/cfg/a.yaml", regular ("include /cfg/b.yaml" +:+ nl +:+ "include /cfg/c.yaml") 420);
      ("/cfg/b.yaml", regular ("include /cfg/d.yaml" +:+ nl +:+ "package vim") 420);
      ("/cfg/c.yaml", regular "include /cfg/d.yaml" 420);
      ("/cfg/d.yaml", regular "package htop" 420) ].

(** Scenario S6: [a] includes [b], [b] includes [a]. *)
Definition cycleHost : Machine :=
  withFiles
    [ ("/cfg/a.yaml", regular "include /cfg/b.yaml" 420);
      ("/cfg/b.yaml", regular "include /cfg/a.yaml" 420) ].

(** The include graph of a host: the includes a document names, and the
    documents reached from [paths] by following [n] includes. *)
Definition includesOf (m : Machine) (path : string) : list string :=
  match Afero.readIn m path with
  | Ok text =>
      match readDocument text with
      | Ok cfg => Model.Includes cfg
      | Err _ => []
      end
  | Err _ => []
  end.

Fixpoint reached (m : Machine) (n : nat) (paths : list string) : list string :=
  match n with
  | O => paths
  | S k => reached m k (flat_map (includesOf m) paths)
  end.

(** *** Users *)

(** A runner that lists three groups. *)
Definition groupRunner : CommandRunner :=
  answering "sh -c 'cat /etc/group'"
    ("wheel:x:10:root" +:+ nl +:+ "audio:x:18:" +:+ nl +:+ "alice:x:1000:" +:+ nl).

Definition users (us : list Model.UserState) : Model.SystemState :=
  Model.mkSystemState [] [] [] us [] [] [].

(** [alice] is to be in [wheel] only; she has [alice] as primary group and
    is in [wheel] and [audio]. *)
Definition aliceDesired : Model.SystemState :=
  users [Model.mkUserState "alice" ["wheel"] ""].
Definition aliceCurrent : Model.SystemState :=
  users [Model.mkUserState "alice" ["alice"; "wheel"; "audio"] "alice"].

(** A current state that lists [alice] twice, as a passwd file with a
    repeated name makes it: first with [audio] as primary group, then with
    [wheel]. *)
Definition aliceTwiceCurrent : Model.SystemState :=
  users [Model.mkUserState "alice" ["audio"; "wheel"] "audio";
         Model.mkUserState "alice" ["audio"; "wheel"] "wheel"].

(** [bob] is to be created, in a group the host does not have. *)
Definition bobDesired : Model.SystemState :=
  users [Model.mkUserState "bob" ["docker"] ""].

(** The same user listed twice, with different groups, on both sides. *)
Definition twice : Model.SystemState :=
  users [Model.mkUserState "alice" ["wheel"] "alice";
         Model.mkUserState "alice" ["audio"] "alice"].

(** *** A converged system *)

(** A runner that answers from a table of (user, command, output). *)
Definition answers (table : list (string * string * string)) : CommandRunner :=
  fun user cmd m =>
    match List.find (fun e => String.eqb (fst (fst e)) user && String.eqb (snd (fst e)) cmd)
                    table with
    | Some e => ((snd e, None), m)
    | None => (("", None), m)
    end.

(** A listing format for the scenarios: package names between blanks. *)
Definition spaced (output : string) : Result (list string) :=
  Ok (List.filter Actions.nonEmpty (GoStrings.Split output " ")).

Definition settledDesired : Model.SystemState :=
  Model.mkSystemState []
    [Model.mkPackageState "htop"; Model.mkPackageState "pipx"]
    [Model.mkServiceState "sshd" true "default"]
    [Model.mkUserState "alice" ["wheel"] ""]
    [config "/etc/motd" "Hello"]
    []
    [Model.mkUserPackageState "alice" ["ruff"] []].

Definition settledCurrent : Model.SystemState :=
  Model.mkSystemState []
    [Model.mkPackageState "pipx"; Model.mkPackageState "htop"]
    [Model.mkServiceState "sshd" true "boot"]
    [Model.mkUserState "alice" ["wheel"] "alice"]
    [Model.mkSystemConfigState "/etc/motd" "Hello" "" "" "" Model.OriginUserCreated
       false "" ""]
    [] [].

Definition settledRunner : CommandRunner :=
  answers [ ("", "sh -c 'cat /etc/group'", "wheel:x:10:root" +:+ nl);
            ("alice", "pipx list --json", "ruff") ].




(** *** Reverting a file *)

(** [/etc/ssh/sshd_config] was edited and made private; the cached package
    holds the packaged file. *)
Definition revertHost : Machine :=
  withFiles
    [ ("/etc/ssh/sshd_config", regular "PermitRootLogin yes" 384);
      ("/var/cache/apk/openssh-9.3_p2-r0.apk", regular "(archive)" 420) ].

(** [apk info] names the version; [tar] extracts the packaged file, mode
    0644, into the directory it is given. *)
Definition apkRunner : CommandRunner :=
  fun user cmd m =>
    if String.eqb cmd "apk info openssh"
    then (("openssh-9.3_p2-r0 description:", None), m)
    else if String.eqb cmd
              "tar -xzf /var/cache/apk/openssh-9.3_p2-r0.apk -C /tmp/summit-apk-0 etc/ssh/sshd_config"
    then (("", None),
          with_files m (<["/tmp/summit-apk-0/etc/ssh/sshd_config" :=
                            regular "PermitRootLogin no" 420]> (files m)))
    else (("", Some "exit status 127"), m).

Definition revertAction : Actions.Action :=
  Actions.FileRevertAction "/etc/ssh/sshd_config" "openssh" "".

(** *** Deleting a file *)

Definition motdHost : Machine := withFiles [("/etc/motd", regular "Hello" 420)].

Definition deleteMotd : Actions.Action := Actions.FileDeleteAction "/etc/motd" "" 0 "" "".

End Scenario.

(* ===================================================================== *)
(** * Predicates used in the statements below *)
(* ===================================================================== *)

(** What validation asks of one entry of each kind. *)
Definition okInclude (include : string) : Prop := GoStrings.TrimSpace include <> "".
Definition okPackage (pkg : Model.PackageState) : Prop :=
  GoStrings.TrimSpace (Model.PackageName pkg) <> ""
  /\ Model.isValidPackageName (Model.PackageName pkg) = true.
Definition okService (svc : Model.ServiceState) : Prop :=
  GoStrings.TrimSpace (Model.ServiceName svc) <> ""
  /\ (Model.Runlevel svc = "" \/ Model.ValidRunlevels (Model.Runlevel svc) = true).
Definition okUser (user : Model.UserState) : Prop :=
  GoStrings.TrimSpace (Model.UserName user) <> ""
  /\ Model.isValidUserName (Model.UserName user) = true
  /\ forall g, In g (Model.Groups user) -> Model.isValidUserName g = true.
Definition okConfig (cfg : Model.SystemConfigState) : Prop :=
  GoStrings.TrimSpace (Model.Path cfg) <> ""
  /\ GoStrings.HasPrefix (Model.Path cfg) "/" = true
  /\ GoStrings.Contains (Model.Path cfg) ".." = false
  /\ Model.isIntrinsicIgnore (Model.Path cfg) = false
  /\ (Model.Mode cfg = "" \/ Model.isValidOctalMode (Model.Mode cfg) = true)
  /\ (Model.Owner cfg = "" \/ Model.isValidUserName (Model.Owner cfg) = true)
  /\ (Model.Group cfg = "" \/ Model.isValidUserName (Model.Group cfg) = true).
Definition okUserPackage (users : list Model.UserState) (up : Model.UserPackageState) : Prop :=
  In (Model.User up) (map Model.UserName users)
  /\ (forall p, In p (Model.Pipx up) -> Model.isValidPackageName p = true)
  /\ (forall p, In p (Model.Npm up) -> Model.isValidPackageName p = true).

(** The mode the audit writes for permission bits [n] parses back to [n]
    and passes the validator exactly from 0o100 on. *)
Definition modeRoundTrips (n : N) : bool :=
  match Actions.ParseUint8 ("0" +:+ System.FormatOctal n) with
  | Ok m => (m =? n)%N
  | Err _ => false
  end
  && Bool.eqb (Model.isValidOctalMode ("0" +:+ System.FormatOctal n)) (64 <=? n)%N.


(** The audit's result with the list of suppressed paths left out. *)
Definition withoutIgnored
    (r : Result (list Model.SystemConfigState * list Model.IgnoredConfig))
  : Result (list Model.SystemConfigState * list Model.IgnoredConfig) :=
  match r with
  | Ok (cfgs, _) => Ok (cfgs, [])
  | Err e => Err e
  end.

Definition withoutNotes (acc : System.AuditAcc) : System.AuditAcc :=
  System.mkAuditAcc (System.configs acc) [] (System.modifiedFiles acc).

Definition onOk {A B : Type} (f : A -> B) (r : Result A) : Result B :=
  match r with
  | Ok a => Ok (f a)
  | Err e => Err e
  end.




(** The file an action works on, for the six file actions. *)
Definition pathOf (a : Actions.Action) : option string :=
  match a with
  | Actions.FileCreateAction p _ _ _ _
  | Actions.FileUpdateAction p _ _ _
  | Actions.FileDeleteAction p _ _ _ _
  | Actions.FileRevertAction p _ _
  | Actions.FileChmodAction p _ _
  | Actions.FileChownAction p _ _ _ _ => Some p
  | _ => None
  end.

(** The commands the planner hands to the runner: the listing of
    [/etc/group] and the package listings of the two user-level managers. *)
Definition queryCommand (c : string * string) : Prop :=
  snd c = "sh -c 'cat /etc/group'"
  \/ snd c = "pipx list --json"
  \/ snd c = "npm list --json".

(** A runner that leaves the machine as it is. *)
Definition readOnly (runner : Host.CommandRunner) : Prop :=
  forall user command m, snd (runner user command m) = m.

(** [w'] is reached from [w] by handing the runner commands among the
    [allowed] ones only, logging nothing; the machine is the same when the
    runner leaves it so. *)
Definition askedOnly (allowed : string * string -> Prop) (runner : Host.CommandRunner)
           (w w' : Host.World) : Prop :=
  (exists cs, Host.calls w' = Host.calls w ++ cs /\ Forall allowed cs)
  /\ Host.logged w' = Host.logged w
  /\ (readOnly runner -> Host.machine w' = Host.machine w).

(** The commands the inference of the current state hands to the runner,
    all as the engine's own user: the audit, the query for the owners of
    changed files and the groups of a user. *)
Definition inferCommand (c : string * string) : Prop :=
  fst c = ""
  /\ (snd c = "apk audit"
      \/ GoStrings.HasPrefix (snd c) "apk info --who-owns" = true
      \/ GoStrings.HasPrefix (snd c) "groups " = true).

(** The kinds of action that work through commands run as the engine's
    own user. *)
Definition systemKind (a : Actions.Action) : bool :=
  match a with
  | Actions.PackageInstallAction _ | Actions.PackageRemoveAction _
  | Actions.ServiceEnableAction _ _ | Actions.ServiceDisableAction _ _
  | Actions.UserCreateAction _ | Actions.UserRemoveAction _
  | Actions.GroupCreateAction _
  | Actions.AddUserToGroupAction _ _ | Actions.RemoveUserFromGroupAction _ _ => true
  | _ => false
  end.

(** [res] is the outcome of handing [c1] and then [c2] to the runner from
    [w], whatever the first returns: both are recorded, the machine is the
    one the second leaves, and the error is the last one seen. *)
Definition triedBoth (runner : Host.CommandRunner) (c1 c2 : string) (w : Host.World)
           (res : Result unit * Host.World) : Prop :=
  let r1 := runner "" c1 (Host.machine w) in
  let r2 := runner "" c2 (snd r1) in
  Host.calls (snd res) = Host.calls w ++ [("", c1); ("", c2)]
  /\ Host.machine (snd res) = snd r2
  /\ (fst res = Ok tt <-> snd (fst r1) = None /\ snd (fst r2) = None)
  /\ (forall e, snd (fst r2) = Some e -> fst res = Err e)
  /\ (forall e, snd (fst r2) = None -> snd (fst r1) = Some e -> fst res = Err e).

(** The file actions that need the file to be there. *)
Definition needsFile (a : Actions.Action) : bool :=
  match a with
  | Actions.FileUpdateAction _ _ _ _
  | Actions.FileDeleteAction _ _ _ _ _
  | Actions.FileRevertAction _ _ _
  | Actions.FileChmodAction _ _ _
  | Actions.FileChownAction _ _ _ _ _ => true
  | _ => false
  end.

(** The file actions that work on the file tree alone. *)
Definition treeOnly (a : Actions.Action) : bool :=
  match a with
  | Actions.FileCreateAction _ _ _ _ _
  | Actions.FileUpdateAction _ _ _ _
  | Actions.FileDeleteAction _ _ _ _ _
  | Actions.FileChmodAction _ _ _
  | Actions.FileChownAction _ _ _ _ _ => true
  | _ => false
  end.

(** [w'] differs from [w] at most in the entry of [p], in the log and in
    what was printed: no command was run, no other entry touched, and
    umask, identity and account databases are the same. *)
Definition touchedOnly (p : string) (w w' : Host.World) : Prop :=
  Host.calls w' = Host.calls w
  /\ (forall q, q <> p ->
        Host.files (Host.machine w') !! q = Host.files (Host.machine w) !! q)
  /\ Host.passwd (Host.machine w') = Host.passwd (Host.machine w)
  /\ Host.groupdb (Host.machine w') = Host.groupdb (Host.machine w)
  /\ Host.umask (Host.machine w') = Host.umask (Host.machine w).

(** [w'] differs from [w] in the log at most. *)
Definition loggedOnly (w w' : Host.World) : Prop :=
  Host.machine w' = Host.machine w
  /\ Host.calls w' = Host.calls w
  /\ Host.printed w' = Host.printed w.

(** Every outcome of [c] leaves a world that differs in the log at most. *)
Definition logsOnly {A : Type} (c : Config.Fueled A) : Prop :=
  forall w r w', c w = Some (r, w') -> loggedOnly w w'.

(** A host with two init scripts, one of them in the default runlevel, and
    two accounts, one of them a system account. *)
Definition servicesHost : Host.Machine :=
  Scenario.withFiles
    [ ("/etc/init.d", Host.mkFile true "" 493 0 0);
      ("/etc/init.d/sshd", Scenario.regular "#!/sbin/openrc-run" 493);
      ("/etc/init.d/crond", Scenario.regular "#!/sbin/openrc-run" 493);
      ("/etc/init.d/functions.sh", Scenario.regular "" 420);
      ("/etc/runlevels/default/sshd", Scenario.regular "#!/sbin/openrc-run" 493);
      ("/etc/group", Scenario.regular ("root:x:0:root" +:+ Scenario.nl
                                       +:+ "alice:x:1000:" +:+ Scenario.nl) 420);
      ("/etc/passwd",
       Scenario.regular ("root:x:0:0:root:/root:/bin/ash" +:+ Scenario.nl
                         +:+ "alice:x:1000:1000:Alice:/home/alice:/bin/ash"
                         +:+ Scenario.nl) 420) ].

Definition groupsOfAlice : Host.CommandRunner :=
  Scenario.answering "groups alice" ("alice wheel" +:+ Scenario.nl).

(* ===================================================================== *)
(** * Theorems *)
(* ===================================================================== *)

Example split_two : GoStrings.Split "/etc/ssh/**/*.pub" "**" = ["/etc/ssh/"; "/*.pub"].
Proof. reflexivity. Qed.
Example split_star3 : GoStrings.Split "***" "**" = [""; "*"].
Proof. reflexivity. Qed.
Example split_star4 : GoStrings.Split "****" "**" = [""; ""; ""].
Proof. reflexivity. Qed.
Example trim1 : GoStrings.TrimSpace "  ab c  " = "ab c".
Proof. reflexivity. Qed.
Example trim2 : GoStrings.TrimSpace (GoStrings.bytes [32; 194; 160; 9]) = "".
Proof. reflexivity. Qed.
Example suffix1 : GoStrings.HasSuffix "/etc/x.bak" ".bak" = true.
Proof. reflexivity. Qed.

Example validate_passwd :
  Model.Validate (Model.mkSystemState [] [] [] []
     [Model.mkSystemConfigState "/etc/passwd" "x" "" "" "" Model.OriginManaged false "" ""] [] [])
  = [Model.mkValidationError "configs[0].path"
       "cannot manage intrinsically ignored file (security/safety reasons)"].
Proof. vm_compute. reflexivity. Qed.

(** ** The transactional executor *)

Section ExecutorFacts.
Context {A W : Type}.
Variable E : Cmd.Env A W.
Import Cmd.

Lemma numbered_app (from : nat) (l1 l2 : list A) :
  numbered from (l1 ++ l2) = numbered from l1 ++ numbered (from + length l1) l2.
Proof.
  revert from; induction l1 as [|x l1 IH]; intros from; simpl.
  - unfold numbered. simpl. by rewrite Nat.add_0_r.
  - unfold numbered in *. simpl. f_equal.
    rewrite length_app, <- Nat.add_succ_comm.
    specialize (IH (S from)). rewrite length_app in IH. exact IH.
Qed.

Lemma numbered_fst (from : nat) (l : list A) :
  map fst (numbered from l) = seq from (length l).
Proof.
  unfold numbered. revert from; induction l as [|x l IH]; intros from; simpl; [done|].
  by rewrite IH.
Qed.

Lemma numbered_snd (from : nat) (l : list A) :
  map snd (numbered from l) = l.
Proof.
  unfold numbered. revert from; induction l as [|x l IH]; intros from; simpl; [done|].
  by rewrite IH.
Qed.





End ExecutorFacts.



Example s5_outcome :
  let w := snd (Cmd.executePlan (Cmd.hostEnv (Scenario.failOn "apk add vim"))
                  Scenario.s5_plan (Scenario.fresh Scenario.bare)) in
  Host.files (Host.machine w) !! "/etc/rollback_test.conf" = None
  /\ Host.calls w = [("", "apk add pipx"); ("", "apk add vim"); ("", "apk del pipx")].
Proof. vm_compute. split; reflexivity. Qed.

(** ** Includes *)

Example load_cycle :
  exists w, Scenario.load 10 "/cfg/a.yaml" (Scenario.fresh Scenario.cycleHost)
            = Some (Err "circular include detected: /cfg/a.yaml", w).
Proof. eexists. vm_compute. reflexivity. Qed.

Example load_leaf_diamond :
  exists w, Scenario.load 10 "/cfg/a.yaml" (Scenario.fresh Scenario.leafDiamondHost)
            = Some (Ok (Model.mkSystemState [] [Model.mkPackageState "htop";
                                                Model.mkPackageState "vim"] [] [] [] [] []), w).
Proof. eexists. vm_compute. reflexivity. Qed.

(** C5.  On an acyclic include graph in which a document with includes of
    its own is reached along two paths, loading fails with the error for a
    circular include: the paths marked as being processed are never
    unmarked.  No document of [diamondHost] reaches itself (five includes
    deep nothing is left), yet [d] is reported. *)
Theorem diamond_reported_circular :
  Scenario.reached Scenario.diamondHost 5 ["/cfg/a.yaml"] = []
  /\ exists w, Scenario.load 10 "/cfg/a.yaml" (Scenario.fresh Scenario.diamondHost)
               = Some (Err "circular include detected: /cfg/d.yaml", w).
Proof. split; [vm_compute; reflexivity|]. eexists. vm_compute. reflexivity. Qed.

(** ** Intrinsic ignores *)

Lemma HasPrefix_refl (s : string) : GoStrings.HasPrefix s s = true.
Proof. induction s as [|c s IH]; simpl; [done|]. by rewrite Ascii.eqb_refl. Qed.

(** Validation reports every desired config the model's predicate holds
    of, at its position. *)
Lemma validate_rejects_intrinsic (s : Model.SystemState) (i : nat)
      (cfg : Model.SystemConfigState) :
  Model.Configs s !! i = Some cfg ->
  Model.isIntrinsicIgnore (Model.Path cfg) = true ->
  Model.mkValidationError (Model.idx "configs" i ".path")
    "cannot manage intrinsically ignored file (security/safety reasons)"
  ∈ Model.Validate s.
Proof.
  intros Hi Hig. unfold Model.Validate.
  rewrite !elem_of_app. right. right. right. right. left.
  apply list_elem_of_In, in_concat.
  exists (Model.validateConfig i cfg). split.
  - apply list_elem_of_In, elem_of_lookup_imap. eauto.
  - unfold Model.validateConfig. rewrite Hig.
    apply list_elem_of_In. rewrite !elem_of_app.
    right. right. right. left. simpl. apply list_elem_of_here.
Qed.

(** What the audit loop suppresses: a prefix test against all seven listed
    paths, beside the run-level prefix and the two suffixes. *)
Lemma intrinsicReason_spec (p : string) :
  is_Some (System.intrinsicReason p) <->
  GoStrings.HasPrefix p "/etc/runlevels" = true
  \/ GoStrings.HasSuffix p "-" = true
  \/ GoStrings.HasSuffix p ".bak" = true
  \/ exists ip, In ip System.ignoredPaths /\ GoStrings.HasPrefix p ip = true.
Proof.
  unfold System.intrinsicReason.
  destruct (GoStrings.HasPrefix p "/etc/runlevels") eqn:H1; [split; eauto|].
  destruct (GoStrings.HasSuffix p "-") eqn:H2; [split; simpl; eauto|].
  destruct (GoStrings.HasSuffix p ".bak") eqn:H3; [split; simpl; eauto|].
  cbv beta iota delta [orb].
  match goal with
  | |- context [find ?f ?l] => destruct (find f l) as [ip|] eqn:Hf
  end.
  - split; [intros _|eauto]. apply find_some in Hf as [Hin Hm].
    right. right. right. exists ip. split; [done|].
    apply orb_true_iff in Hm as [Heq|Hp]; [|done].
    apply String.eqb_eq in Heq. subst. apply HasPrefix_refl.
  - split; [intros [x Hx]; discriminate|].
    intros [?|[?|[?|[ip [Hin Hp]]]]]; try discriminate.
    eapply find_none in Hf; [|exact Hin].
    apply orb_false_iff in Hf as [_ Hf]. congruence.
Qed.

(** C2.  The validator's predicate lacks two entries of the intrinsic-ignore
    set, [/etc/apk/arch] and the [ca-certificates.list] file, which the
    audit loop does suppress: a desired state managing [/etc/apk/arch]
    passes validation, and the planner, which tests user patterns only,
    creates the file. *)
Theorem arch_config_validated_and_planned :
  System.intrinsicReason "/etc/apk/arch" = Some "intrinsic: /etc/apk/arch"
  /\ System.intrinsicReason "/etc/apk/protected_paths.d/ca-certificates.list"
     = Some "intrinsic: /etc/apk/protected_paths.d/ca-certificates.list"
  /\ Model.isIntrinsicIgnore "/etc/apk/arch" = false
  /\ Model.isIntrinsicIgnore "/etc/apk/protected_paths.d/ca-certificates.list" = false
  /\ Model.Validate Scenario.archDesired = []
  /\ exists w,
       Diff.CalculatePlan Scenario.noGlob Scenario.noJson Scenario.noJson
         Scenario.archDesired Model.emptyState (Scenario.answering "" "") false
         (Scenario.fresh Scenario.bare)
       = (Ok [Actions.FileCreateAction "/etc/apk/arch" "x86_64" "" "" ""], w).
Proof.
  repeat split; try (vm_compute; reflexivity).
  eexists. vm_compute. reflexivity.
Qed.

(** C8.  The audit loop tests every listed path as a prefix, the four
    exact-match paths included: the added file [/etc/groups] is suppressed
    and recorded under [/etc/group], while the validator's predicate, which
    compares those four for equality, does not hold of it. *)
Theorem groups_file_suppressed :
  Model.isIntrinsicIgnore "/etc/groups" = false
  /\ System.intrinsicReason "/etc/groups" = Some "intrinsic: /etc/group"
  /\ (exists w,
        System.listSystemConfigs Scenario.groupsAudit false
          (Scenario.fresh Scenario.groupsHost)
        = (Ok ([], [Model.mkIgnoredConfig "/etc/groups" "intrinsic: /etc/group"]), w))
  /\ (exists w,
        System.listSystemConfigs Scenario.groupsAudit true
          (Scenario.fresh Scenario.groupsHost)
        = (Ok ([], []), w)).
Proof.
  repeat split; try (vm_compute; reflexivity); eexists; vm_compute; reflexivity.
Qed.

(** A path next to it that nothing suppresses is kept, with what is on
    disk. *)
Example motd_kept :
  exists w,
    System.listSystemConfigs (Scenario.answering "apk audit" "A etc/motd") false
      (Scenario.fresh (Scenario.withFiles [("/etc/motd", Scenario.regular "Hello" 420)]))
    = (Ok ([Model.mkSystemConfigState "/etc/motd" "Hello" "0644" "root" "root"
              Model.OriginUserCreated false "" ""], []), w).
Proof. eexists. vm_compute. reflexivity. Qed.

(** ** The live runner *)

(** C9.  The command the live runner executes is [sh -c command] under the
    identity of the calling process, whatever the user argument: two calls
    that differ in the user alone are the same call. *)
Theorem live_runner_ignores_user (os : System.Os) (u1 u2 command : string) :
  System.LiveCommandRunner_Run os u1 command
  = System.LiveCommandRunner_Run os u2 command
  /\ System.LiveCommandRunner_Run os u1 command
     = os (System.mkCmd "sh" ["sh"; "-c"; command] None).
Proof. split; reflexivity. Qed.

(** ** Field checks of the actions *)

Example blank_examples :
  Actions.blank "" = true /\ Actions.blank "   " = true
  /\ Actions.blank (GoStrings.bytes [9; 10; 32; 194; 160; 227; 128; 128]) = true
  /\ Actions.blank " x " = false.
Proof. vm_compute. repeat split; reflexivity. Qed.

(** C10.  An action of a kind that carries names, with a required field
    empty or white space only (or, for a user package, a state that is
    neither present nor absent), fails in [Apply] and leaves the world as it
    was: no command reaches the runner, the file tree is untouched, nothing
    is logged. *)
Theorem apply_rejects_unfit (runner : Host.CommandRunner) (a : Actions.Action)
        (w : Host.World) :
  Actions.unfit a = true ->
  exists e : error, Actions.Apply runner a w = (Err e, w).
Proof.
  destruct a; simpl; try discriminate; intros H;
    unfold Actions.keep, Actions.PackageInstall_Apply, Actions.PackageRemove_Apply,
      Actions.ServiceEnable_Apply, Actions.ServiceDisable_Apply,
      Actions.UserCreate_Apply, Actions.UserRemove_Apply, Actions.GroupCreate_Apply,
      Actions.AddUserToGroup_Apply, Actions.RemoveUserFromGroup_Apply,
      Actions.UserPackage_Apply, Actions.runErr, Host.bind, Host.fail, Host.ret;
    repeat match goal with
      | |- context [Actions.blank ?s] => destruct (Actions.blank s); [eauto|]
      end;
    try discriminate.
  simpl in H. apply negb_true_iff, orb_false_iff in H as [H1 H2].
  rewrite H1, H2. eauto.
Qed.

Lemma apply_rejects_unfit_witness :
  exists e : error,
    Actions.Apply (Scenario.failOn "") (Actions.ServiceEnableAction "nginx" "  ")
      (Scenario.fresh Scenario.bare)
    = (Err e, Scenario.fresh Scenario.bare).
Proof.
  apply (apply_rejects_unfit (Scenario.failOn "")
           (Actions.ServiceEnableAction "nginx" "  ") (Scenario.fresh Scenario.bare)).
  vm_compute. reflexivity.
Defined.

(** A fit action does reach the runner. *)
Example apply_fit_runs :
  Host.calls (snd (Actions.Apply (Scenario.failOn "")
                     (Actions.ServiceEnableAction "nginx" "default")
                     (Scenario.fresh Scenario.bare)))
  = [("", "rc-update add nginx default"); ("", "rc-service nginx start")].
Proof. vm_compute. reflexivity. Qed.

(** ** The glob matcher *)

Lemma split_from_length (sep : string) (s : string) :
  forall (skip : nat) (cur : string),
    length (GoStrings.split_from sep skip cur s) = S (GoStrings.count_from sep skip s).
Proof.
  induction s as [|c s IH]; intros skip cur;
    cbn [GoStrings.split_from GoStrings.count_from]; [done|].
  destruct skip as [|k]; [|apply IH].
  destruct (GoStrings.HasPrefix (String c s) sep); cbn [length]; by rewrite IH.
Qed.

Lemma count_from_Contains (sep : string) (s : string) :
  forall skip : nat, 1 <= GoStrings.count_from sep skip s -> GoStrings.Contains s sep = true.
Proof.
  induction s as [|c s IH]; intros skip;
    cbn [GoStrings.count_from GoStrings.Contains]; [lia|].
  destruct skip as [|k].
  - destruct (GoStrings.HasPrefix (String c s) sep) eqn:Hp.
    + intros _. reflexivity.
    + intros H. rewrite (IH _ H). apply orb_true_r.
  - intros H. rewrite (IH _ H). apply orb_true_r.
Qed.

Lemma append_empty (s : string) : s +:+ "" = s.
Proof.
  induction s as [|c s IH]; [done|].
  change (String c s +:+ "") with (String c (s +:+ "")). by rewrite IH.
Qed.

Lemma append_snoc (s t : string) (c : ascii) :
  (s +:+ String c "") +:+ t = s +:+ String c t.
Proof.
  induction s as [|d s IH]; [done|].
  change ((String d s +:+ String c "") +:+ t) with (String d ((s +:+ String c "") +:+ t)).
  by rewrite IH.
Qed.

Lemma split_from_none (sep : string) (s : string) :
  forall cur : string,
    GoStrings.count_from sep 0 s = 0 ->
    GoStrings.split_from sep 0 cur s = [cur +:+ s].
Proof.
  induction s as [|c s IH]; intros cur;
    cbn [GoStrings.split_from GoStrings.count_from].
  - intros _. by rewrite append_empty.
  - destruct (GoStrings.HasPrefix (String c s) sep); [discriminate|].
    intros H. by rewrite (IH _ H), append_snoc.
Qed.

(** What is left of the part after the [**]. *)
Lemma leading_stars_match (fm : string -> string -> bool) (rest path : string) :
  GoStrings.Count rest "**" = 0 ->
  Diff.MatchesGlob fm ("**" +:+ rest) path
  = GoStrings.HasSuffix path
      (if GoStrings.HasPrefix rest "/*" then GoStrings.drop 2 rest
       else if GoStrings.HasPrefix rest "*" then GoStrings.drop 1 rest
       else rest).
Proof.
  intros Hc. unfold Diff.MatchesGlob.
  change (GoStrings.Contains ("**" +:+ rest) "**") with (true || GoStrings.Contains ("*" +:+ rest) "**").
  cbv beta iota delta [orb].
  change (GoStrings.Split ("**" +:+ rest) "**") with ("" :: GoStrings.split_from "**" 0 "" rest).
  rewrite split_from_none by exact Hc. simpl. reflexivity.
Qed.

(** C6 as stated fails: a pattern that starts with [**] matches the paths
    with the right ending. *)
Lemma leading_stars_do_match :
  ~ (forall (fm : string -> string -> bool) (pattern path : string),
        2 <= GoStrings.Count pattern "**" \/ GoStrings.HasPrefix pattern "**" = true ->
        Diff.MatchesGlob fm pattern path = false).
Proof.
  intros H.
  specialize (H Scenario.noGlob "**/*.pub" "/etc/ssh/keys/host.pub" (or_intror eq_refl)).
  vm_compute in H. discriminate.
Qed.

(** C6, amended.  A pattern in which [strings.Split] finds two or more
    [**] (instances counted left to right without overlap, as
    [strings.Count] does) matches no path.  A pattern that starts with its
    only [**] is matched like any other: it matches the paths that end with
    what follows the [**], less a leading [/*] or [*]. *)
Theorem glob_double_star (fm : string -> string -> bool) (pattern path : string) :
  (2 <= GoStrings.Count pattern "**" -> Diff.MatchesGlob fm pattern path = false)
  /\ (forall rest : string,
        pattern = "**" +:+ rest ->
        GoStrings.Count rest "**" = 0 ->
        Diff.MatchesGlob fm pattern path
        = GoStrings.HasSuffix path
            (if GoStrings.HasPrefix rest "/*" then GoStrings.drop 2 rest
             else if GoStrings.HasPrefix rest "*" then GoStrings.drop 1 rest
             else rest)).
Proof.
  split.
  - intros Hc. unfold Diff.MatchesGlob.
    rewrite (count_from_Contains "**" pattern 0) by (unfold GoStrings.Count in Hc; lia).
    pose proof (split_from_length "**" pattern 0 "") as Hl.
    unfold GoStrings.Count in Hc. unfold GoStrings.Split.
    destruct (GoStrings.split_from "**" 0 "" pattern) as [|a [|b [|c l]]]; simpl in Hl;
      try reflexivity; lia.
  - intros rest -> Hc. by apply leading_stars_match.
Qed.

Lemma glob_double_star_witness :
  Diff.MatchesGlob Scenario.noGlob "/etc/**/ssh/**/*.pub" "/etc/a/ssh/b/host.pub" = false
  /\ Diff.MatchesGlob Scenario.noGlob "**/*.pub" "/etc/ssh/keys/host.pub"
     = GoStrings.HasSuffix "/etc/ssh/keys/host.pub" ".pub".
Proof.
  split.
  - apply (proj1 (glob_double_star Scenario.noGlob "/etc/**/ssh/**/*.pub"
                    "/etc/a/ssh/b/host.pub")).
    vm_compute. lia.
  - apply (proj2 (glob_double_star Scenario.noGlob "**/*.pub" "/etc/ssh/keys/host.pub")
             "/*.pub"); reflexivity.
Defined.

(** ** The planner *)

Lemma indexBy_fold_lookup {V : Type} (key : V -> string) (l : list V) :
  forall (acc : gmap string V) (k : string) (v : V),
    fold_left (fun m x => <[key x := x]> m) l acc !! k = Some v ->
    (In v l /\ key v = k) \/ acc !! k = Some v.
Proof.
  induction l as [|x l IH]; intros acc k v H; simpl in *; [by right|].
  apply IH in H as [[Hin Hk]|H]; [left; auto|].
  destruct (decide (key x = k)) as [<-|Hne].
  - rewrite lookup_insert_eq in H. inversion H; subst. left; auto.
  - rewrite lookup_insert_ne in H by done. by right.
Qed.

Lemma indexBy_lookup {V : Type} (key : V -> string) (l : list V) (k : string) (v : V) :
  Diff.indexBy key l !! k = Some v -> In v l /\ key v = k.
Proof.
  intros H. apply indexBy_fold_lookup in H as [H|H]; [done|].
  by rewrite lookup_empty in H.
Qed.

Section PlannerFacts.
Variable fm : string -> string -> bool.
Variables pipx npm : string -> Result (list string).

(** No action that removes a user from a group comes from the packages,
    the services, the configs or the user packages. *)
Lemma packageActions_kind d c a :
  In a (Diff.calculatePackageActions d c) -> ~ Actions.removesFromGroup a.
Proof.
  unfold Diff.calculatePackageActions. rewrite in_app_iff, !in_flat_map.
  intros [[kv [_ H]]|[kv [_ H]]];
    match type of H with context [match ?x with _ => _ end] => destruct x end;
    simpl in H; try tauto; destruct H as [<-|[]]; simpl; tauto.
Qed.

Lemma serviceActions_kind d c a :
  In a (Diff.calculateServiceActions d c) -> ~ Actions.removesFromGroup a.
Proof.
  unfold Diff.calculateServiceActions. rewrite in_app_iff, !in_flat_map.
  intros [[kv [_ H]]|[kv [_ H]]]; cbv zeta in H;
    repeat match type of H with
      | context [match ?x with _ => _ end] => destruct x
      | context [if ?x then _ else _] => destruct x
      end;
    simpl in H; try tauto; destruct H as [<-|[]]; simpl; tauto.
Qed.

Lemma configActions_kind d c prune a :
  In a (fst (Diff.calculateConfigActions fm d c prune)) -> ~ Actions.removesFromGroup a.
Proof.
  unfold Diff.calculateConfigActions. cbv zeta. cbn [fst].
  rewrite in_app_iff, !in_flat_map.
  intros [[kv [_ H]]|[r [Hr H]]].
  - destruct (_ !! _).
    + rewrite !in_app_iff in H.
      destruct H as [H|[H|H]];
        match type of H with context [if ?x then _ else _] => destruct x end;
        simpl in H; try tauto; destruct H as [<-|[]]; simpl; tauto.
    + simpl in H. destruct H as [<-|[]]; simpl; tauto.
  - apply in_map_iff in Hr as [kv [<- _]].
    repeat match type of H with
      | context [match ?x with _ => _ end] => destruct x
      | context [if ?x then _ else _] => destruct x
      end;
    simpl in H; try tauto; destruct H as [<-|[]]; simpl; tauto.
Qed.

Lemma compareUserPackages_kind user manager wanted runner w acts w' a :
  Diff.compareUserPackages pipx npm user manager wanted runner w = (Ok acts, w') ->
  In a acts -> ~ Actions.removesFromGroup a.
Proof.
  unfold Diff.compareUserPackages, Host.bind, Host.Run, Host.print, Host.ret.
  destruct (runner user _ (Host.machine w)) as [[out err] m'].
  destruct err as [err|]; simpl.
  - intros H; inversion H; subst. intros [].
  - destruct (if String.eqb manager "pipx" then pipx out
              else if String.eqb manager "npm" then npm out else Ok []) as [l|e].
    + intros H; inversion H; subst. rewrite in_app_iff, !in_flat_map.
      intros [[x [_ Hx]]|[x [_ Hx]]];
        match type of Hx with context [if ?b then _ else _] => destruct b end;
        simpl in Hx; try tauto; destruct Hx as [<-|[]]; simpl; tauto.
    + intros H; inversion H; subst. intros [].
Qed.

Lemma userPackageActions_kind ups runner :
  forall w acts w' a,
    Diff.userPackageActions pipx npm ups runner w = (Ok acts, w') ->
    In a acts -> ~ Actions.removesFromGroup a.
Proof.
  induction ups as [|up ups IH]; intros w acts w' a H Hin.
  - inversion H; subst. destruct Hin.
  - cbn [Diff.userPackageActions] in H. unfold Host.bind in H.
    destruct (match Model.Pipx up with
              | [] => Host.ret []
              | _ => Diff.compareUserPackages pipx npm (Model.User up) "pipx"
                       (Model.Pipx up) runner
              end w) as [[a1|e1] w1] eqn:H1; [|discriminate].
    destruct (match Model.Npm up with
              | [] => Host.ret []
              | _ => Diff.compareUserPackages pipx npm (Model.User up) "npm"
                       (Model.Npm up) runner
              end w1) as [[a2|e2] w2] eqn:H2; [|discriminate].
    destruct (Diff.userPackageActions pipx npm ups runner w2) as [[a3|e3] w3] eqn:H3;
      [|discriminate].
    inversion H; subst. rewrite !in_app_iff in Hin.
    destruct Hin as [Hin|[Hin|Hin]].
    + destruct (Model.Pipx up); [inversion H1; subst; destruct Hin|].
      eapply compareUserPackages_kind; eauto.
    + destruct (Model.Npm up); [inversion H2; subst; destruct Hin|].
      eapply compareUserPackages_kind; eauto.
    + eapply IH; eauto.
Qed.

(** The plan of [calculateUserActions], when it returns one. *)
Lemma calculateUserActions_plan desired current runner w acts w' :
  Diff.calculateUserActions desired current runner w = (Ok acts, w') ->
  exists known : gset string,
    acts = Diff.createMissingGroups (elements (Diff.setOf (flat_map Model.Groups desired)))
             known
           ++ flat_map (Diff.userActions (Diff.currentUsersMap current)) desired
           ++ flat_map (fun kv =>
                          match Diff.indexBy Model.UserName desired !! fst kv with
                          | Some _ => []
                          | None => [Actions.UserRemoveAction (fst kv)]
                          end) (map_to_list (Diff.currentUsersMap current)).
Proof.
  unfold Diff.calculateUserActions, Host.bind, System.wrapErr.
  destruct (Diff.inferCurrentSystemGroups runner w) as [[known|e] w1]; [|discriminate].
  intros H; inversion H; subst. eauto.
Qed.

Lemma createMissingGroups_kind required :
  forall known a, In a (Diff.createMissingGroups required known) -> ~ Actions.removesFromGroup a.
Proof.
  induction required as [|g required IH]; intros known a; simpl; [tauto|].
  destruct (bool_decide _); [apply IH|].
  intros [<-|H]; [simpl; tauto|]. eapply IH; eauto.
Qed.

(** A removal made for a desired user names a group other than the
    primary group of the current user of that name. *)
Lemma userActions_remove cmap d u g :
  In (Actions.RemoveUserFromGroupAction u g) (Diff.userActions cmap d) ->
  exists cu, cmap !! u = Some cu /\ g <> Model.PrimaryGroup cu.
Proof.
  unfold Diff.userActions.
  destruct (cmap !! Model.UserName d) as [cu|] eqn:Hcu.
  - rewrite in_app_iff, !in_flat_map.
    intros [[x [_ Hx]]|[x [_ Hx]]].
    + destruct (bool_decide _); simpl in Hx; [tauto|].
      destruct Hx as [Hx|[]]; discriminate.
    + destruct (bool_decide _); simpl in Hx; [tauto|].
      destruct (String.eqb x (Model.PrimaryGroup cu)) eqn:Hp; simpl in Hx; [tauto|].
      destruct Hx as [Hx|[]]. inversion Hx; subst.
      exists cu. split; [done|]. by apply String.eqb_neq.
  - simpl. intros [H|H]; [discriminate|].
    apply in_map_iff in H as [x [Hx _]]. discriminate.
Qed.


Lemma printAll_ok (texts : list string) :
  forall w, exists w',
    fold_right (fun text k => Host.bind (Host.print text) (fun _ => k)) (Host.ret tt) texts w
    = (Ok tt, w').
Proof.
  induction texts as [|t texts IH]; intros w; simpl; [by eexists|].
  unfold Host.bind at 1. simpl. apply IH.
Qed.

(** The plan of [CalculatePlan], when it returns one. *)
Lemma CalculatePlan_plan desired current runner prune w plan w' :
  Diff.CalculatePlan fm pipx npm desired current runner prune w = (Ok plan, w') ->
  exists ua upa w1 w2,
    Diff.calculateUserActions (Model.Users desired) (Model.Users current) runner w
    = (Ok ua, w1)
    /\ Diff.userPackageActions pipx npm (Model.UserPackages desired) runner w2
       = (Ok upa, w')
    /\ plan = Diff.calculatePackageActions (Model.Packages desired) (Model.Packages current)
              ++ Diff.calculateServiceActions (Model.Services desired)
                   (Model.Services current)
              ++ ua
              ++ fst (Diff.calculateConfigActions fm desired current prune)
              ++ upa.
Proof.
  unfold Diff.CalculatePlan, Diff.calculateUserPackageActions.
  destruct (Diff.ValidateDependencies desired current); [discriminate|].
  unfold Host.bind at 1.
  destruct (Diff.calculateUserActions _ _ runner w) as [[ua|e] w1] eqn:Hua; [|discriminate].
  unfold Host.bind at 1.
  destruct (printAll_ok (snd (Diff.calculateConfigActions fm desired current prune)) w1)
    as [w2 Hw2].
  rewrite Hw2. unfold Host.bind at 1.
  destruct (Diff.userPackageActions pipx npm _ runner w2) as [[upa|e] w3] eqn:Hupa;
    [|discriminate].
  intros H; inversion H; subst. eauto 10.
Qed.

End PlannerFacts.

Lemma indexBy_fold_other {V : Type} (key : V -> string) (l : list V) (k : string) :
  forall acc : gmap string V,
    ~ In k (map key l) ->
    fold_left (fun m x => <[key x := x]> m) l acc !! k = acc !! k.
Proof.
  induction l as [|x l IH]; intros acc Hk; simpl in *; [done|].
  rewrite IH by tauto. apply lookup_insert_ne. tauto.
Qed.

Lemma indexBy_NoDup {V : Type} (key : V -> string) (l : list V) (v : V) :
  NoDup (map key l) -> In v l -> Diff.indexBy key l !! key v = Some v.
Proof.
  unfold Diff.indexBy. generalize (∅ : gmap string V).
  induction l as [|x l IH]; intros acc Hnd Hin; simpl in *; [done|].
  apply NoDup_cons in Hnd as [Hx Hnd].
  destruct Hin as [->|Hin].
  - rewrite indexBy_fold_other; [apply lookup_insert_eq|].
    by rewrite <- list_elem_of_In.
  - by apply IH.
Qed.

(** C7, amended.  A plan never removes a user from the primary group of
    the entry the planner holds for that user, the last one of that name
    among the current users: a [RemoveUserFromGroup(u, g)] in the plan
    comes with such an entry, whose primary group is not [g]; where the
    current users have distinct names, no current entry named [u] has [g]
    as its primary group. *)
Theorem primary_group_never_removed
        (fm : string -> string -> bool) (pipx npm : string -> Result (list string))
        (desired current : Model.SystemState) (runner : Host.CommandRunner)
        (prune : bool) (w : Host.World) (u g : string) :
  In (Actions.RemoveUserFromGroupAction u g)
     (Diff.returnedPlan
        (fst (Diff.CalculatePlan fm pipx npm desired current runner prune w))) ->
  (exists cu, Diff.currentUsersMap (Model.Users current) !! u = Some cu
              /\ g <> Model.PrimaryGroup cu)
  /\ (NoDup (map Model.UserName (Model.Users current)) ->
      forall cu, In cu (Model.Users current) -> Model.UserName cu = u ->
                 g <> Model.PrimaryGroup cu).
Proof.
  destruct (Diff.CalculatePlan fm pipx npm desired current runner prune w)
    as [[plan|e] w'] eqn:Hplan; simpl; [|tauto].
  intros Hin.
  apply CalculatePlan_plan in Hplan as (ua & upa & w1 & w2 & Hua & Hupa & ->).
  assert (Hcu : exists cu, Diff.currentUsersMap (Model.Users current) !! u = Some cu
                           /\ g <> Model.PrimaryGroup cu).
  { rewrite !in_app_iff in Hin. destruct Hin as [H|[H|[H|[H|H]]]].
    - exfalso. by eapply packageActions_kind.
    - exfalso. by eapply serviceActions_kind.
    - apply calculateUserActions_plan in Hua as [known ->].
      rewrite !in_app_iff in H. destruct H as [H|[H|H]].
      + exfalso. by eapply createMissingGroups_kind.
      + apply in_flat_map in H as [d [_ H]]. by eapply userActions_remove.
      + apply in_flat_map in H as [kv [_ H]].
        destruct (_ !! _); simpl in H; [tauto|]. destruct H as [H|[]]; discriminate.
    - exfalso. by eapply configActions_kind.
    - exfalso. by eapply userPackageActions_kind. }
  split; [exact Hcu|].
  intros Hnd cu Hcin <-. destruct Hcu as (cu' & Hl & Hne).
  unfold Diff.currentUsersMap in Hl.
  rewrite (indexBy_NoDup Model.UserName _ cu Hnd Hcin) in Hl. by inversion Hl; subst.
Qed.

Lemma primary_group_never_removed_witness :
  (exists cu, Diff.currentUsersMap (Model.Users Scenario.aliceCurrent) !! "alice" = Some cu
              /\ "audio" <> Model.PrimaryGroup cu)
  /\ (NoDup (map Model.UserName (Model.Users Scenario.aliceCurrent)) ->
      forall cu, In cu (Model.Users Scenario.aliceCurrent) -> Model.UserName cu = "alice" ->
                 "audio" <> Model.PrimaryGroup cu).
Proof.
  apply (primary_group_never_removed Scenario.noGlob Scenario.noJson Scenario.noJson
           Scenario.aliceDesired Scenario.aliceCurrent Scenario.groupRunner false
           (Scenario.fresh Scenario.bare) "alice" "audio").
  vm_compute. left. reflexivity.
Defined.

(** C7 as stated fails: with a user listed twice in the current state the
    planner holds the last entry, and removes the user from the group that
    is the primary group of the first. *)
Lemma repeated_current_user_primary_removed :
  ~ (forall (fm : string -> string -> bool) (pipx npm : string -> Result (list string))
            (desired current : Model.SystemState) (runner : Host.CommandRunner)
            (prune : bool) (w : Host.World) (u g : string),
        In (Actions.RemoveUserFromGroupAction u g)
           (Diff.returnedPlan
              (fst (Diff.CalculatePlan fm pipx npm desired current runner prune w))) ->
        forall cu, In cu (Model.Users current) -> Model.UserName cu = u ->
                   g <> Model.PrimaryGroup cu).
Proof.
  intros H.
  apply (H Scenario.noGlob Scenario.noJson Scenario.noJson Scenario.aliceDesired
           Scenario.aliceTwiceCurrent Scenario.groupRunner false
           (Scenario.fresh Scenario.bare) "alice" "audio"
           ltac:(vm_compute; left; reflexivity)
           (Model.mkUserState "alice" ["audio"; "wheel"] "audio")
           ltac:(simpl; left; reflexivity) eq_refl).
  reflexivity.
Qed.

Example repeated_current_user_plan :
  fst (Diff.CalculatePlan Scenario.noGlob Scenario.noJson Scenario.noJson
         Scenario.aliceDesired Scenario.aliceTwiceCurrent Scenario.groupRunner false
         (Scenario.fresh Scenario.bare))
  = Ok [Actions.RemoveUserFromGroupAction "alice" "audio"].
Proof. vm_compute. reflexivity. Qed.

Example alice_plan :
  fst (Diff.CalculatePlan Scenario.noGlob Scenario.noJson Scenario.noJson
         Scenario.aliceDesired Scenario.aliceCurrent Scenario.groupRunner false
         (Scenario.fresh Scenario.bare))
  = Ok [Actions.RemoveUserFromGroupAction "alice" "audio"].
Proof. vm_compute. reflexivity. Qed.

(** ** Convergence *)

Lemma flat_map_nil {X Y : Type} (f : X -> list Y) (l : list X) :
  (forall x, In x l -> f x = []) -> flat_map f l = [].
Proof.
  induction l as [|x l IH]; intros H; simpl; [done|].
  rewrite (H x) by (by left). apply IH. intros y Hy. apply H. by right.
Qed.


Lemma indexBy_is_Some {V : Type} (key : V -> string) (l : list V) (k : string) :
  In k (map key l) -> is_Some (Diff.indexBy key l !! k).
Proof.
  unfold Diff.indexBy. generalize (∅ : gmap string V).
  assert (H : forall acc : gmap string V,
             In k (map key l) \/ is_Some (acc !! k) ->
             is_Some (fold_left (fun m x => <[key x := x]> m) l acc !! k)).
  { induction l as [|x l IH]; intros acc [Hin|Hs]; simpl in *; try tauto.
    - apply IH. destruct Hin as [<-|Hin]; [right|by left].
      rewrite lookup_insert_eq. eauto.
    - apply IH. right. destruct (decide (key x = k)) as [<-|Hne].
      + rewrite lookup_insert_eq. eauto.
      + by rewrite lookup_insert_ne. }
  intros acc Hin. apply H. by left.
Qed.

(** Maps filled from lists that hold the same entries agree key by key,
    when no key stands for two settings. *)
Section SameEntries.
Context {V : Type}.
Variable key : V -> string.
Variable same : V -> V -> Prop.
Hypothesis same_key : forall x y, same x y -> key x = key y.
Hypothesis same_trans : forall x y z, same x y -> same y z -> same x z.






End SameEntries.








Lemma calculateUserActions_known desired current runner w acts w' :
  Diff.calculateUserActions desired current runner w = (Ok acts, w') ->
  let r := fst (runner "" ("sh -c 'cat " +:+ Diff.groupFilePath +:+ "'") (Host.machine w)) in
  snd r = None
  /\ acts = Diff.createMissingGroups
              (elements (Diff.setOf (flat_map Model.Groups desired)))
              (Diff.groupsListed (fst r))
            ++ flat_map (Diff.userActions (Diff.currentUsersMap current)) desired
            ++ flat_map (fun kv =>
                           match Diff.indexBy Model.UserName desired !! fst kv with
                           | Some _ => []
                           | None => [Actions.UserRemoveAction (fst kv)]
                           end) (map_to_list (Diff.currentUsersMap current)).
Proof.
  unfold Diff.calculateUserActions, Diff.inferCurrentSystemGroups, Host.bind,
    System.wrapErr, Host.Run, Host.fail, Host.ret.
  destruct (runner "" _ (Host.machine w)) as [[out err] m']. cbn [fst snd].
  destruct err as [err|]; [discriminate|].
  destruct (snd (Bufio.ScanLines out)); [discriminate|].
  intros H; inversion H; subst. done.
Qed.



Section ConvergenceFacts.
Variable fm : string -> string -> bool.
Variables pipx npm : string -> Result (list string).





End ConvergenceFacts.


Example repeated_user_plan :
  fst (Diff.CalculatePlan Scenario.noGlob Scenario.noJson Scenario.noJson Scenario.twice
         Scenario.twice Scenario.groupRunner false (Scenario.fresh Scenario.bare))
  = Ok [Actions.AddUserToGroupAction "alice" "wheel";
        Actions.RemoveUserFromGroupAction "alice" "audio"].
Proof. vm_compute. reflexivity. Qed.





Example settled_plan :
  fst (Diff.CalculatePlan Scenario.noGlob Scenario.spaced Scenario.noJson
         Scenario.settledDesired Scenario.settledCurrent Scenario.settledRunner
         false (Scenario.fresh Scenario.bare))
  = Ok [].
Proof. vm_compute. reflexivity. Qed.

(** ** Round trips of the file actions *)


(** Inversion of the steps of a computation. *)

Lemma bind_Ok {A B : Type} (c : Host.M A) (k : A -> Host.M B) w b w2 :
  Host.bind c k w = (Ok b, w2) ->
  exists a w1, c w = (Ok a, w1) /\ k a w1 = (Ok b, w2).
Proof.
  unfold Host.bind. destruct (c w) as [[a|e] w1]; [eauto|discriminate].
Qed.

Lemma try_inv {A B : Type} (c : Host.M A) (k : Result A -> Host.M B) w r :
  Host.try c k w = r -> exists ra w1, c w = (ra, w1) /\ k ra w1 = r.
Proof. unfold Host.try. destruct (c w) as [ra w1]. eauto. Qed.

Lemma ret_Ok {A : Type} (a b : A) w w' :
  Host.ret a w = (Ok b, w') -> b = a /\ w' = w.
Proof. unfold Host.ret. by intros H; inversion H. Qed.

Lemma logAt_Ok lv msg w u w' :
  Host.logAt lv msg w = (Ok u, w') -> Host.machine w' = Host.machine w.
Proof. unfold Host.logAt. by intros H; inversion H. Qed.

Lemma orLogError_Ok {A : Type} msg (c : Host.M A) w a w' :
  Actions.orLogError msg c w = (Ok a, w') -> c w = (Ok a, w').
Proof.
  unfold Actions.orLogError. destruct (c w) as [[x|e] w1]; [done|discriminate].
Qed.

Lemma query_inv {A : Type} (f : Host.Machine -> Result A) w r w' :
  Afero.query f w = (r, w') -> w' = w /\ f (Host.machine w) = r.
Proof. unfold Afero.query. by intros H; inversion H. Qed.

Lemma effect_Ok (f : Host.Machine -> Result Host.Machine) w u w' :
  Afero.effect f w = (Ok u, w') -> f (Host.machine w) = Ok (Host.machine w').
Proof.
  unfold Afero.effect. destruct (f (Host.machine w)) as [m'|e]; [|discriminate].
  by intros H; inversion H.
Qed.

Lemma lift_Ok {A : Type} (r : Result A) w a w' :
  Host.lift r w = (Ok a, w') -> r = Ok a /\ w' = w.
Proof. unfold Host.lift. by intros H; inversion H. Qed.

Lemma wrapErr_Ok {A : Type} msg (c : Host.M A) w a w' :
  System.wrapErr msg c w = (Ok a, w') -> c w = (Ok a, w').
Proof.
  unfold System.wrapErr. destruct (c w) as [[x|e] w1]; [done|discriminate].
Qed.

Lemma ownerId_inv name w r w' :
  Actions.ownerId name w = (r, w') ->
  w' = w
  /\ r = if Actions.nonEmpty name
         then OsUser.found ("user " +:+ name)
                (OsUser.byName (Host.passwd (Host.machine w)) name)
         else Ok (-1)%Z.
Proof.
  unfold Actions.ownerId, OsUser.Lookup, Afero.query, Host.ret.
  destruct (Actions.nonEmpty name); by intros H; inversion H.
Qed.

Lemma groupId_inv name w r w' :
  Actions.groupId name w = (r, w') ->
  w' = w
  /\ r = if Actions.nonEmpty name
         then OsUser.found ("group " +:+ name)
                (OsUser.byName (Host.groupdb (Host.machine w)) name)
         else Ok (-1)%Z.
Proof.
  unfold Actions.groupId, OsUser.LookupGroup, Afero.query, Host.ret.
  destruct (Actions.nonEmpty name); by intros H; inversion H.
Qed.

Lemma nonEmpty_true (s : string) : s <> "" -> Actions.nonEmpty s = true.
Proof.
  intros H. unfold Actions.nonEmpty. apply negb_true_iff. by apply String.eqb_neq.
Qed.

(** The file operations, one by one. *)

Lemma statIn_Ok m p f : Afero.statIn m p = Ok f -> Host.files m !! p = Some f.
Proof. unfold Afero.statIn. destruct (_ !! _); [by intros H; inversion H|discriminate]. Qed.

Lemma readIn_Ok m p c :
  Afero.readIn m p = Ok c ->
  exists f, Host.files m !! p = Some f /\ Host.isDir f = false /\ Host.data f = c.
Proof.
  unfold Afero.readIn. destruct (_ !! _) as [f|]; [|discriminate].
  destruct (Host.isDir f) eqn:Hd; [discriminate|].
  intros H; inversion H. eauto.
Qed.

Lemma writeIn_existing m p content mode f m' :
  Host.files m !! p = Some f ->
  Afero.writeIn m p content mode = Ok m' ->
  Host.isDir f = false
  /\ m' = Host.with_files m
            (<[p := Host.mkFile false content (Host.perm f) (Host.uid f) (Host.gid f)]>
               (Host.files m)).
Proof.
  unfold Afero.writeIn. intros Hf. rewrite Hf. destruct (Host.isDir f); [discriminate|].
  by intros H; inversion H.
Qed.

Lemma writeIn_new m p content mode m' :
  Host.files m !! p = None ->
  Afero.writeIn m p content mode = Ok m' ->
  m' = Host.with_files m
         (<[p := Host.mkFile false content
                   (N.ldiff (N.land mode Afero.ModePerm) (Host.umask m))
                   (Host.euid m) (Host.egid m)]> (Host.files m)).
Proof. unfold Afero.writeIn. intros Hf. rewrite Hf. by intros H; inversion H. Qed.

Lemma writeIn_data m p content mode m' :
  Afero.writeIn m p content mode = Ok m' ->
  exists f, Host.files m' !! p = Some f /\ Host.data f = content /\ Host.isDir f = false.
Proof.
  intros H. destruct (Host.files m !! p) as [f|] eqn:Hf.
  - destruct (writeIn_existing _ _ _ _ f _ Hf H) as [_ ->].
    simpl. rewrite lookup_insert_eq. eauto.
  - rewrite (writeIn_new _ _ _ _ _ Hf H).
    simpl. rewrite lookup_insert_eq. eauto.
Qed.

Lemma chmodIn_Ok m p mode m' :
  Afero.chmodIn m p mode = Ok m' ->
  exists f, Host.files m !! p = Some f
            /\ m' = Host.with_files m
                      (<[p := Host.mkFile (Host.isDir f) (Host.data f)
                                (N.land mode Afero.ModePerm) (Host.uid f) (Host.gid f)]>
                         (Host.files m)).
Proof.
  unfold Afero.chmodIn. destruct (_ !! _) as [f|]; [|discriminate].
  intros H; inversion H. eauto.
Qed.

Lemma chownIn_Ok m p u g m' :
  Afero.chownIn m p u g = Ok m' ->
  exists f, Host.files m !! p = Some f
            /\ m' = Host.with_files m
                      (<[p := Host.mkFile (Host.isDir f) (Host.data f) (Host.perm f)
                                (if (u =? -1)%Z then Host.uid f else u)
                                (if (g =? -1)%Z then Host.gid f else g)]>
                         (Host.files m)).
Proof.
  unfold Afero.chownIn. destruct (_ !! _) as [f|]; [|discriminate].
  intros H; inversion H. eauto.
Qed.

Lemma removeIn_Ok m p m' :
  Afero.removeIn m p = Ok m' -> m' = Host.with_files m (delete p (Host.files m)).
Proof.
  unfold Afero.removeIn. destruct (_ !! _) as [f|]; [|discriminate].
  by intros H; inversion H.
Qed.

Ltac minv :=
  repeat match goal with
    | H : Host.bind _ _ _ = (Ok _, _) |- _ =>
        let a := fresh "a" in let w := fresh "w" in let H1 := fresh "H" in
        apply bind_Ok in H as (a & w & H1 & H)
    | H : Host.try _ _ _ = _ |- _ =>
        let a := fresh "r" in let w := fresh "w" in let H1 := fresh "H" in
        apply try_inv in H as (a & w & H1 & H)
    | H : Actions.orLogError _ _ _ = (Ok _, _) |- _ => apply orLogError_Ok in H
    | H : Host.logAt _ _ _ = (Ok _, _) |- _ => apply logAt_Ok in H
    | H : Host.ret _ _ = (Ok _, _) |- _ => apply ret_Ok in H as [? ?]; subst
    | H : Host.lift _ _ = (Ok _, _) |- _ => apply lift_Ok in H as [? ?]; subst
    | H : Afero.Stat _ _ = (_, _) |- _ => apply query_inv in H as [? H]; subst
    | H : Afero.ReadFile _ _ = (_, _) |- _ => apply query_inv in H as [? H]; subst
    | H : Afero.WriteFile _ _ _ _ = (Ok _, _) |- _ =>
        unfold Afero.WriteFile in H; apply effect_Ok in H
    | H : Afero.Chmod _ _ _ = (Ok _, _) |- _ =>
        unfold Afero.Chmod in H; apply effect_Ok in H
    | H : Afero.Chown _ _ _ _ = (Ok _, _) |- _ =>
        unfold Afero.Chown in H; apply effect_Ok in H
    | H : Afero.Remove _ _ = (Ok _, _) |- _ =>
        unfold Afero.Remove in H; apply effect_Ok in H
    | H : System.wrapErr _ _ _ = (Ok _, _) |- _ => apply wrapErr_Ok in H
    | H : Actions.ownerId _ _ = (_, _) |- _ => apply ownerId_inv in H as [? H]; subst
    | H : Actions.groupId _ _ = (_, _) |- _ => apply groupId_inv in H as [? H]; subst
    | H : OsUser.Lookup _ _ = (_, _) |- _ =>
        unfold OsUser.Lookup in H; apply query_inv in H as [? H]; subst
    | H : OsUser.LookupId _ _ = (_, _) |- _ =>
        unfold OsUser.LookupId in H; apply query_inv in H as [? H]; subst
    | H : OsUser.LookupGroup _ _ = (_, _) |- _ =>
        unfold OsUser.LookupGroup in H; apply query_inv in H as [? H]; subst
    | H : OsUser.LookupGroupId _ _ = (_, _) |- _ =>
        unfold OsUser.LookupGroupId in H; apply query_inv in H as [? H]; subst
    end.

Lemma FileUpdate_restores runner p c oc om w a' w1 w2 :
  Actions.Apply runner (Actions.FileUpdateAction p c oc om) w = (Ok a', w1) ->
  Actions.Rollback runner a' w1 = (Ok tt, w2) ->
  Host.files (Host.machine w2) !! p = Host.files (Host.machine w) !! p.
Proof.
  cbn [Actions.Apply]. unfold Actions.FileUpdate_Apply. intros H. minv.
  cbn [Actions.Rollback]. unfold Actions.FileUpdate_Rollback. intros R. minv.
  cbn [fst snd] in *.
  apply readIn_Ok in H3 as (f & Hf & Hd & <-).
  rewrite H1 in *.
  destruct (writeIn_existing _ _ _ _ f _ Hf H4) as [_ Hm6].
  rewrite H, Hm6 in R.
  destruct (writeIn_existing _ _ _ _ _ _ (lookup_insert_eq _ _ _) R) as [_ ->].
  cbn. rewrite lookup_insert_eq, Hf. destruct f; simpl in *; by subst.
Qed.

Lemma FileCreate_restores runner p c m o g w a' w1 w2 :
  Actions.Apply runner (Actions.FileCreateAction p c m o g) w = (Ok a', w1) ->
  Actions.Rollback runner a' w1 = (Ok tt, w2) ->
  Host.files (Host.machine w2) !! p = None.
Proof.
  cbn [Actions.Apply]. unfold Actions.keep. intros H.
  apply bind_Ok in H as (u & w0 & _ & H). apply ret_Ok in H as [-> ->].
  cbn [Actions.Rollback]. unfold Actions.FileCreate_Rollback. intros R. minv.
  apply removeIn_Ok in R. rewrite R. simpl. apply lookup_delete_eq.
Qed.

Lemma land_ModeDir_perm : N.land Afero.ModeDir Afero.ModePerm = 0%N.
Proof. reflexivity. Qed.

Lemma Mode_perm (f : Host.File) :
  N.land (Host.perm f) Afero.ModePerm = Host.perm f ->
  N.land (Afero.Mode f) Afero.ModePerm = Host.perm f.
Proof.
  intros Hp. unfold Afero.Mode. rewrite N.land_lor_distr_l, Hp.
  destruct (Host.isDir f); [rewrite land_ModeDir_perm|]; apply N.lor_0_r.
Qed.

Ltac same_machine :=
  repeat match goal with
    | H : Host.machine ?w' = Host.machine ?w |- _ => rewrite H in *; clear H
    end.

Lemma FileChmod_restores runner p m om w a' w1 w2 :
  Actions.permsWithinBits (Host.machine w) ->
  Actions.Apply runner (Actions.FileChmodAction p m om) w = (Ok a', w1) ->
  Actions.Rollback runner a' w1 = (Ok tt, w2) ->
  Host.files (Host.machine w2) !! p = Host.files (Host.machine w) !! p.
Proof.
  intros Hwf. cbn [Actions.Apply]. unfold Actions.FileChmod_Apply. intros H. minv.
  cbn [Actions.Rollback]. unfold Actions.FileChmod_Rollback. intros R. minv.
  same_machine.
  match goal with H : Afero.statIn _ _ = Ok ?f |- _ =>
    apply statIn_Ok in H; rename H into Hf; rename f into f0 end.
  match goal with H : Afero.chmodIn (Host.machine w) _ _ = Ok _ |- _ =>
    apply chmodIn_Ok in H as (f & Hf1 & Hm) end.
  rewrite Hf in Hf1. inversion Hf1; subst f. rewrite Hm in R.
  apply chmodIn_Ok in R as (f' & Hf' & ->).
  simpl in Hf'. rewrite lookup_insert_eq in Hf'. inversion Hf'; subst f'.
  simpl. rewrite lookup_insert_eq, Hf, (Mode_perm _ (Hwf _ _ Hf)).
  by destruct f0.
Qed.

Lemma FileChown_restores runner p o g oo og w a' w1 w2 :
  (forall f, Host.files (Host.machine w) !! p = Some f ->
             Actions.namesResolve (Host.machine w) f) ->
  Actions.Apply runner (Actions.FileChownAction p o g oo og) w = (Ok a', w1) ->
  Actions.Rollback runner a' w1 = (Ok tt, w2) ->
  Host.files (Host.machine w2) !! p = Host.files (Host.machine w) !! p.
Proof.
  intros Hres. cbn [Actions.Apply]. unfold Actions.FileChown_Apply. intros H. minv.
  same_machine.
  match goal with H : Afero.statIn _ _ = Ok ?f |- _ =>
    apply statIn_Ok in H; rename H into Hf; rename f into f0 end.
  destruct (Hres f0 Hf) as (Hu & Hg & (un & Hun & Hune & Hunb) & (gn & Hgn & Hgne & Hgnb)).
  match goal with H : Afero.chownIn _ _ _ _ = Ok _ |- _ =>
    apply chownIn_Ok in H as (f & Hf1 & Hm) end.
  rewrite Hf in Hf1. inversion Hf1; subst f.
  rewrite Hun, Hgn. cbn [OsUser.found fst snd Actions.Rollback].
  unfold Actions.FileChown_Rollback. intros R. minv. same_machine.
  rewrite Hm in *. cbn [Host.passwd Host.groupdb Host.with_files] in *.
  rewrite (nonEmpty_true _ Hune), Hunb in *. rewrite (nonEmpty_true _ Hgne), Hgnb in *.
  cbn [OsUser.found] in *.
  repeat match goal with H : Ok _ = Ok _ |- _ => inversion H; subst; clear H end.
  apply chownIn_Ok in R as (f' & Hf' & ->).
  simpl in Hf'. rewrite lookup_insert_eq in Hf'. inversion Hf'; subst f'.
  simpl. rewrite lookup_insert_eq, Hf.
  apply Z.eqb_neq in Hu, Hg. rewrite Hu, Hg. by destruct f0.
Qed.

Lemma ldiff_disjoint (a b : N) : N.land a b = 0%N -> N.ldiff a b = a.
Proof.
  intros H. apply N.bits_inj. intros n.
  rewrite N.ldiff_spec.
  assert (Hn : N.testbit (N.land a b) n = false) by (rewrite H; apply N.bits_0).
  rewrite N.land_spec in Hn.
  destruct (N.testbit a n), (N.testbit b n); simpl in *; congruence.
Qed.

Lemma FileDelete_restores runner p oc om oo og w a' w1 w2 :
  Actions.permsWithinBits (Host.machine w) ->
  (forall f, Host.files (Host.machine w) !! p = Some f ->
             Actions.namesResolve (Host.machine w) f
             /\ N.land (Host.perm f) (Host.umask (Host.machine w)) = 0%N) ->
  Actions.Apply runner (Actions.FileDeleteAction p oc om oo og) w = (Ok a', w1) ->
  Actions.Rollback runner a' w1 = (Ok tt, w2) ->
  Host.files (Host.machine w2) !! p = Host.files (Host.machine w) !! p.
Proof.
  intros Hwf Hres. cbn [Actions.Apply]. unfold Actions.FileDelete_Apply. intros H. minv.
  same_machine.
  match goal with H : Afero.statIn _ _ = Ok ?f |- _ =>
    apply statIn_Ok in H; rename H into Hf; rename f into f0 end.
  destruct (Hres f0 Hf)
    as ((Hu & Hg & (un & Hun & Hune & Hunb) & (gn & Hgn & Hgne & Hgnb)) & Hmask).
  match goal with H : Afero.readIn _ _ = Ok _ |- _ =>
    apply readIn_Ok in H as (f & Hf1 & Hd & <-) end.
  rewrite Hf in Hf1. inversion Hf1; subst f.
  match goal with H : Afero.removeIn _ _ = Ok _ |- _ =>
    apply removeIn_Ok in H; rename H into Hm end.
  rewrite Hun, Hgn. cbn [OsUser.found fst snd Actions.Rollback].
  unfold Actions.FileDelete_Rollback. intros R.
  rewrite (nonEmpty_true _ Hune) in R. cbn [orb] in R. minv. same_machine.
  match goal with H : Afero.writeIn _ _ _ _ = Ok _ |- _ =>
    rewrite Hm in H; apply writeIn_new in H; [rename H into Hm2|apply lookup_delete_eq] end.
  rewrite Hm2 in *. cbn [Host.passwd Host.groupdb Host.with_files Host.umask Host.euid
                         Host.egid Host.files] in *.
  rewrite (nonEmpty_true _ Hune), Hunb in *. rewrite (nonEmpty_true _ Hgne), Hgnb in *.
  cbn [OsUser.found] in *.
  repeat match goal with H : Ok _ = Ok _ |- _ => inversion H; subst; clear H end.
  apply chownIn_Ok in R as (f' & Hf' & ->).
  simpl in Hf'. rewrite lookup_insert_eq in Hf'. inversion Hf'; subst f'.
  simpl. rewrite lookup_insert_eq, Hf.
  apply Z.eqb_neq in Hu, Hg. rewrite Hu, Hg.
  rewrite (Mode_perm _ (Hwf _ _ Hf)), (ldiff_disjoint _ _ Hmask).
  destruct f0; simpl in *; by subst.
Qed.

(** A revert that succeeds returns the content it has read at its start. *)
Lemma FileRevert_Apply_content runner p pkg w c w1 :
  Actions.FileRevert_Apply runner p pkg w = (Ok c, w1) ->
  exists f, Host.files (Host.machine w) !! p = Some f
            /\ Host.isDir f = false /\ Host.data f = c.
Proof.
  unfold Actions.FileRevert_Apply. intros H. minv. same_machine.
  match goal with H : Afero.readIn _ _ = Ok ?x |- _ =>
    apply readIn_Ok in H as (f & Hf & Hd & Hc); exists f; rewrite Hc;
    repeat split; try done end.
  destruct (snd _); [discriminate|].
  destruct (GoStrings.SplitN2 _ _) as [|x [|y [|z l]]]; try discriminate.
  minv.
  match goal with H : match ?r with Ok _ => _ | Err _ => _ end _ = (Ok _, _) |- _ =>
    destruct r; [by apply ret_Ok in H as [-> _]|discriminate] end.
Qed.

Lemma FileRevert_restores runner p pkg mc w a' w1 w2 :
  Actions.Apply runner (Actions.FileRevertAction p pkg mc) w = (Ok a', w1) ->
  Actions.Rollback runner a' w1 = (Ok tt, w2) ->
  Host.data <$> Host.files (Host.machine w2) !! p
  = Host.data <$> Host.files (Host.machine w) !! p
  /\ Host.isDir <$> Host.files (Host.machine w2) !! p
     = Host.isDir <$> Host.files (Host.machine w) !! p.
Proof.
  cbn [Actions.Apply]. intros H.
  apply bind_Ok in H as (c & w0 & H & Hr). apply ret_Ok in Hr as [-> ->].
  apply FileRevert_Apply_content in H as (f & Hf & Hd & Hc).
  cbn [Actions.Rollback]. unfold Actions.FileRevert_Rollback. intros R. minv.
  apply writeIn_data in R as (f' & Hf' & Hc' & Hd').
  rewrite Hf, Hf'. simpl. by rewrite Hc, Hc', Hd, Hd'.
Qed.


Lemma withFiles_perms (fs : list (string * Host.File)) :
  Forall (fun e => N.land (Host.perm (snd e)) Afero.ModePerm = Host.perm (snd e)) fs ->
  Actions.permsWithinBits (Scenario.withFiles fs).
Proof.
  intros Hall path f Hl. unfold Scenario.withFiles in Hl. cbn [Host.files] in Hl.
  apply elem_of_list_to_map_2 in Hl.
  rewrite Forall_forall in Hall. exact (Hall (path, f) Hl).
Qed.

(** C3.  A revert that is applied and then rolled back, both with success,
    leaves the file with its content of before and with the mode of the file
    the package provided: the edited file was private (0600), the packaged
    one is 0644, and 0644 it stays.  The rollback writes the captured
    content with mode 0644 into the file renamed into place, and the mode
    given when writing to a file that exists is not applied; the action
    captures neither mode nor owner, as the update and the delete do. *)
Theorem revert_rollback_mode_lost :
  exists (a' : Actions.Action) (w1 w2 : Host.World),
    Actions.Apply Scenario.apkRunner Scenario.revertAction
      (Scenario.fresh Scenario.revertHost) = (Ok a', w1)
    /\ Actions.Rollback Scenario.apkRunner a' w1 = (Ok tt, w2)
    /\ Actions.attributes Scenario.revertHost "/etc/ssh/sshd_config"
       = Some ("PermitRootLogin yes", 384%N, 0%Z, 0%Z)
    /\ Actions.attributes (Host.machine w1) "/etc/ssh/sshd_config"
       = Some ("PermitRootLogin no", 420%N, 0%Z, 0%Z)
    /\ Actions.attributes (Host.machine w2) "/etc/ssh/sshd_config"
       = Some ("PermitRootLogin yes", 420%N, 0%Z, 0%Z).
Proof.
  eexists _, _, _.
  split; [vm_compute; reflexivity|].
  split; [vm_compute; reflexivity|].
  repeat split; vm_compute; reflexivity.
Qed.

(** The round-trip property therefore does not hold of every file
    action. *)
Lemma revert_rollback_keeps_package_mode :
  ~ (forall (runner : Host.CommandRunner) (a a' : Actions.Action) (w w1 w2 : Host.World),
        Actions.permsWithinBits (Host.machine w) ->
        Actions.Apply runner a w = (Ok a', w1) ->
        Actions.Rollback runner a' w1 = (Ok tt, w2) ->
        Actions.restoredAsStated a (Host.machine w) (Host.machine w2)).
Proof.
  intros H.
  assert (Hp : Actions.permsWithinBits Scenario.revertHost).
  { apply withFiles_perms. repeat (constructor; [reflexivity|]). constructor. }
  destruct (Actions.Apply Scenario.apkRunner Scenario.revertAction
              (Scenario.fresh Scenario.revertHost)) as [[a'|e] w1] eqn:Ha;
    vm_compute in Ha; [|discriminate].
  destruct (Actions.Rollback Scenario.apkRunner a' w1) as [[[]|e] w2] eqn:Hr;
    inversion Ha; subst; vm_compute in Hr; [|discriminate].
  specialize (H Scenario.apkRunner Scenario.revertAction _
                (Scenario.fresh Scenario.revertHost) _ w2 Hp Ha).
  inversion Hr; subst.
  specialize (H eq_refl). vm_compute in H. discriminate.
Qed.

(** X30.  What the other file actions restore.  When a file action is
    applied and then rolled back, both with success, on a host whose modes
    are permission bits: after a create the path does not exist; after an update
    or a change of mode the file is as it was; after a change of owner or a
    delete it is as it was provided its numeric owner and group resolve to
    names that resolve back to them and, for the delete, the umask clears
    none of its permission bits; after a revert the content is as it was. *)
Theorem file_actions_restore (runner : Host.CommandRunner) (a a' : Actions.Action)
        (w w1 w2 : Host.World) :
  Actions.permsWithinBits (Host.machine w) ->
  Actions.Apply runner a w = (Ok a', w1) ->
  Actions.Rollback runner a' w1 = (Ok tt, w2) ->
  Actions.restored a (Host.machine w) (Host.machine w2).
Proof.
  intros Hwf Ha Hr. destruct a; cbn [Actions.restored]; try exact I.
  - eapply FileCreate_restores; eauto.
  - eapply FileUpdate_restores; eauto.
  - intros Hres. eapply FileDelete_restores; eauto.
  - eapply FileRevert_restores; eauto.
  - eapply FileChmod_restores; eauto.
  - intros Hres. eapply FileChown_restores; eauto.
Qed.

Lemma file_actions_restore_witness :
  exists (a' : Actions.Action) (w1 w2 : Host.World),
    Actions.Apply (Scenario.failOn "") Scenario.deleteMotd
      (Scenario.fresh Scenario.motdHost) = (Ok a', w1)
    /\ Host.files (Host.machine w1) !! "/etc/motd" = None
    /\ Actions.Rollback (Scenario.failOn "") a' w1 = (Ok tt, w2)
    /\ Host.files (Host.machine w2) !! "/etc/motd"
       = Host.files Scenario.motdHost !! "/etc/motd".
Proof.
  eexists _, _, _.
  split; [vm_compute; reflexivity|].
  split; [vm_compute; reflexivity|].
  split; [vm_compute; reflexivity|].
  pose proof (file_actions_restore (Scenario.failOn "") Scenario.deleteMotd) as T.
  unfold Scenario.deleteMotd in T. cbn [Actions.restored] in T.
  eapply (T _ (Scenario.fresh Scenario.motdHost)).
  - apply withFiles_perms. repeat (constructor; [reflexivity|]). constructor.
  - vm_compute. reflexivity.
  - vm_compute. reflexivity.
  - intros f Hf. vm_compute in Hf. inversion Hf; subst.
    vm_compute. repeat split; try discriminate; eexists; repeat split; discriminate.
Defined.

Example delete_then_rollback :
  forall a' w1 w2,
    Actions.Apply (Scenario.failOn "") Scenario.deleteMotd
      (Scenario.fresh Scenario.motdHost) = (Ok a', w1) ->
    Actions.Rollback (Scenario.failOn "") a' w1 = (Ok tt, w2) ->
    a' = Actions.FileDeleteAction "/etc/motd" "Hello" 420 "root" "root"
    /\ Actions.attributes (Host.machine w2) "/etc/motd" = Some ("Hello", 420%N, 0%Z, 0%Z).
Proof.
  intros a' w1 w2 H1. vm_compute in H1. inversion H1; subst; clear H1.
  intros H2. vm_compute in H2. inversion H2; subst; clear H2.
  vm_compute. split; reflexivity.
Qed.

(** * Further properties *)

(** ** Validation *)

Lemma app_nil' {X : Type} (l1 l2 : list X) : l1 ++ l2 = [] <-> l1 = [] /\ l2 = [].
Proof. split; [apply app_eq_nil|intros [-> ->]; done]. Qed.

Lemma when_nil (b : bool) (e : Model.ValidationError) : Model.when b e = [] <-> b = false.
Proof. destruct b; simpl; split; congruence. Qed.

Lemma concat_imap_nil {X Y : Type} (f : nat -> X -> list Y) (l : list X) :
  concat (imap f l) = [] <-> forall i x, l !! i = Some x -> f i x = [].
Proof.
  revert f; induction l as [|x l IH]; intros f; simpl.
  - split; [intros _ i x H; by rewrite lookup_nil in H|done].
  - split.
    + intros H. apply app_eq_nil in H as [Hx Hl]. intros [|i] y Hy; simpl in Hy.
      * by inversion Hy; subst.
      * apply (proj1 (IH (f ∘ S)) Hl i y Hy).
    + intros H. rewrite (H 0 x eq_refl). simpl.
      apply (proj2 (IH (f ∘ S))). intros i y Hy. apply (H (S i) y Hy).
Qed.

Lemma concat_imap_nil_In {X Y : Type} (f : nat -> X -> list Y) (ok : X -> Prop)
      (l : list X) :
  (forall i x, f i x = [] <-> ok x) ->
  concat (imap f l) = [] <-> forall x, In x l -> ok x.
Proof.
  intros Hf. rewrite concat_imap_nil. split.
  - intros H x Hx. apply list_elem_of_In, list_elem_of_lookup in Hx as [i Hi].
    apply (Hf i). eauto.
  - intros H i x Hi. apply Hf, H, list_elem_of_In, list_elem_of_lookup. eauto.
Qed.

Lemma eqb_empty_false (s : string) : String.eqb s "" = false <-> s <> "".
Proof. apply String.eqb_neq. Qed.

Lemma guarded_false (s : string) (ok : bool) :
  negb (String.eqb s "") && negb ok = false <-> s = "" \/ ok = true.
Proof.
  destruct (String.eqb s "") eqn:He; simpl.
  - apply String.eqb_eq in He. tauto.
  - apply String.eqb_neq in He. destruct ok; simpl; split; try tauto; intuition congruence.
Qed.

Lemma validateConfig_nil i cfg : Model.validateConfig i cfg = [] <-> okConfig cfg.
Proof.
  unfold Model.validateConfig, okConfig, Model.ValidationErrors.
  rewrite !app_nil'. rewrite !when_nil, !guarded_false, negb_false_iff.
  rewrite eqb_empty_false. tauto.
Qed.

Lemma validateInclude_nil i include : Model.validateInclude i include = [] <-> okInclude include.
Proof.
  unfold Model.validateInclude, okInclude, Model.ValidationErrors.
  rewrite when_nil. apply eqb_empty_false.
Qed.

Lemma validatePackage_nil i pkg : Model.validatePackage i pkg = [] <-> okPackage pkg.
Proof.
  unfold Model.validatePackage, okPackage, Model.ValidationErrors.
  rewrite !app_nil', !when_nil, negb_false_iff, eqb_empty_false. tauto.
Qed.

Lemma validateService_nil i svc : Model.validateService i svc = [] <-> okService svc.
Proof.
  unfold Model.validateService, okService, Model.ValidationErrors.
  rewrite !app_nil', !when_nil, guarded_false, eqb_empty_false. tauto.
Qed.

Lemma validateUser_nil i user : Model.validateUser i user = [] <-> okUser user.
Proof.
  unfold Model.validateUser, okUser, Model.ValidationErrors.
  rewrite !app_nil', !when_nil, negb_false_iff, eqb_empty_false.
  rewrite (concat_imap_nil_In (Model.validateUserGroup i)
             (fun g => Model.isValidUserName g = true)); [tauto|].
  intros j g. unfold Model.validateUserGroup, Model.ValidationErrors.
  by rewrite when_nil, negb_false_iff.
Qed.

Lemma validateUserPackageName_nil i mgr l :
  concat (imap (Model.validateUserPackageName i mgr) l) = []
  <-> forall p, In p l -> Model.isValidPackageName p = true.
Proof.
  apply (concat_imap_nil_In _ (fun p => Model.isValidPackageName p = true)).
  intros j p. unfold Model.validateUserPackageName, Model.ValidationErrors.
  by rewrite when_nil, negb_false_iff.
Qed.

Lemma validateUserPackage_nil users i up :
  Model.validateUserPackage (list_to_set (map Model.UserName users)) i up = []
  <-> okUserPackage users up.
Proof.
  unfold Model.validateUserPackage, okUserPackage, Model.ValidationErrors.
  rewrite !app_nil', !when_nil, negb_false_iff, !validateUserPackageName_nil.
  rewrite bool_decide_eq_true, elem_of_list_to_set, list_elem_of_In. tauto.
Qed.

Lemma Validate_nil_iff (s : Model.SystemState) :
  Model.Validate s = []
  <-> (forall x, In x (Model.Includes s) -> okInclude x)
      /\ (forall x, In x (Model.Packages s) -> okPackage x)
      /\ (forall x, In x (Model.Services s) -> okService x)
      /\ (forall x, In x (Model.Users s) -> okUser x)
      /\ (forall x, In x (Model.Configs s) -> okConfig x)
      /\ (forall x, In x (Model.UserPackages s) -> okUserPackage (Model.Users s) x).
Proof.
  unfold Model.Validate, Model.ValidationErrors. cbv zeta.
  rewrite !app_nil'.
  rewrite (concat_imap_nil_In _ okInclude) by apply validateInclude_nil.
  rewrite (concat_imap_nil_In _ okPackage) by apply validatePackage_nil.
  rewrite (concat_imap_nil_In _ okService) by apply validateService_nil.
  rewrite (concat_imap_nil_In _ okUser) by apply validateUser_nil.
  rewrite (concat_imap_nil_In _ okConfig) by apply validateConfig_nil.
  rewrite (concat_imap_nil_In _ (okUserPackage (Model.Users s)))
    by apply validateUserPackage_nil.
  tauto.
Qed.

(** X1. A state on which [Validate] reports nothing has only well-formed
    file entries: every managed path is non-blank, absolute, free of
    [..] and outside the intrinsically ignored set; a mode, when given, is
    a four-character octal string starting with 0; an owner or group, when
    given, is made of lowercase letters, digits, hyphens and underscores. *)
Theorem validate_accepts_only_safe_configs (s : Model.SystemState)
    (cfg : Model.SystemConfigState) :
  Model.Validate s = [] ->
  In cfg (Model.Configs s) ->
  GoStrings.TrimSpace (Model.Path cfg) <> ""
  /\ GoStrings.HasPrefix (Model.Path cfg) "/" = true
  /\ GoStrings.Contains (Model.Path cfg) ".." = false
  /\ Model.isIntrinsicIgnore (Model.Path cfg) = false
  /\ (Model.Mode cfg = "" \/ Model.isValidOctalMode (Model.Mode cfg) = true)
  /\ (Model.Owner cfg = "" \/ Model.isValidUserName (Model.Owner cfg) = true)
  /\ (Model.Group cfg = "" \/ Model.isValidUserName (Model.Group cfg) = true).
Proof.
  intros Hv Hin. apply Validate_nil_iff in Hv as (_ & _ & _ & _ & Hc & _).
  exact (Hc cfg Hin).
Qed.

(** X2. A state on which [Validate] reports nothing names, in every
    user-packages entry, a user declared in its own users section, and
    only package names free of control characters. *)
Theorem validate_accepts_only_declared_users (s : Model.SystemState)
    (up : Model.UserPackageState) :
  Model.Validate s = [] ->
  In up (Model.UserPackages s) ->
  In (Model.User up) (map Model.UserName (Model.Users s))
  /\ (forall p, In p (Model.Pipx up ++ Model.Npm up) -> Model.isValidPackageName p = true).
Proof.
  intros Hv Hin. apply Validate_nil_iff in Hv as (_ & _ & _ & _ & _ & Hu).
  destruct (Hu up Hin) as (H1 & H2 & H3). split; [done|].
  intros p Hp. apply in_app_or in Hp as [Hp|Hp]; auto.
Qed.

Lemma validate_accepts_only_safe_configs_witness :
  GoStrings.HasPrefix "/etc/motd" "/" = true
  /\ Model.isIntrinsicIgnore "/etc/motd" = false.
Proof.
  destruct (validate_accepts_only_safe_configs Scenario.settledDesired
              (Scenario.config "/etc/motd" "Hello"))
    as (_ & Habs & _ & Hint & _).
  - vm_compute; reflexivity.
  - simpl; auto.
  - split; [exact Habs | exact Hint].
Defined.

Lemma validate_accepts_only_declared_users_witness :
  In "alice" (map Model.UserName (Model.Users Scenario.settledDesired)).
Proof.
  destruct (validate_accepts_only_declared_users Scenario.settledDesired
              (Model.mkUserPackageState "alice" ["ruff"] [])) as [H _].
  - vm_compute; reflexivity.
  - simpl; auto.
  - exact H.
Defined.

(** ** Modes *)

Lemma octal_byte (c : ascii) :
  ((48 <=? nat_of_ascii c) && (nat_of_ascii c <=? 55))%nat = true ->
  (48 <= N_of_ascii c <= 55)%N.
Proof.
  unfold nat_of_ascii. intros H. apply andb_true_iff in H as [H1 H2].
  apply Nat.leb_le in H1, H2. lia.
Qed.

Lemma octal_value_step (c : ascii) (s : string) (acc : N) :
  (48 <= N_of_ascii c <= 55)%N ->
  Actions.octal_value (String c s) acc
  = Actions.octal_value s (acc * 8 + (N_of_ascii c - 48))%N.
Proof.
  intros [H1 H2]. cbn [Actions.octal_value]. cbv zeta.
  apply N.leb_le in H1, H2. by rewrite H1, H2.
Qed.

(** X3. A mode accepted by the validator always parses in the file actions:
    [ParseUint] succeeds on it and the value fits the nine permission bits. *)
Theorem valid_mode_parses (mode : string) :
  Model.isValidOctalMode mode = true ->
  exists n, Actions.ParseUint8 mode = Ok n /\ (n <= 511)%N.
Proof.
  unfold Model.isValidOctalMode.
  destruct mode as [|c0 [|c1 [|c2 [|c3 [|c4 rest]]]]]; try discriminate.
  cbn [String.length Nat.eqb andb Model.all_bytes].
  intros H. apply andb_true_iff in H as [H0 H].
  apply Ascii.eqb_eq in H0. subst c0.
  apply andb_true_iff in H as [H1 H]. apply andb_true_iff in H as [H2 H].
  apply andb_true_iff in H as [H3 _].
  apply octal_byte in H1, H2, H3.
  exists (((N_of_ascii c1 - 48) * 8 + (N_of_ascii c2 - 48)) * 8 + (N_of_ascii c3 - 48))%N.
  split; [|lia].
  unfold Actions.ParseUint8.
  rewrite (octal_value_step "0"%char) by (vm_compute; split; discriminate).
  rewrite !octal_value_step by assumption.
  cbn [Actions.octal_value].
  change (N_of_ascii "0") with 48%N.
  replace (((0 * 8 + (48 - 48)) * 8 + (N_of_ascii c1 - 48)) * 8 + (N_of_ascii c2 - 48))%N
    with ((N_of_ascii c1 - 48) * 8 + (N_of_ascii c2 - 48))%N by lia.
  match goal with |- context [(?n <? 4294967296)%N] =>
    replace (n <? 4294967296)%N with true; [done|] end.
  symmetry. apply N.ltb_lt. lia.
Qed.

Lemma valid_mode_parses_witness :
  exists n, Actions.ParseUint8 "0644" = Ok n /\ (n <= 511)%N.
Proof. apply (valid_mode_parses "0644"). vm_compute; reflexivity. Defined.

Lemma below_512 (p : N -> bool) :
  forallb (fun k => p (N.of_nat k)) (seq 0 512) = true ->
  forall n, (n <= 511)%N -> p n = true.
Proof.
  intros H n Hn. rewrite forallb_forall in H.
  rewrite <- (N2Nat.id n). apply H, in_seq. lia.
Qed.

(** X4. The mode string the audit writes for a file, ["0"] followed by the
    permission bits in octal, parses back to the same bits in the file
    actions; the validator accepts it exactly when the bits are at least
    0o100, shorter strings such as ["044"] being refused. *)
Theorem inferred_mode_round_trip (perm : N) :
  (perm <= 511)%N ->
  Actions.ParseUint8 ("0" +:+ System.FormatOctal perm) = Ok perm
  /\ (Model.isValidOctalMode ("0" +:+ System.FormatOctal perm) = true <-> (64 <= perm)%N).
Proof.
  intros Hp.
  assert (H : modeRoundTrips perm = true).
  { apply below_512; [vm_compute; reflexivity | exact Hp]. }
  unfold modeRoundTrips in H. apply andb_true_iff in H as [H1 H2].
  split.
  - destruct (Actions.ParseUint8 _) as [m|e]; [|discriminate].
    apply N.eqb_eq in H1. by subst.
  - apply Bool.eqb_prop in H2. rewrite H2. apply N.leb_le.
Qed.

Lemma inferred_mode_round_trip_witness :
  Actions.ParseUint8 ("0" +:+ System.FormatOctal 420) = Ok 420%N.
Proof. apply (inferred_mode_round_trip 420). vm_compute; discriminate. Defined.

(** ** Intrinsic ignores *)

(** X5. Every path the validator refuses as intrinsically ignored is one the
    audit loop suppresses: the validator's set lies inside the audit's. *)
Theorem validator_ignores_within_audit (p : string) :
  Model.isIntrinsicIgnore p = true -> is_Some (System.intrinsicReason p).
Proof.
  unfold Model.isIntrinsicIgnore. intros H. apply intrinsicReason_spec.
  destruct (existsb _ Model.intrinsicIgnores) eqn:H1.
  { apply existsb_exists in H1 as [ip [Hin Heq]]. apply String.eqb_eq in Heq. subst ip.
    right. right. right. exists p. split; [|apply HasPrefix_refl].
    simpl in Hin. simpl. tauto. }
  destruct (existsb _ Model.prefixIgnores) eqn:H2.
  { apply existsb_exists in H2 as [ip [Hin Hp]].
    simpl in Hin. destruct Hin as [<-|[<-|[]]].
    - right. right. right. exists "/etc/apk/keys". split; [simpl; tauto|done].
    - by left. }
  destruct (GoStrings.HasSuffix p "-") eqn:H3; [tauto|].
  destruct (GoStrings.HasSuffix p ".bak") eqn:H4; [tauto|].
  discriminate.
Qed.

Lemma validator_ignores_within_audit_witness :
  is_Some (System.intrinsicReason "/etc/apk/keys/alpine.rsa.pub").
Proof. apply validator_ignores_within_audit. vm_compute; reflexivity. Defined.

(** ** The audit of [/etc] *)

Lemma auditLine_skip (acc : System.AuditAcc) (line : string) (w : Host.World) :
  System.auditLine true (withoutNotes acc) line w
  = (onOk withoutNotes (fst (System.auditLine false acc line w)),
     snd (System.auditLine false acc line w)).
Proof.
  unfold System.auditLine. cbv zeta.
  destruct (String.length _ <? 2)%nat; [done|].
  match goal with |- context [negb ?b] => destruct b end; cbn [negb]; [|done].
  destruct (System.intrinsicReason _); [done|].
  unfold Host.bind.
  destruct (String.eqb _ "X") eqn:HX.
  - unfold Host.ret. cbn.
    repeat match goal with |- context [String.eqb ?a ?b] => destruct (String.eqb a b) end;
      done.
  - unfold System.wrapErr, Afero.Stat, Afero.query.
    match goal with |- context [Afero.statIn ?m ?p] => destruct (Afero.statIn m p) as [f|e] end;
      [|done].
    unfold Host.ret. destruct (Host.isDir f); [done|].
    repeat match goal with |- context [String.eqb ?a ?b] => destruct (String.eqb a b) end;
      done.
Qed.

Lemma auditLines_skip (lines : list string) (acc : System.AuditAcc) (w : Host.World) :
  System.auditLines true (withoutNotes acc) lines w
  = (onOk withoutNotes (fst (System.auditLines false acc lines w)),
     snd (System.auditLines false acc lines w)).
Proof.
  revert acc w. induction lines as [|line lines IH]; intros acc w; [done|].
  cbn [System.auditLines]. unfold Host.bind.
  rewrite auditLine_skip.
  destruct (System.auditLine false acc line w) as [[acc'|e] w']; cbn [fst snd onOk]; [|done].
  apply IH.
Qed.

(** X6. The audit reports the same files whether or not it is asked to skip
    recording the intrinsically ignored ones: with [skipIntrinsicIgnores]
    set it returns the same configs, error and world as without, and an
    empty list of ignored paths. *)
Theorem audit_skip_only_drops_notes (runner : Host.CommandRunner) (w : Host.World) :
  System.listSystemConfigs runner true w
  = (withoutIgnored (fst (System.listSystemConfigs runner false w)),
     snd (System.listSystemConfigs runner false w)).
Proof.
  unfold System.listSystemConfigs. unfold Host.bind.
  destruct (Host.Run runner "" "apk audit" w) as [[r|e] w1]; [|done].
  destruct (snd r); [done|].
  change (System.mkAuditAcc [] [] []) with (withoutNotes (System.mkAuditAcc [] [] [])) at 1.
  rewrite auditLines_skip.
  destruct (System.auditLines false _ _ w1) as [[acc|e] w2]; cbn [fst snd onOk]; [|done].
  cbn [withoutNotes System.configs System.modifiedFiles System.ignored].
  match goal with
  | |- context [match System.modifiedFiles acc with [] => ?a | _ :: _ => ?b end w2] =>
      destruct (match System.modifiedFiles acc with [] => a | _ :: _ => b end w2)
        as [[cfgs|e] w3]
  end; [|done].
  destruct (System.readConfigs cfgs w3) as [[cfgs'|e] w4]; done.
Qed.










(** ** The planner *)

Lemma map_to_list_In {V : Type} (m : gmap string V) (k : string) (v : V) :
  In (k, v) (map_to_list m) <-> m !! k = Some v.
Proof. rewrite <- list_elem_of_In. apply elem_of_map_to_list. Qed.

Lemma indexBy_None {V : Type} (key : V -> string) (l : list V) (k : string) :
  Diff.indexBy key l !! k = None <-> ~ In k (map key l).
Proof.
  split.
  - intros Hn Hin. apply (indexBy_is_Some key) in Hin as [v Hv]. congruence.
  - intros Hn. unfold Diff.indexBy. rewrite indexBy_fold_other by done. apply lookup_empty.
Qed.

Lemma indexBy_Some_In {V : Type} (key : V -> string) (l : list V) (k : string) :
  is_Some (Diff.indexBy key l !! k) <-> In k (map key l).
Proof.
  split; [|apply indexBy_is_Some].
  intros [v Hv]. apply indexBy_lookup in Hv as [Hin <-]. by apply in_map.
Qed.

Lemma NoDup_flat_map_tagged {X Y K : Type} (key : X -> K) (tag : Y -> K)
      (f : X -> list Y) (l : list X) :
  NoDup (map key l) ->
  (forall x y, In y (f x) -> tag y = key x) ->
  (forall x, NoDup (f x)) ->
  NoDup (flat_map f l).
Proof.
  intros Hnd Htag Hone. induction l as [|x l IH]; simpl; [constructor|].
  inversion Hnd as [|? ? Hx Hl]; subst.
  apply NoDup_app. split; [apply Hone|]. split; [|by apply IH].
  intros y Hy Hy'. apply list_elem_of_In in Hy, Hy'.
  apply in_flat_map in Hy' as [x' [Hx' Hy']].
  apply Hx, list_elem_of_In. rewrite <- (Htag _ _ Hy), (Htag _ _ Hy').
  by apply in_map.
Qed.

Lemma NoDup_keys {V : Type} (m : gmap string V) : NoDup (map fst (map_to_list m)).
Proof. apply NoDup_fst_map_to_list. Qed.

Lemma packageActions_NoDup (desired current : list Model.PackageState) :
  NoDup (Diff.calculatePackageActions desired current).
Proof.
  unfold Diff.calculatePackageActions. cbv zeta.
  apply NoDup_app. split; [|split].
  - apply (NoDup_flat_map_tagged fst
             (fun a => match a with Actions.PackageInstallAction n => n | _ => "" end));
      [apply NoDup_keys| |].
    + intros [k v] y. cbn [fst]. destruct (_ !! k); [done|]. by intros [<-|[]].
    + intros [k v]. cbn [fst]. destruct (_ !! k); repeat constructor. by intros H%elem_of_nil.
  - intros a Ha Hb. apply list_elem_of_In in Ha, Hb.
    apply in_flat_map in Ha as [[k v] [_ Ha]], Hb as [[k' v'] [_ Hb]].
    cbn [fst] in Ha, Hb.
    destruct (_ !! k); [done|]. destruct (_ !! k'); [done|].
    destruct Ha as [<-|[]]. by destruct Hb as [Hb|[]].
  - apply (NoDup_flat_map_tagged fst
             (fun a => match a with Actions.PackageRemoveAction n => n | _ => "" end));
      [apply NoDup_keys| |].
    + intros [k v] y. cbn [fst]. destruct (_ !! k); [done|]. by intros [<-|[]].
    + intros [k v]. cbn [fst]. destruct (_ !! k); repeat constructor. by intros H%elem_of_nil.
Qed.

(** X8. The package part of a plan installs exactly the names desired and
    not current, and removes exactly the names current and not desired; it
    holds no action twice, however often a name is repeated in the two
    lists. *)
Theorem package_plan_exact (desired current : list Model.PackageState) :
  NoDup (Diff.calculatePackageActions desired current)
  /\ forall a,
       In a (Diff.calculatePackageActions desired current)
       <-> (exists n, a = Actions.PackageInstallAction n
                      /\ In n (map Model.PackageName desired)
                      /\ ~ In n (map Model.PackageName current))
           \/ (exists n, a = Actions.PackageRemoveAction n
                         /\ In n (map Model.PackageName current)
                         /\ ~ In n (map Model.PackageName desired)).
Proof.
  split; [apply packageActions_NoDup|]. intros a.
  unfold Diff.calculatePackageActions. cbv zeta.
  rewrite in_app_iff, !in_flat_map. split.
  - intros [[[k v] [Hkv Ha]]|[[k v] [Hkv Ha]]]; cbn [fst] in Ha;
      apply map_to_list_In in Hkv.
    + destruct (Diff.indexBy _ current !! k) eqn:Hc; [done|].
      destruct Ha as [<-|[]]. left. exists k. split; [done|].
      split; [apply indexBy_Some_In; eauto | by apply indexBy_None].
    + destruct (Diff.indexBy _ desired !! k) eqn:Hd; [done|].
      destruct Ha as [<-|[]]. right. exists k. split; [done|].
      split; [apply indexBy_Some_In; eauto | by apply indexBy_None].
  - intros [(n & -> & Hd & Hc)|(n & -> & Hc & Hd)].
    + left. apply (indexBy_Some_In Model.PackageName) in Hd as [v Hv].
      exists (n, v). split; [by apply map_to_list_In|]. cbn [fst].
      apply (indexBy_None Model.PackageName) in Hc. rewrite Hc. by left.
    + right. apply (indexBy_Some_In Model.PackageName) in Hc as [v Hv].
      exists (n, v). split; [by apply map_to_list_In|]. cbn [fst].
      apply (indexBy_None Model.PackageName) in Hd. rewrite Hd. by left.
Qed.

Lemma service_enable_inv desired current n r :
  In (Actions.ServiceEnableAction n r) (Diff.calculateServiceActions desired current) ->
  exists d, Diff.indexBy Model.ServiceName desired !! n = Some d
            /\ Model.Enabled d = true /\ Model.Runlevel d = r
            /\ forall c, Diff.indexBy Model.ServiceName current !! n = Some c ->
                         Model.Enabled c = false.
Proof.
  unfold Diff.calculateServiceActions. cbv zeta.
  rewrite in_app_iff, !in_flat_map.
  intros [[[k d] [Hkd Ha]]|[[k c] [Hkc Ha]]]; cbn [fst snd] in Ha.
  - apply map_to_list_In in Hkd.
    destruct (Diff.indexBy _ current !! k) as [c|] eqn:Hc.
    + destruct (Model.Enabled d) eqn:Hd, (Model.Enabled c) eqn:Hce; cbn in Ha;
        try done; destruct Ha as [Ha|[]]; inversion Ha; subst.
      exists d. repeat split; try done. intros c' Hc'. congruence.
    + destruct (Model.Enabled d) eqn:Hd; [|done].
      destruct Ha as [Ha|[]]; inversion Ha; subst.
      exists d. repeat split; try done. intros c' Hc'. congruence.
  - destruct (Diff.indexBy _ desired !! k); [done|].
    destruct (Model.Enabled c); [|done]. by destruct Ha as [Ha|[]].
Qed.

Lemma service_disable_inv desired current n r :
  In (Actions.ServiceDisableAction n r) (Diff.calculateServiceActions desired current) ->
  exists c, Diff.indexBy Model.ServiceName current !! n = Some c
            /\ Model.Enabled c = true /\ Model.Runlevel c = r
            /\ forall d, Diff.indexBy Model.ServiceName desired !! n = Some d ->
                         Model.Enabled d = false.
Proof.
  unfold Diff.calculateServiceActions. cbv zeta.
  rewrite in_app_iff, !in_flat_map.
  intros [[[k d] [Hkd Ha]]|[[k c] [Hkc Ha]]]; cbn [fst snd] in Ha.
  - apply map_to_list_In in Hkd.
    destruct (Diff.indexBy _ current !! k) as [c|] eqn:Hc.
    + destruct (Model.Enabled d) eqn:Hd, (Model.Enabled c) eqn:Hce; cbn in Ha;
        try done; destruct Ha as [Ha|[]]; inversion Ha; subst.
      exists c. repeat split; try done. intros d' Hd'. congruence.
    + destruct (Model.Enabled d) eqn:Hd; [|done]. by destruct Ha as [Ha|[]].
  - apply map_to_list_In in Hkc.
    destruct (Diff.indexBy _ desired !! k) eqn:Hd; [done|].
    destruct (Model.Enabled c) eqn:Hce; [|done].
    destruct Ha as [Ha|[]]; inversion Ha; subst.
    exists c. repeat split; try done. intros d' Hd'. congruence.
Qed.

(** X9. The service part of a plan enables a service only when the desired
    list holds it enabled, at the runlevel named there, and disables one
    only when the current list holds it enabled, at the runlevel it has
    there; no service is both enabled and disabled by one plan. *)
Theorem service_plan_sound (desired current : list Model.ServiceState) :
  let plan := Diff.calculateServiceActions desired current in
  (forall n r, In (Actions.ServiceEnableAction n r) plan ->
     (exists d, In d desired /\ Model.ServiceName d = n
                /\ Model.Enabled d = true /\ Model.Runlevel d = r)
     /\ forall r', ~ In (Actions.ServiceDisableAction n r') plan)
  /\ (forall n r, In (Actions.ServiceDisableAction n r) plan ->
        exists c, In c current /\ Model.ServiceName c = n
                  /\ Model.Enabled c = true /\ Model.Runlevel c = r).
Proof.
  cbv zeta. split.
  - intros n r He. apply service_enable_inv in He as (d & Hd & Hen & Hr & Hc).
    split.
    + apply indexBy_lookup in Hd as [Hin Hn]. eauto.
    + intros r' Hdis. apply service_disable_inv in Hdis as (c & _ & _ & _ & Hd').
      specialize (Hd' d Hd). congruence.
  - intros n r Hdis. apply service_disable_inv in Hdis as (c & Hc & Hen & Hr & _).
    apply indexBy_lookup in Hc as [Hin Hn]. eauto.
Qed.

Section ConfigPlanFacts.
Variable fm : string -> string -> bool.

Lemma keptConfigs_lookup desired cs p c :
  Diff.keptConfigs fm desired cs !! p = Some c ->
  In c cs /\ Model.Path c = p /\ Diff.isIgnored fm desired p = false.
Proof.
  unfold Diff.keptConfigs. intros H. apply indexBy_lookup in H as [Hin <-].
  apply filter_In in Hin as [Hin Hk]. by apply negb_true_iff in Hk.
Qed.

Lemma keptConfigs_None desired cs p :
  Diff.keptConfigs fm desired cs !! p = None ->
  Diff.isIgnored fm desired p = false ->
  ~ In p (map Model.Path cs).
Proof.
  unfold Diff.keptConfigs. intros H Hig Hin. apply indexBy_None in H. apply H.
  apply in_map_iff in Hin as (c & <- & Hc). apply in_map, filter_In.
  split; [done|]. by rewrite Hig.
Qed.

(** X10. The file part of a plan only holds file actions, and none on a
    path that matches a pattern of the desired state's ignore list; the
    warnings it prints are for paths that match none, and only when not
    pruning. *)
Theorem config_plan_respects_ignores (desired current : Model.SystemState)
    (pruneUnmanaged : bool) :
  (forall a, In a (fst (Diff.calculateConfigActions fm desired current pruneUnmanaged)) ->
     exists p, pathOf a = Some p /\ Diff.isIgnored fm desired p = false)
  /\ (forall text,
        In text (snd (Diff.calculateConfigActions fm desired current pruneUnmanaged)) ->
        pruneUnmanaged = false
        /\ exists p, text = Diff.unmanagedFileWarning p
                     /\ Diff.isIgnored fm desired p = false).
Proof.
  unfold Diff.calculateConfigActions. cbv zeta. cbn [fst snd]. split.
  - intros a Ha. apply in_app_iff in Ha as [Ha|Ha]; apply in_flat_map in Ha.
    + destruct Ha as [[p d] [Hpd Ha]]. apply map_to_list_In in Hpd.
      apply keptConfigs_lookup in Hpd as (_ & _ & Hig). cbn [fst snd] in Ha.
      destruct (Diff.keptConfigs fm desired (Model.Configs current) !! p) as [c|].
      * rewrite !in_app_iff in Ha. destruct Ha as [Ha|[Ha|Ha]];
          match type of Ha with In _ (if ?b then _ else _) => destruct b end;
          try done; destruct Ha as [<-|[]]; eauto.
      * destruct Ha as [<-|[]]; eauto.
    + destruct Ha as [acts [Hacts Ha]]. apply in_map_iff in Hacts as ([p c] & <- & Hpc).
      apply map_to_list_In in Hpc. apply keptConfigs_lookup in Hpc as (_ & _ & Hig).
      cbn [fst snd] in Ha.
      destruct (Diff.keptConfigs fm desired (Model.Configs desired) !! p); [done|].
      destruct (Model.Origin c); try done.
      * destruct pruneUnmanaged; [destruct Ha as [<-|[]]; eauto|].
        by destruct (negb _).
      * destruct Ha as [<-|[]]; eauto.
  - intros text Ht. apply in_flat_map in Ht as [acts [Hacts Ht]].
    apply in_map_iff in Hacts as ([p c] & <- & Hpc).
    apply map_to_list_In in Hpc. apply keptConfigs_lookup in Hpc as (_ & _ & Hig).
    cbn [fst snd] in Ht.
    destruct (Diff.keptConfigs fm desired (Model.Configs desired) !! p); [done|].
    destruct (Model.Origin c); try done.
    destruct pruneUnmanaged; [done|]. rewrite Hig in Ht. cbn in Ht.
    destruct Ht as [<-|[]]. eauto.
Qed.

(** X11. A plan deletes a file only when pruning is asked for, the current
    state reports the file as created by the user and the desired state
    does not list its path; it reverts a file only when the current state
    reports it as a changed package file, to the package named there, and
    the desired state does not list its path. *)
Theorem config_plan_removals (desired current : Model.SystemState)
    (pruneUnmanaged : bool) :
  let plan := fst (Diff.calculateConfigActions fm desired current pruneUnmanaged) in
  (forall p oc om oo og, In (Actions.FileDeleteAction p oc om oo og) plan ->
     pruneUnmanaged = true
     /\ (exists c, In c (Model.Configs current) /\ Model.Path c = p
                   /\ Model.Origin c = Model.OriginUserCreated)
     /\ ~ In p (map Model.Path (Model.Configs desired)))
  /\ (forall p pkg mc, In (Actions.FileRevertAction p pkg mc) plan ->
        (exists c, In c (Model.Configs current) /\ Model.Path c = p
                   /\ Model.Origin c = Model.OriginPackageModified
                   /\ Model.OriginPackage c = pkg)
        /\ ~ In p (map Model.Path (Model.Configs desired))).
Proof.
  unfold Diff.calculateConfigActions. cbv zeta. cbn [fst snd].
  assert (Hboth : forall a,
    In a (flat_map
      (fun kv =>
         match Diff.keptConfigs fm desired (Model.Configs current) !! fst kv with
         | Some currentConfig =>
             (if negb (String.eqb (Model.Content (snd kv)) (Model.Content currentConfig))
              then [Actions.FileUpdateAction (fst kv) (Model.Content (snd kv)) "" 0]
              else [])
             ++ (if Actions.nonEmpty (Model.Mode (snd kv))
                    && negb (String.eqb (Model.Mode (snd kv)) (Model.Mode currentConfig))
                 then [Actions.FileChmodAction (fst kv) (Model.Mode (snd kv)) 0]
                 else [])
             ++ (if (Actions.nonEmpty (Model.Owner (snd kv))
                     && negb (String.eqb (Model.Owner (snd kv)) (Model.Owner currentConfig)))
                    || (Actions.nonEmpty (Model.Group (snd kv))
                        && negb (String.eqb (Model.Group (snd kv))
                                            (Model.Group currentConfig)))
                 then [Actions.FileChownAction (fst kv) (Model.Owner (snd kv))
                         (Model.Group (snd kv)) "" ""]
                 else [])
         | None =>
             [Actions.FileCreateAction (fst kv) (Model.Content (snd kv))
                (Model.Mode (snd kv)) (Model.Owner (snd kv)) (Model.Group (snd kv))]
         end) (map_to_list (Diff.keptConfigs fm desired (Model.Configs desired)))) ->
    match a with
    | Actions.FileDeleteAction _ _ _ _ _ | Actions.FileRevertAction _ _ _ => False
    | _ => True
    end).
  { intros a Ha. apply in_flat_map in Ha as [[p d] [_ Ha]]. cbn [fst snd] in Ha.
    destruct (_ !! p).
    - rewrite !in_app_iff in Ha. destruct Ha as [Ha|[Ha|Ha]];
        match type of Ha with In _ (if ?b then _ else _) => destruct b end;
        try done; by destruct Ha as [<-|[]].
    - by destruct Ha as [<-|[]]. }
  split.
  - intros p oc om oo og Ha. apply in_app_iff in Ha as [Ha|Ha];
      [by apply Hboth in Ha|].
    apply in_flat_map in Ha as [acts [Hacts Ha]].
    apply in_map_iff in Hacts as ([p' c] & <- & Hpc).
    apply map_to_list_In in Hpc. apply keptConfigs_lookup in Hpc as (Hin & Hp & Hig).
    cbn [fst snd] in Ha.
    destruct (Diff.keptConfigs fm desired (Model.Configs desired) !! p') eqn:Hd; [done|].
    destruct (Model.Origin c) eqn:Ho; try done.
    + destruct pruneUnmanaged; [|by destruct (negb _)].
      destruct Ha as [Ha|[]]. inversion Ha; subst.
      split; [done|]. split; [eauto|]. by eapply keptConfigs_None.
    + by destruct Ha as [Ha|[]].
  - intros p pkg mc Ha. apply in_app_iff in Ha as [Ha|Ha];
      [by apply Hboth in Ha|].
    apply in_flat_map in Ha as [acts [Hacts Ha]].
    apply in_map_iff in Hacts as ([p' c] & <- & Hpc).
    apply map_to_list_In in Hpc. apply keptConfigs_lookup in Hpc as (Hin & Hp & Hig).
    cbn [fst snd] in Ha.
    destruct (Diff.keptConfigs fm desired (Model.Configs desired) !! p') eqn:Hd; [done|].
    destruct (Model.Origin c) eqn:Ho; try done.
    + destruct pruneUnmanaged; [by destruct Ha as [Ha|[]]|by destruct (negb _)].
    + destruct Ha as [Ha|[]]. inversion Ha; subst.
      split; [eauto 6|]. by eapply keptConfigs_None.
Qed.

End ConfigPlanFacts.

(** ** Dependency validation *)

Lemma flat_map_nil_iff {X Y : Type} (f : X -> list Y) (l : list X) :
  flat_map f l = [] <-> forall x, In x l -> f x = [].
Proof.
  split; [|apply flat_map_nil].
  induction l as [|x l IH]; simpl; [done|].
  intros H y [<-|Hy]; apply app_eq_nil in H as [H1 H2]; auto.
Qed.

Lemma length_zero_iff {X : Type} (l : list X) : Nat.eqb (length l) 0 = true <-> l = [].
Proof. destruct l; simpl; split; congruence. Qed.

(** X12. [ValidateDependencies] passes exactly when: user packages under
    pipx come with the system package [pipx] in the desired list, those
    under npm with [npm]; every desired service is among the current
    services; and every user with user packages is among the current
    users. *)
Theorem ValidateDependencies_passes_iff (desired current : Model.SystemState) :
  Diff.ValidateDependencies desired current = None
  <-> (flat_map Model.Pipx (Model.UserPackages desired) <> [] ->
       In "pipx" (map Model.PackageName (Model.Packages desired)))
      /\ (flat_map Model.Npm (Model.UserPackages desired) <> [] ->
          In "npm" (map Model.PackageName (Model.Packages desired)))
      /\ (forall s, In s (Model.Services desired) ->
            In (Model.ServiceName s) (map Model.ServiceName (Model.Services current)))
      /\ (forall up, In up (Model.UserPackages desired) ->
            In (Model.User up) (map Model.UserName (Model.Users current))).
Proof.
  unfold Diff.ValidateDependencies. cbv zeta.
  match goal with |- match ?errs with [] => _ | _ :: _ => _ end = None <-> _ =>
    assert (Hnil : match errs with [] => None | _ :: _ => Some "x" end = @None string
                   <-> errs = []) by (destruct errs; split; congruence);
    transitivity (errs = []); [destruct errs; split; congruence|]
  end.
  clear Hnil. match goal with |- _ <-> ?P => set (rhs := P) end. rewrite !app_nil'.
  unfold Diff.validateUserPackageDependencies, Diff.validateServiceDependencies,
    Diff.validateUserDependencies, Diff.setOf. cbv zeta.
  rewrite !app_nil', !flat_map_nil_iff.
  assert (Hdep : forall (pkgs : list string) (name msg : string),
    (if negb (Nat.eqb (length pkgs) 0)
        && negb (bool_decide (name ∈ (list_to_set (map Model.PackageName
                                         (Model.Packages desired)) : gset string)))
     then [msg] else []) = []
    <-> (pkgs <> [] -> In name (map Model.PackageName (Model.Packages desired)))).
  { intros pkgs name msg. destruct pkgs as [|p pkgs]; cbn [length Nat.eqb negb andb].
    - split; [intros _ H; exfalso; by apply H|done].
    - destruct (bool_decide _) eqn:Hb; cbn [negb].
      + apply bool_decide_eq_true in Hb. rewrite elem_of_list_to_set, list_elem_of_In in Hb.
        split; auto.
      + apply bool_decide_eq_false in Hb. rewrite elem_of_list_to_set, list_elem_of_In in Hb.
        split; [discriminate|]. intros H. destruct Hb. by apply H. }
  rewrite !Hdep. subst rhs.
  assert (Hmem : forall (x : string) (l : list string) (msg : string),
    (if bool_decide (x ∈ (list_to_set l : gset string)) then [] else [msg]) = []
    <-> In x l).
  { intros x l msg. destruct (bool_decide _) eqn:Hb.
    - apply bool_decide_eq_true in Hb. rewrite elem_of_list_to_set, list_elem_of_In in Hb.
      tauto.
    - apply bool_decide_eq_false in Hb. rewrite elem_of_list_to_set, list_elem_of_In in Hb.
      split; [discriminate|tauto]. }
  split.
  - intros ((H1 & H2) & H3 & H4). split; [done|]. split; [done|]. split.
    + intros s Hs. eapply Hmem, H3, Hs.
    + intros up Hup. eapply Hmem, H4, Hup.
  - intros (H1 & H2 & H3 & H4). split; [done|]. split.
    + intros s Hs. apply Hmem, H3, Hs.
    + intros up Hup. apply Hmem, H4, Hup.
Qed.

(** ** What the planner asks of the host *)

Section AskedOnly.
Variable allowed : string * string -> Prop.

Lemma askedOnly_refl runner w : askedOnly allowed runner w w.
Proof.
  split; [exists []; by rewrite app_nil_r|]. done.
Qed.

Lemma askedOnly_trans runner w1 w2 w3 :
  askedOnly allowed runner w1 w2 ->
  askedOnly allowed runner w2 w3 ->
  askedOnly allowed runner w1 w3.
Proof.
  intros ((cs1 & Hc1 & Hq1) & Hl1 & Hm1) ((cs2 & Hc2 & Hq2) & Hl2 & Hm2).
  split; [|split].
  - exists (cs1 ++ cs2). rewrite Hc2, Hc1, app_assoc. split; [done|].
    by apply Forall_app.
  - congruence.
  - intros Hro. rewrite Hm2, Hm1; done.
Qed.

Lemma askedOnly_bind {A B : Type} runner (c : Host.M A) (k : A -> Host.M B) :
  (forall w, askedOnly allowed runner w (snd (c w))) ->
  (forall a w, askedOnly allowed runner w (snd (k a w))) ->
  forall w, askedOnly allowed runner w (snd (Host.bind c k w)).
Proof.
  intros Hc Hk w. unfold Host.bind. specialize (Hc w).
  destruct (c w) as [[a|e] w1]; cbn [snd] in *; [|done].
  eapply askedOnly_trans; [exact Hc|apply Hk].
Qed.

Lemma askedOnly_ret {A : Type} runner (a : A) w :
  askedOnly allowed runner w (snd (Host.ret a w)).
Proof. apply askedOnly_refl. Qed.

Lemma askedOnly_fail {A : Type} runner e w :
  askedOnly allowed runner w (snd (@Host.fail A e w)).
Proof. apply askedOnly_refl. Qed.

Lemma askedOnly_print runner text w :
  askedOnly allowed runner w (snd (Host.print text w)).
Proof. split; [exists []; by rewrite app_nil_r|]. done. Qed.

Lemma askedOnly_wrapErr {A : Type} runner msg (c : Host.M A) :
  (forall w, askedOnly allowed runner w (snd (c w))) ->
  forall w, askedOnly allowed runner w (snd (System.wrapErr msg c w)).
Proof.
  intros Hc w. unfold System.wrapErr. specialize (Hc w).
  by destruct (c w) as [[a|e] w1].
Qed.

Lemma askedOnly_Run runner user command w :
  allowed (user, command) ->
  askedOnly allowed runner w (snd (Host.Run runner user command w)).
Proof.
  intros Hq. unfold Host.Run.
  destruct (runner user command (Host.machine w)) as [r m'] eqn:Hr. cbn [snd].
  split; [|split]; cbn.
  - exists [(user, command)]. split; [done|]. by constructor.
  - done.
  - intros Hro. specialize (Hro user command (Host.machine w)). by rewrite Hr in Hro.
Qed.

Lemma askedOnly_try {A B : Type} runner (c : Host.M A) (k : Result A -> Host.M B) :
  (forall w, askedOnly allowed runner w (snd (c w))) ->
  (forall r w, askedOnly allowed runner w (snd (k r w))) ->
  forall w, askedOnly allowed runner w (snd (Host.try c k w)).
Proof.
  intros Hc Hk w. unfold Host.try. specialize (Hc w).
  destruct (c w) as [r w1]; cbn [snd] in *.
  eapply askedOnly_trans; [exact Hc|apply Hk].
Qed.

Lemma askedOnly_query {A : Type} runner (f : Host.Machine -> Result A) w :
  askedOnly allowed runner w (snd (Afero.query f w)).
Proof. apply askedOnly_refl. Qed.

End AskedOnly.

Section PlannerQueries.
Variable fm : string -> string -> bool.
Variables pipx npm : string -> Result (list string).

Lemma planner_asks_groups runner w :
  askedOnly queryCommand runner w (snd (Diff.inferCurrentSystemGroups runner w)).
Proof.
  unfold Diff.inferCurrentSystemGroups. apply askedOnly_bind.
  - intros w0. apply askedOnly_Run. by left.
  - intros r w0. destruct (snd r); [apply askedOnly_fail|].
    destruct (snd (Bufio.ScanLines _)); [apply askedOnly_fail|apply askedOnly_ret].
Qed.

Lemma planner_asks_users desired current runner w :
  askedOnly queryCommand runner w (snd (Diff.calculateUserActions desired current runner w)).
Proof.
  unfold Diff.calculateUserActions. apply askedOnly_bind.
  - apply askedOnly_wrapErr. apply planner_asks_groups.
  - intros gs w0. apply askedOnly_ret.
Qed.

Lemma planner_asks_compare user manager wanted runner w :
  manager = "pipx" \/ manager = "npm" ->
  askedOnly queryCommand runner w
    (snd (Diff.compareUserPackages pipx npm user manager wanted runner w)).
Proof.
  intros Hm. unfold Diff.compareUserPackages. apply askedOnly_bind.
  - intros w0. apply askedOnly_Run. destruct Hm as [-> | ->]; [right; by left|right; by right].
  - intros r w0. destruct (snd r).
    + apply askedOnly_bind; [apply askedOnly_print|intros; apply askedOnly_ret].
    + cbv zeta.
      destruct (if String.eqb manager "pipx" then _ else _).
      * apply askedOnly_ret.
      * apply askedOnly_bind; [apply askedOnly_print|intros; apply askedOnly_ret].
Qed.

Lemma planner_asks_userPackages ups runner w :
  askedOnly queryCommand runner w (snd (Diff.userPackageActions pipx npm ups runner w)).
Proof.
  revert w. induction ups as [|up ups IH]; intros w; cbn [Diff.userPackageActions].
  - apply askedOnly_ret.
  - apply askedOnly_bind.
    + intros w0. destruct (Model.Pipx up); [apply askedOnly_ret|].
      apply planner_asks_compare. by left.
    + intros a1 w0. apply askedOnly_bind.
      * intros w1. destruct (Model.Npm up); [apply askedOnly_ret|].
        apply planner_asks_compare. by right.
      * intros a2 w1. apply askedOnly_bind; [apply IH|].
        intros a3 w2. apply askedOnly_ret.
Qed.

Lemma planner_asks_prints runner (texts : list string) w :
  askedOnly queryCommand runner w
    (snd (fold_right (fun text k => Host.bind (Host.print text) (fun _ => k))
                     (Host.ret tt) texts w)).
Proof.
  revert w. induction texts as [|t texts IH]; intros w; cbn [fold_right].
  - apply askedOnly_ret.
  - apply askedOnly_bind; [apply askedOnly_print|]. intros _. apply IH.
Qed.

(** X13. Planning only asks: whatever its outcome, [CalculatePlan] hands the
    runner nothing but the listing of [/etc/group] and the [list --json]
    of pipx and npm, logs nothing, and leaves the machine as it is when the
    runner does. *)
Theorem planning_only_queries (desired current : Model.SystemState)
    (runner : Host.CommandRunner) (pruneUnmanaged : bool) (w : Host.World) :
  let w' := snd (Diff.CalculatePlan fm pipx npm desired current runner pruneUnmanaged w) in
  (exists cs, Host.calls w' = Host.calls w ++ cs
              /\ Forall (fun c => snd c = "sh -c 'cat /etc/group'"
                                  \/ snd c = "pipx list --json"
                                  \/ snd c = "npm list --json") cs)
  /\ Host.logged w' = Host.logged w
  /\ ((forall user command m, snd (runner user command m) = m) ->
      Host.machine w' = Host.machine w).
Proof.
  cbv zeta. change (askedOnly queryCommand runner w
    (snd (Diff.CalculatePlan fm pipx npm desired current runner pruneUnmanaged w))).
  unfold Diff.CalculatePlan.
  destruct (Diff.ValidateDependencies desired current); [apply askedOnly_fail|].
  cbv zeta. apply askedOnly_bind; [apply planner_asks_users|].
  intros ua w0. apply askedOnly_bind; [apply planner_asks_prints|].
  intros _ w1. apply askedOnly_bind.
  - unfold Diff.calculateUserPackageActions. apply planner_asks_userPackages.
  - intros upa w2. apply askedOnly_ret.
Qed.

End PlannerQueries.

(** ** Groups *)

Lemma createMissingGroups_filter (required : list string) :
  forall known : gset string,
    NoDup required ->
    Diff.createMissingGroups required known
    = map Actions.GroupCreateAction
          (List.filter (fun g => negb (bool_decide (g ∈ known))) required).
Proof.
  induction required as [|g more IH]; intros known Hnd; [done|].
  inversion Hnd as [|? ? Hg Hmore]; subst.
  cbn [Diff.createMissingGroups List.filter].
  destruct (bool_decide (g ∈ known)) eqn:Hk; cbn [negb]; [by apply IH|].
  cbn [map]. f_equal. rewrite (IH _ Hmore). f_equal.
  apply filter_ext_in. intros g' Hg'. f_equal.
  apply bool_decide_ext. rewrite elem_of_union, elem_of_singleton.
  split; [|tauto]. intros [->|H]; [|done]. destruct Hg. by apply list_elem_of_In.
Qed.

Lemma NoDup_List_filter {X : Type} (f : X -> bool) (l : list X) :
  NoDup l -> NoDup (List.filter f l).
Proof.
  induction 1 as [|x l Hx Hl IH]; simpl; [constructor|].
  destruct (f x); [|done]. constructor; [|done].
  rewrite list_elem_of_In, filter_In, <- list_elem_of_In. tauto.
Qed.

Lemma userActions_no_create cmap d g : ~ In (Actions.GroupCreateAction g) (Diff.userActions cmap d).
Proof.
  unfold Diff.userActions. destruct (cmap !! _) as [cu|].
  - cbv zeta. rewrite in_app_iff, !in_flat_map.
    intros [[x [_ H]]|[x [_ H]]].
    + destruct (bool_decide _); [done|]. by destruct H as [H|[]].
    + destruct (bool_decide _); [done|]. destruct (String.eqb _ _); [done|].
      by destruct H as [H|[]].
  - intros [H|H]; [done|]. apply in_map_iff in H as (x & H & _). done.
Qed.

(** X14. The user part of a plan starts with the group creations, one for
    each group that some desired user is to be in and that the listing of
    [/etc/group] does not hold, none of them twice; no group is created
    later in it. *)
Theorem groups_created_first (desired current : list Model.UserState)
    (runner : Host.CommandRunner) (w w' : Host.World) (acts : list Actions.Action) :
  Diff.calculateUserActions desired current runner w = (Ok acts, w') ->
  exists creates rest,
    acts = map Actions.GroupCreateAction creates ++ rest
    /\ NoDup creates
    /\ (forall g, In g creates <->
          (exists u, In u desired /\ In g (Model.Groups u))
          /\ g ∉ Diff.groupsListed
                   (fst (fst (runner "" "sh -c 'cat /etc/group'" (Host.machine w)))))
    /\ (forall g, ~ In (Actions.GroupCreateAction g) rest).
Proof.
  intros H. apply calculateUserActions_known in H. cbv zeta in H.
  destruct H as [_ ->].
  rewrite createMissingGroups_filter by apply NoDup_elements.
  eexists _, _. split; [reflexivity|]. split; [|split].
  - apply NoDup_List_filter, NoDup_elements.
  - intros g. rewrite filter_In, negb_true_iff, bool_decide_eq_false.
    rewrite <- list_elem_of_In, elem_of_elements. unfold Diff.setOf.
    rewrite elem_of_list_to_set, list_elem_of_In, in_flat_map. done.
  - intros g Hin. apply in_app_iff in Hin as [Hin|Hin]; apply in_flat_map in Hin.
    + destruct Hin as [d [_ Hin]]. by apply userActions_no_create in Hin.
    + destruct Hin as [kv [_ Hin]]. destruct (_ !! fst kv); [done|].
      by destruct Hin as [Hin|[]].
Qed.

Lemma groups_created_first_witness :
  exists creates rest,
    [Actions.GroupCreateAction "docker"; Actions.UserCreateAction "bob";
     Actions.AddUserToGroupAction "bob" "docker"]
    = map Actions.GroupCreateAction creates ++ rest
    /\ NoDup creates
    /\ In "docker" creates
    /\ (forall g, ~ In (Actions.GroupCreateAction g) rest).
Proof.
  edestruct (groups_created_first (Model.Users Scenario.bobDesired) []
               Scenario.groupRunner (Scenario.fresh Scenario.bare))
    as (creates & rest & H1 & H2 & H3 & H4).
  - vm_compute. reflexivity.
  - exists creates, rest. split; [exact H1|]. split; [exact H2|]. split; [|exact H4].
    apply H3. split.
    + exists (Model.mkUserState "bob" ["docker"] ""). split; simpl; by left.
    + apply (bool_decide_eq_false_1 (_ ∈ _)). vm_compute. reflexivity.
Defined.

(** ** What a dry run shows and what a run does *)

Lemma runErr_calls runner user command w x w' :
  Actions.runErr runner user command w = (Ok x, w') ->
  Host.calls w' = Host.calls w ++ [(user, command)].
Proof.
  unfold Actions.runErr, Host.bind, Host.Run.
  destruct (runner user command (Host.machine w)) as [[out [e|]] m']; cbn.
  - discriminate.
  - unfold Host.ret. by intros H; inversion H.
Qed.

Lemma logAt_calls lv msg w x w' :
  Host.logAt lv msg w = (Ok x, w') -> Host.calls w' = Host.calls w.
Proof. unfold Host.logAt. by intros H; inversion H. Qed.

Ltac commands :=
  repeat match goal with
    | H : Host.bind _ _ _ = (Ok _, _) |- _ =>
        let a := fresh "a" in let w := fresh "w" in let H1 := fresh "H" in
        apply bind_Ok in H as (a & w & H1 & H)
    | H : Host.ret _ _ = (Ok _, _) |- _ => apply ret_Ok in H as [? ?]; subst
    | H : Host.logAt _ _ _ = (Ok _, _) |- _ => apply logAt_calls in H
    | H : Actions.runErr _ _ _ _ = (Ok _, _) |- _ => apply runErr_calls in H
    | H : (if ?b then Host.fail _ else _) _ = (Ok _, _) |- _ =>
        destruct b; [discriminate|]
    end.

(** X15. For the actions on packages, services, users and groups, the lines
    a dry run shows are the commands a successful [Apply] hands to the
    runner, in order, each after [run: ]; all of them run as the engine's
    own user. *)
Theorem preview_shows_commands_run (diffPrettyText : string -> string -> string)
    (runner : Host.CommandRunner) (a a' : Actions.Action) (w w' : Host.World) :
  systemKind a = true ->
  Actions.Apply runner a w = (Ok a', w') ->
  exists cs, Host.calls w' = Host.calls w ++ cs
             /\ map (fun c => "run: " +:+ snd c) cs
                = Actions.ExecutionDetails diffPrettyText a
             /\ Forall (fun c => fst c = "") cs.
Proof.
  intros Hk H. destruct a; try discriminate Hk; clear Hk;
    cbn [Actions.Apply] in H; unfold Actions.keep in H;
    unfold Actions.PackageInstall_Apply, Actions.PackageRemove_Apply,
      Actions.ServiceEnable_Apply, Actions.ServiceDisable_Apply,
      Actions.UserCreate_Apply, Actions.UserRemove_Apply, Actions.GroupCreate_Apply,
      Actions.AddUserToGroup_Apply, Actions.RemoveUserFromGroup_Apply in H;
    commands;
    repeat match goal with
      | H1 : Host.calls ?w2 = Host.calls ?w1, H2 : context [Host.calls ?w2] |- _ =>
          rewrite H1 in H2
      | H1 : Host.calls ?w2 = Host.calls ?w1 |- context [Host.calls ?w2] =>
          rewrite H1
      end;
    repeat match goal with
      | H1 : Host.calls ?w2 = _ ++ [_] |- context [Host.calls ?w2] => rewrite H1
      | H1 : Host.calls ?w2 = _ ++ [_], H2 : context [Host.calls ?w2] |- _ =>
          rewrite H1 in H2
      end;
    rewrite <- ?app_assoc; cbn [app];
    eexists; (split; [reflexivity|]); (split; [reflexivity|]); repeat constructor.
Qed.

Lemma preview_shows_commands_run_witness :
  exists cs, Host.calls (snd (Actions.Apply (Scenario.failOn "") 
                                (Actions.ServiceEnableAction "sshd" "default")
                                (Scenario.fresh Scenario.bare)))
             = [] ++ cs
             /\ map (fun c => "run: " +:+ snd c) cs
                = ["run: rc-update add sshd default"; "run: rc-service sshd start"]
             /\ Forall (fun c => fst c = "") cs.
Proof.
  apply (preview_shows_commands_run (fun _ _ => "") (Scenario.failOn "")
           (Actions.ServiceEnableAction "sshd" "default")
           (Actions.ServiceEnableAction "sshd" "default")
           (Scenario.fresh Scenario.bare)).
  - reflexivity.
  - vm_compute. reflexivity.
Defined.

Lemma append_assoc (a b c : string) : (a +:+ b) +:+ c = a +:+ (b +:+ c).
Proof.
  induction a as [|x a IH]; [reflexivity|].
  change (String x ((a +:+ b) +:+ c) = String x (a +:+ (b +:+ c))). by rewrite IH.
Qed.

(** X16. For a user package, the line a dry run shows is [su -l] to the
    user with the command a successful [Apply] hands to the runner for that
    user. *)
Theorem user_package_preview (diffPrettyText : string -> string -> string)
    (runner : Host.CommandRunner) (user manager package : string)
    (state : Model.UserPackageActionState) (a' : Actions.Action) (w w' : Host.World) :
  Actions.Apply runner (Actions.UserPackageAction user manager package state) w
  = (Ok a', w') ->
  exists command,
    Host.calls w' = Host.calls w ++ [(user, command)]
    /\ Actions.ExecutionDetails diffPrettyText
         (Actions.UserPackageAction user manager package state)
       = ["su -l " +:+ user +:+ " -c '" +:+ command +:+ "'"].
Proof.
  cbn [Actions.Apply]. unfold Actions.keep, Actions.UserPackage_Apply. intros H.
  commands.
  destruct (String.eqb state Model.PackageStatePresent) eqn:Hp.
  - apply String.eqb_eq in Hp. subst state. commands.
    eexists. split;
      [match goal with
       | H1 : Host.calls ?w2 = Host.calls w, H0 : Host.calls _ = Host.calls ?w2 ++ _ |- _ =>
           rewrite H0, H1; reflexivity
       end|]. cbn [Actions.ExecutionDetails]. cbv zeta.
    change (String.eqb Model.PackageStatePresent Model.PackageStateAbsent) with false.
    cbv iota. do 2 f_equal. f_equal.
    rewrite !append_assoc. reflexivity.
  - destruct (String.eqb state Model.PackageStateAbsent) eqn:Ha; [|discriminate].
    commands.
    eexists. split;
      [match goal with
       | H1 : Host.calls ?w2 = Host.calls w, H0 : Host.calls _ = Host.calls ?w2 ++ _ |- _ =>
           rewrite H0, H1; reflexivity
       end|]. cbn [Actions.ExecutionDetails]. cbv zeta.
    rewrite Ha. do 2 f_equal. f_equal.
    rewrite !append_assoc. reflexivity.
Qed.

Lemma user_package_preview_witness :
  exists command,
    Host.calls (snd (Actions.Apply (Scenario.failOn "")
                       (Actions.UserPackageAction "alice" "pipx" "ruff" "present")
                       (Scenario.fresh Scenario.bare)))
    = [] ++ [("alice", command)]
    /\ ["su -l alice -c 'pipx install ruff'"] = ["su -l alice -c '" +:+ command +:+ "'"].
Proof.
  apply (user_package_preview (fun _ _ => "") (Scenario.failOn "") "alice" "pipx" "ruff"
           "present" (Actions.UserPackageAction "alice" "pipx" "ruff" "present")
           (Scenario.fresh Scenario.bare)).
  vm_compute. reflexivity.
Defined.

(** ** Rolling back a service *)

Lemma bothLastErr_triedBoth runner msg1 msg2 c1 c2 w :
  triedBoth runner c1 c2 w
    (Actions.bothLastErr msg1 msg2 (Actions.runErr runner "" c1)
                         (Actions.runErr runner "" c2) w).
Proof.
  unfold triedBoth, Actions.bothLastErr, Host.try, Actions.orLogError, Actions.runErr,
    Host.bind, Host.Run. cbv zeta.
  destruct (runner "" c1 (Host.machine w)) as [[o1 e1] m1]. cbn [snd fst Host.machine].
  destruct e1 as [e1|]; cbn; destruct (runner "" c2 m1) as [[o2 e2] m2];
    destruct e2 as [e2|]; cbn; rewrite <- ?app_assoc; cbn;
    (split; [reflexivity|]); (split; [reflexivity|]);
    (split; [split; [discriminate || done|intros [? ?]; discriminate || done]|]);
    split; intros e; congruence.
Qed.

(** X17. Rolling back a service action hands both of its commands to the
    runner whatever the first returns, stop then delete for an enabling,
    add then start for a disabling; it succeeds only when both do, and the
    error it returns is the last one seen. *)
Theorem service_rollback_tries_both (runner : Host.CommandRunner)
    (name runlevel : string) (w : Host.World) :
  triedBoth runner ("rc-service " +:+ name +:+ " stop")
            ("rc-update del " +:+ name +:+ " " +:+ runlevel) w
            (Actions.Rollback runner (Actions.ServiceEnableAction name runlevel) w)
  /\ triedBoth runner ("rc-update add " +:+ name +:+ " " +:+ runlevel)
               ("rc-service " +:+ name +:+ " start") w
               (Actions.Rollback runner (Actions.ServiceDisableAction name runlevel) w).
Proof.
  split; cbn [Actions.Rollback];
    unfold Actions.ServiceEnable_Rollback, Actions.ServiceDisable_Rollback;
    unfold Host.bind at 1; unfold Host.logAt at 1;
    match goal with
    | |- triedBoth _ ?c1 ?c2 _ (Actions.bothLastErr ?m1 ?m2 _ _ ?w1) =>
        pose proof (bothLastErr_triedBoth runner m1 m2 c1 c2 w1) as T
    end;
    unfold triedBoth in *; cbn [Host.machine Host.calls] in T; exact T.
Qed.

(** ** File actions that fail *)

(** X18. Updating, deleting, reverting, changing the mode or the owner of a
    file that is not there fails before anything is changed: [Apply]
    returns an error, the machine is as it was and no command was run. *)
Theorem file_action_needs_file (runner : Host.CommandRunner) (a : Actions.Action)
    (p : string) (w : Host.World) :
  needsFile a = true ->
  pathOf a = Some p ->
  Host.files (Host.machine w) !! p = None ->
  exists e w', Actions.Apply runner a w = (Err e, w')
               /\ Host.machine w' = Host.machine w
               /\ Host.calls w' = Host.calls w.
Proof.
  intros Hn Hp Hf. destruct a; try discriminate Hn; clear Hn;
    cbn [pathOf] in Hp; inversion Hp; subst; clear Hp;
    cbn [Actions.Apply];
    unfold Actions.FileUpdate_Apply, Actions.FileDelete_Apply, Actions.FileRevert_Apply,
      Actions.FileChmod_Apply, Actions.FileChown_Apply;
    unfold Host.bind, Host.logAt, Afero.Stat, Afero.ReadFile, Afero.query,
      Afero.statIn, Afero.readIn;
    cbn [Host.machine]; rewrite Hf; eauto.
Qed.

Lemma file_action_needs_file_witness :
  exists e w', Actions.Apply (Scenario.failOn "") (Actions.FileChmodAction "/etc/motd" "0600" 0)
                 (Scenario.fresh Scenario.bare) = (Err e, w')
               /\ Host.machine w' = Host.machine (Scenario.fresh Scenario.bare)
               /\ Host.calls w' = Host.calls (Scenario.fresh Scenario.bare).
Proof.
  apply (file_action_needs_file (Scenario.failOn "")
           (Actions.FileChmodAction "/etc/motd" "0600" 0) "/etc/motd"
           (Scenario.fresh Scenario.bare)); reflexivity.
Defined.



(** ** The reach of a file action *)

Lemma touchedOnly_refl p w : touchedOnly p w w.
Proof. by repeat split. Qed.

Lemma touchedOnly_trans p w1 w2 w3 :
  touchedOnly p w1 w2 -> touchedOnly p w2 w3 -> touchedOnly p w1 w3.
Proof.
  intros (Hc1 & Hf1 & Hp1 & Hg1 & Hu1) (Hc2 & Hf2 & Hp2 & Hg2 & Hu2).
  repeat split; try congruence.
  intros q Hq. by rewrite Hf2, Hf1.
Qed.

Lemma touchedOnly_bind {A B : Type} p (c : Host.M A) (k : A -> Host.M B) :
  (forall w, touchedOnly p w (snd (c w))) ->
  (forall a w, touchedOnly p w (snd (k a w))) ->
  forall w, touchedOnly p w (snd (Host.bind c k w)).
Proof.
  intros Hc Hk w. unfold Host.bind. specialize (Hc w).
  destruct (c w) as [[a|e] w1]; cbn [snd] in *; [|done].
  eapply touchedOnly_trans; [exact Hc|apply Hk].
Qed.

Lemma touchedOnly_try {A B : Type} p (c : Host.M A) (k : Result A -> Host.M B) :
  (forall w, touchedOnly p w (snd (c w))) ->
  (forall r w, touchedOnly p w (snd (k r w))) ->
  forall w, touchedOnly p w (snd (Host.try c k w)).
Proof.
  intros Hc Hk w. unfold Host.try. specialize (Hc w).
  destruct (c w) as [r w1]; cbn [snd] in *.
  eapply touchedOnly_trans; [exact Hc|apply Hk].
Qed.

Lemma touchedOnly_orLogError {A : Type} p msg (c : Host.M A) :
  (forall w, touchedOnly p w (snd (c w))) ->
  forall w, touchedOnly p w (snd (Actions.orLogError msg c w)).
Proof.
  intros Hc w. unfold Actions.orLogError. specialize (Hc w).
  by destruct (c w) as [[a|e] w1].
Qed.

Lemma touchedOnly_query {A : Type} p (f : Host.Machine -> Result A) w :
  touchedOnly p w (snd (Afero.query f w)).
Proof. apply touchedOnly_refl. Qed.

Lemma touchedOnly_logAt p lv msg w : touchedOnly p w (snd (Host.logAt lv msg w)).
Proof. by repeat split. Qed.

Lemma touchedOnly_effect p (f : Host.Machine -> Result Host.Machine) :
  (forall m m', f m = Ok m' ->
     (forall q, q <> p -> Host.files m' !! q = Host.files m !! q)
     /\ Host.passwd m' = Host.passwd m /\ Host.groupdb m' = Host.groupdb m
     /\ Host.umask m' = Host.umask m) ->
  forall w, touchedOnly p w (snd (Afero.effect f w)).
Proof.
  intros Hf w. unfold Afero.effect.
  destruct (f (Host.machine w)) as [m'|e] eqn:He; [|apply touchedOnly_refl].
  destruct (Hf _ _ He) as (H1 & H2 & H3 & H4). by repeat split.
Qed.

Lemma touchedOnly_WriteFile p c mode w :
  touchedOnly p w (snd (Afero.WriteFile p c mode w)).
Proof.
  apply touchedOnly_effect. intros m m'. unfold Afero.writeIn.
  destruct (Host.files m !! p) as [f|]; [destruct (Host.isDir f); [discriminate|]|];
    intros H; inversion H; subst; cbn; (split; [|done]);
    intros q Hq; by rewrite lookup_insert_ne.
Qed.

Lemma touchedOnly_Chmod p mode w : touchedOnly p w (snd (Afero.Chmod p mode w)).
Proof.
  apply touchedOnly_effect. intros m m'. unfold Afero.chmodIn.
  destruct (Host.files m !! p) as [f|]; [|discriminate].
  intros H; inversion H; subst; cbn. split; [|done].
  intros q Hq; by rewrite lookup_insert_ne.
Qed.

Lemma touchedOnly_Chown p u g w : touchedOnly p w (snd (Afero.Chown p u g w)).
Proof.
  apply touchedOnly_effect. intros m m'. unfold Afero.chownIn.
  destruct (Host.files m !! p) as [f|]; [|discriminate].
  intros H; inversion H; subst; cbn. split; [|done].
  intros q Hq; by rewrite lookup_insert_ne.
Qed.

Lemma touchedOnly_Remove p w : touchedOnly p w (snd (Afero.Remove p w)).
Proof.
  apply touchedOnly_effect. intros m m'. unfold Afero.removeIn.
  destruct (Host.files m !! p) as [f|]; [|discriminate].
  intros H; inversion H; subst; cbn. split; [|done].
  intros q Hq; by rewrite lookup_delete_ne.
Qed.

Lemma touchedOnly_ownerId p name w : touchedOnly p w (snd (Actions.ownerId name w)).
Proof.
  unfold Actions.ownerId. destruct (Actions.nonEmpty name); apply touchedOnly_refl.
Qed.

Lemma touchedOnly_groupId p name w : touchedOnly p w (snd (Actions.groupId name w)).
Proof.
  unfold Actions.groupId. destruct (Actions.nonEmpty name); apply touchedOnly_refl.
Qed.

Ltac touched :=
  repeat first
    [ apply touchedOnly_refl
    | apply touchedOnly_logAt
    | apply touchedOnly_WriteFile
    | apply touchedOnly_Chmod
    | apply touchedOnly_Chown
    | apply touchedOnly_Remove
    | apply touchedOnly_ownerId
    | apply touchedOnly_groupId
    | apply touchedOnly_query
    | apply touchedOnly_orLogError; intros
    | apply touchedOnly_bind; intros
    | apply touchedOnly_try; intros
    | match goal with |- touchedOnly _ _ (snd ((if ?b then _ else _) _)) => destruct b end
    | match goal with |- touchedOnly _ _ (snd ((let '(_, _) := ?r in _) _)) =>
        destruct r as [[[? ?] ?] ?] end ].

(** X20. Creating, updating, deleting a file, changing its mode or its
    owner reaches nothing but that file: whatever the outcome of [Apply]
    or of [Rollback], no command is handed to the runner, every other
    entry of the tree is as it was, and so are the account databases and
    the umask. *)
Theorem file_action_touches_its_file_only (runner : Host.CommandRunner)
    (a : Actions.Action) (p : string) (w : Host.World) :
  treeOnly a = true ->
  pathOf a = Some p ->
  touchedOnly p w (snd (Actions.Apply runner a w))
  /\ touchedOnly p w (snd (Actions.Rollback runner a w)).
Proof.
  intros Hk Hp. destruct a; try discriminate Hk; clear Hk;
    cbn [pathOf] in Hp; inversion Hp; subst; clear Hp;
    (split; [cbn [Actions.Apply]|cbn [Actions.Rollback]]);
    unfold Actions.keep, Actions.FileCreate_Apply, Actions.FileCreate_Rollback,
      Actions.FileUpdate_Apply, Actions.FileUpdate_Rollback,
      Actions.FileDelete_Apply, Actions.FileDelete_Rollback,
      Actions.FileChmod_Apply, Actions.FileChmod_Rollback,
      Actions.FileChown_Apply, Actions.FileChown_Rollback,
      Afero.Stat, Afero.ReadFile, OsUser.LookupId, OsUser.LookupGroupId, Host.lift,
      Host.ret;
    touched.
Qed.

Lemma file_action_touches_its_file_only_witness :
  touchedOnly "/etc/motd" (Scenario.fresh Scenario.motdHost)
    (snd (Actions.Apply (Scenario.failOn "") Scenario.deleteMotd
            (Scenario.fresh Scenario.motdHost))).
Proof.
  apply (file_action_touches_its_file_only (Scenario.failOn "") Scenario.deleteMotd
           "/etc/motd" (Scenario.fresh Scenario.motdHost)); reflexivity.
Defined.

(** ** Merging included configurations *)

Lemma appendUnseen_keys {V : Type} (key : V -> string) (l : list V) :
  forall (seen : gset string) (k : string),
    In k (map key (Config.appendUnseen key seen l)) <-> In k (map key l) /\ k ∉ seen.
Proof.
  induction l as [|v l IH]; intros seen k; cbn [Config.appendUnseen map].
  - simpl. tauto.
  - destruct (bool_decide (key v ∈ seen)) eqn:Hb.
    + apply bool_decide_eq_true in Hb. rewrite IH. simpl. split; [tauto|].
      intros [[<-|Hin] Hk]; [done|tauto].
    + apply bool_decide_eq_false in Hb. cbn [map]. simpl. rewrite IH.
      rewrite elem_of_union, elem_of_singleton. split.
      * intros [<-|[Hin Hk]]; [tauto|]. split; [tauto|]. intros Hs. apply Hk. by right.
      * intros [[<-|Hin] Hk]; [by left|].
        destruct (decide (k = key v)) as [->|Hne]; [by left|].
        right. split; [done|]. intros [?|?]; [done|]. by apply Hk.
Qed.

Lemma appendUnseen_sub {V : Type} (key : V -> string) (l : list V) :
  forall (seen : gset string) (v : V),
    In v (Config.appendUnseen key seen l) -> In v l.
Proof.
  induction l as [|x l IH]; intros seen v; cbn [Config.appendUnseen]; [done|].
  destruct (bool_decide _); simpl; [eauto|]. intros [<-|H]; eauto.
Qed.

Lemma appendUnseen_NoDup {V : Type} (key : V -> string) (l : list V) :
  forall seen : gset string, NoDup (map key (Config.appendUnseen key seen l)).
Proof.
  induction l as [|v l IH]; intros seen; cbn [Config.appendUnseen map]; [constructor|].
  destruct (bool_decide (key v ∈ seen)) eqn:Hb; [apply IH|].
  cbn [map]. constructor; [|apply IH].
  rewrite list_elem_of_In, appendUnseen_keys. intros [_ Hk]. apply Hk.
  apply elem_of_union. left. by apply elem_of_singleton.
Qed.

(** X21. Merging package lists keeps the base list as it is and appends the
    override's packages under new names: the result names exactly the
    packages of either list, every entry comes from one of them, and no
    name is repeated unless the base list repeats it. *)
Theorem mergePackages_union (base override : list Model.PackageState) :
  let merged := Config.mergePackages base override in
  (exists extra, merged = base ++ extra /\ forall p, In p extra -> In p override)
  /\ (forall n, In n (map Model.PackageName merged)
                <-> In n (map Model.PackageName base)
                    \/ In n (map Model.PackageName override))
  /\ (NoDup (map Model.PackageName base) -> NoDup (map Model.PackageName merged)).
Proof.
  cbv zeta. unfold Config.mergePackages. split; [|split].
  - eexists. split; [reflexivity|]. intros p. apply appendUnseen_sub.
  - intros n. rewrite map_app, in_app_iff, appendUnseen_keys, elem_of_list_to_set,
      list_elem_of_In.
    destruct (in_dec string_dec n (map Model.PackageName base)); tauto.
  - intros Hnd. rewrite map_app. apply NoDup_app. split; [done|]. split.
    + intros n Hb Ho. rewrite list_elem_of_In, appendUnseen_keys in Ho.
      destruct Ho as [_ Ho]. apply Ho. by apply elem_of_list_to_set.
    + apply appendUnseen_NoDup.
Qed.

(** X22. Merging ignore patterns lists every pattern of either list once,
    and no other. *)
Theorem mergeIgnoredConfigs_union (base override : list string) :
  NoDup (Config.mergeIgnoredConfigs base override)
  /\ forall p, In p (Config.mergeIgnoredConfigs base override)
               <-> In p base \/ In p override.
Proof.
  unfold Config.mergeIgnoredConfigs. split.
  - pose proof (appendUnseen_NoDup (fun pattern : string => pattern) (base ++ override) ∅)
      as H.
    by rewrite map_id in H.
  - intros p.
    pose proof (appendUnseen_keys (fun pattern : string => pattern) (base ++ override) ∅ p)
      as H.
    rewrite !map_id in H. rewrite H, in_app_iff. split; [tauto|].
    intros Hin. split; [done|]. apply not_elem_of_empty.
Qed.

Lemma insertBy_Permutation {V : Type} (less : V -> V -> bool) (x : V) (l : list V) :
  Permutation (Config.insertBy less x l) (x :: l).
Proof.
  induction l as [|y l IH]; cbn [Config.insertBy]; [done|].
  destruct (less y x); [|done]. rewrite IH. apply perm_swap.
Qed.

Lemma sortBy_Permutation {V : Type} (less : V -> V -> bool) (l : list V) :
  Permutation (Config.sortBy less l) l.
Proof.
  unfold Config.sortBy. induction l as [|x l IH]; cbn [fold_right]; [done|].
  rewrite insertBy_Permutation. by constructor.
Qed.

Lemma sortBy_In {V : Type} (less : V -> V -> bool) (l : list V) (x : V) :
  In x (Config.sortBy less l) <-> In x l.
Proof.
  rewrite <- !list_elem_of_In. by rewrite sortBy_Permutation.
Qed.

Lemma fold_insert_last {V : Type} (key : V -> string) (l : list V) :
  forall (acc : gmap string V) (k : string) (v : V),
    In k (map key l) ->
    fold_left (fun m x => <[key x := x]> m) l acc !! k = Some v ->
    In v l.
Proof.
  induction l as [|x l IH]; intros acc k v Hk Hv; [done|].
  cbn [fold_left] in Hv.
  destruct (in_dec string_dec k (map key l)) as [Hin|Hnin].
  - right. eapply IH; eauto.
  - rewrite indexBy_fold_other in Hv by done.
    cbn [map In] in Hk. destruct Hk as [Hk|Hk]; [|done]. subst k.
    rewrite lookup_insert_eq in Hv. left. congruence.
Qed.

Lemma indexBy_app_lookup {V : Type} (key : V -> string) (base override : list V)
      (k : string) (v : V) :
  Diff.indexBy key (base ++ override) !! k = Some v ->
  (In k (map key override) -> In v override)
  /\ (~ In k (map key override) -> In v base).
Proof.
  unfold Diff.indexBy. rewrite fold_left_app. intros H. split.
  - intros Hk. eapply fold_insert_last; eauto.
  - intros Hk. rewrite indexBy_fold_other in H by done.
    by apply (indexBy_lookup key base k v) in H as [H _].
Qed.

Lemma indexBy_values_NoDup {V : Type} (key : V -> string) (l : list V) :
  NoDup (map key (map snd (map_to_list (Diff.indexBy key l)))).
Proof.
  assert (Heq : map key (map snd (map_to_list (Diff.indexBy key l)))
                = map fst (map_to_list (Diff.indexBy key l))).
  { rewrite map_map. apply map_ext_in. intros [k v] Hin. cbn [fst snd].
    apply map_to_list_In in Hin. by apply indexBy_lookup in Hin as [_ ?]. }
  rewrite Heq. apply NoDup_fst_map_to_list.
Qed.

Lemma indexBy_values_In {V : Type} (key : V -> string) (l : list V) (v : V) :
  In v (map snd (map_to_list (Diff.indexBy key l)))
  <-> Diff.indexBy key l !! key v = Some v.
Proof.
  rewrite in_map_iff. split.
  - intros ([k v'] & Hv & Hin). cbn [snd] in Hv. subst v'.
    apply map_to_list_In in Hin.
    pose proof (indexBy_lookup key l k v Hin) as [_ Hk]. by rewrite Hk.
  - intros H. exists (key v, v). split; [done|]. by apply map_to_list_In.
Qed.

(** X23. Merging config lists yields one entry for every path of either
    list and for no other, no path twice; for a path the override lists,
    the entry is one of the override's, otherwise one of the base's. *)
Theorem mergeSystemConfigs_override_wins (base override : list Model.SystemConfigState) :
  let merged := fst (Config.mergeSystemConfigs base override) in
  NoDup (map Model.Path merged)
  /\ (forall p, In p (map Model.Path merged)
                <-> In p (map Model.Path base) \/ In p (map Model.Path override))
  /\ (forall c, In c merged ->
        (In (Model.Path c) (map Model.Path override) -> In c override)
        /\ (~ In (Model.Path c) (map Model.Path override) -> In c base)).
Proof.
  cbv zeta. unfold Config.mergeSystemConfigs. cbv zeta. cbn [fst]. split; [|split].
  - rewrite sortBy_Permutation. apply indexBy_values_NoDup.
  - intros p. split.
    + intros Hin. apply in_map_iff in Hin as (c & Hp & Hc).
      apply sortBy_In, indexBy_values_In in Hc. rewrite Hp in Hc.
      apply in_app_iff. rewrite <- map_app. apply (indexBy_Some_In Model.Path). eauto.
    + intros Hin. apply in_app_iff in Hin. rewrite <- map_app in Hin.
      apply (indexBy_Some_In Model.Path) in Hin as [c Hc].
      pose proof (indexBy_lookup _ _ _ _ Hc) as [_ Hp].
      apply in_map_iff. exists c. split; [done|].
      apply sortBy_In, indexBy_values_In. by rewrite Hp.
  - intros c Hc. apply sortBy_In, indexBy_values_In in Hc.
    by apply indexBy_app_lookup.
Qed.

(** ** Loading a configuration *)

Lemma Validate_Sort (s : Model.SystemState) :
  Model.Validate s = [] -> Model.Validate (Config.Sort s) = [].
Proof.
  rewrite !Validate_nil_iff. unfold Config.Sort. cbn.
  intros (Hi & Hp & Hs & Hu & Hc & Hup).
  split; [done|]. split; [intros x Hx; apply sortBy_In in Hx; by apply Hp|].
  split; [intros x Hx; apply sortBy_In in Hx; by apply Hs|].
  split; [intros x Hx; apply sortBy_In in Hx; by apply Hu|].
  split; [intros x Hx; apply sortBy_In in Hx; by apply Hc|].
  intros x Hx. apply sortBy_In in Hx. destruct (Hup x Hx) as (H1 & H2 & H3).
  split; [|done]. apply in_map_iff in H1 as (u & Hn & Hin).
  apply in_map_iff. exists u. split; [done|]. by apply sortBy_In.
Qed.

Section LoaderFacts.
Variable yaml_Unmarshal : string -> Result Model.SystemState.
Variable filepath_Abs : string -> Result string.
Variable filepath_IsAbs : string -> bool.
Variable filepath_Dir : string -> string.
Variable filepath_Join : string -> string -> string.

(** X24. Whatever [LoadConfig] returns has passed validation: the state it
    hands back, merged from the includes and sorted, is one on which
    [Validate] reports nothing. *)
Theorem LoadConfig_returns_validated (fuel : nat) (filename : string)
    (w w' : Host.World) (cfg : Model.SystemState) :
  Config.LoadConfig yaml_Unmarshal filepath_Abs filepath_IsAbs filepath_Dir
    filepath_Join fuel filename w = Some (Ok cfg, w') ->
  Model.Validate cfg = [].
Proof.
  unfold Config.LoadConfig, Config.bindF at 1.
  destruct (Config.fueled _ w) as [[[c0|e] w0]|]; [|discriminate..].
  destruct (Config.validateIncludes _); [|discriminate].
  unfold Config.bindF.
  match goal with |- match ?x with _ => _ end = _ -> _ =>
    destruct x as [[[c1|e] w1]|]; [|discriminate..] end.
  destruct (Model.Validate c1) eqn:Hv; [|discriminate].
  unfold Config.fueled, Host.ret. intros H. inversion H; subst.
  by apply Validate_Sort.
Qed.

End LoaderFacts.

Lemma LoadConfig_returns_validated_witness :
  Model.Validate (Model.mkSystemState [] [Model.mkPackageState "htop";
                                          Model.mkPackageState "vim"] [] [] [] [] []) = [].
Proof.
  eapply (LoadConfig_returns_validated Scenario.readDocument Scenario.absolute
            Scenario.isAbs Scenario.dirOf Scenario.join 10 "/cfg/a.yaml"
            (Scenario.fresh Scenario.leafDiamondHost)).
  vm_compute. reflexivity.
Defined.

Lemma loggedOnly_refl w : loggedOnly w w.
Proof. by repeat split. Qed.

Lemma loggedOnly_trans w1 w2 w3 : loggedOnly w1 w2 -> loggedOnly w2 w3 -> loggedOnly w1 w3.
Proof. intros (?&?&?) (?&?&?). repeat split; congruence. Qed.

Lemma logsOnly_bindF {A B : Type} (c : Config.Fueled A) (k : A -> Config.Fueled B) :
  logsOnly c -> (forall a, logsOnly (k a)) -> logsOnly (Config.bindF c k).
Proof.
  intros Hc Hk w r w' H. unfold Config.bindF in H.
  destruct (c w) as [[[a|e] w1]|] eqn:Hcw; [| |discriminate].
  - eapply loggedOnly_trans; [eapply Hc; eauto|eapply Hk; eauto].
  - inversion H; subst. eapply Hc; eauto.
Qed.

Lemma logsOnly_fueled {A : Type} (c : Host.M A) :
  (forall w, loggedOnly w (snd (c w))) -> logsOnly (Config.fueled c).
Proof.
  intros Hc w r w' H. unfold Config.fueled in H. inversion H as [H1].
  specialize (Hc w). by rewrite H1 in Hc.
Qed.

Lemma loggedOnly_bind {A B : Type} (c : Host.M A) (k : A -> Host.M B) :
  (forall w, loggedOnly w (snd (c w))) ->
  (forall a w, loggedOnly w (snd (k a w))) ->
  forall w, loggedOnly w (snd (Host.bind c k w)).
Proof.
  intros Hc Hk w. unfold Host.bind. specialize (Hc w).
  destruct (c w) as [[a|e] w1]; cbn [snd] in *; [|done].
  eapply loggedOnly_trans; [exact Hc|apply Hk].
Qed.

Lemma loggedOnly_warnAll msgs w : loggedOnly w (snd (Config.warnAll msgs w)).
Proof.
  revert w. induction msgs as [|m msgs IH]; intros w; cbn [Config.warnAll].
  - apply loggedOnly_refl.
  - apply loggedOnly_bind; [|intros _; apply IH]. intros w0. by repeat split.
Qed.

Lemma loggedOnly_mergeConfigs base override w :
  loggedOnly w (snd (Config.mergeConfigs base override w)).
Proof.
  unfold Config.mergeConfigs. cbv zeta.
  repeat (apply loggedOnly_bind; [apply loggedOnly_warnAll|intros _]).
  intros w0. apply loggedOnly_refl.
Qed.

Section LoaderReads.
Variable yaml_Unmarshal : string -> Result Model.SystemState.
Variable filepath_Abs : string -> Result string.
Variable filepath_IsAbs : string -> bool.
Variable filepath_Dir : string -> string.
Variable filepath_Join : string -> string -> string.

Lemma loggedOnly_loadConfigFile filename w :
  loggedOnly w (snd (Config.loadConfigFile yaml_Unmarshal filename w)).
Proof.
  unfold Config.loadConfigFile.
  apply loggedOnly_bind; [intros; apply loggedOnly_refl|]. intros f.
  apply loggedOnly_bind; [intros; apply loggedOnly_refl|]. intros c w0.
  apply loggedOnly_refl.
Qed.

Lemma logsOnly_includeLoop recur includes :
  (forall c p v, logsOnly (recur c p v)) ->
  forall baseFile result visited,
    logsOnly (Config.includeLoop yaml_Unmarshal filepath_IsAbs filepath_Dir filepath_Join
                recur includes baseFile result visited).
Proof.
  intros Hrec. induction includes as [|inc more IH]; intros baseFile result visited;
    cbn [Config.includeLoop].
  - apply logsOnly_fueled. intros w. apply loggedOnly_refl.
  - cbv zeta. apply logsOnly_bindF.
    + apply logsOnly_fueled. intros w. unfold System.wrapErr.
      pose proof (loggedOnly_loadConfigFile
                    (Config.resolveIncludePath filepath_IsAbs filepath_Dir filepath_Join
                       baseFile inc) w) as H.
      by destruct (Config.loadConfigFile _ _ w) as [[a|e] w1].
    + intros includedCfg. apply logsOnly_bindF.
      * destruct (Model.Includes includedCfg); [|apply Hrec].
        apply logsOnly_fueled. intros w. apply loggedOnly_refl.
      * intros r. apply logsOnly_bindF; [|intros; apply IH].
        apply logsOnly_fueled. apply loggedOnly_mergeConfigs.
Qed.

Lemma logsOnly_recursive fuel :
  forall cfg baseFile visited,
    logsOnly (Config.processIncludesRecursive yaml_Unmarshal filepath_Abs filepath_IsAbs
                filepath_Dir filepath_Join fuel cfg baseFile visited).
Proof.
  induction fuel as [|fuel IH]; intros cfg baseFile visited;
    cbn [Config.processIncludesRecursive].
  - intros w r w' H. discriminate.
  - destruct (filepath_Abs baseFile) as [absBase|err].
    + destruct (bool_decide _).
      * apply logsOnly_fueled. intros w. apply loggedOnly_refl.
      * apply logsOnly_bindF; [by apply logsOnly_includeLoop|].
        intros r. apply logsOnly_bindF.
        -- apply logsOnly_fueled. apply loggedOnly_mergeConfigs.
        -- intros res. apply logsOnly_fueled. intros w. apply loggedOnly_refl.
    + apply logsOnly_fueled. intros w. apply loggedOnly_refl.
Qed.

(** X25. Loading a configuration only reads: whatever [LoadConfig] returns,
    the machine is as it was, no command was handed to a runner and nothing
    was printed; the merges only log. *)
Theorem LoadConfig_only_reads (fuel : nat) (filename : string) (w w' : Host.World)
    (r : Result Model.SystemState) :
  Config.LoadConfig yaml_Unmarshal filepath_Abs filepath_IsAbs filepath_Dir
    filepath_Join fuel filename w = Some (r, w') ->
  Host.machine w' = Host.machine w
  /\ Host.calls w' = Host.calls w
  /\ Host.printed w' = Host.printed w.
Proof.
  revert w r w'.
  change (logsOnly (Config.LoadConfig yaml_Unmarshal filepath_Abs filepath_IsAbs
                      filepath_Dir filepath_Join fuel filename)).
  unfold Config.LoadConfig. apply logsOnly_bindF.
  - apply logsOnly_fueled. apply loggedOnly_loadConfigFile.
  - intros cfg. destruct (Config.validateIncludes _).
    + apply logsOnly_bindF.
      * destruct (Model.Includes cfg).
        -- apply logsOnly_fueled. intros w. apply loggedOnly_refl.
        -- unfold Config.processIncludes. apply logsOnly_bindF;
             [apply logsOnly_recursive|].
           intros r. apply logsOnly_fueled. intros w. apply loggedOnly_refl.
      * intros cfg'. destruct (Model.Validate cfg');
          apply logsOnly_fueled; intros w; apply loggedOnly_refl.
    + apply logsOnly_fueled. intros w. apply loggedOnly_refl.
Qed.

End LoaderReads.

Lemma LoadConfig_only_reads_witness :
  exists w', Scenario.load 10 "/cfg/a.yaml" (Scenario.fresh Scenario.diamondHost)
             = Some (Err "circular include detected: /cfg/d.yaml", w')
             /\ Host.machine w' = Scenario.diamondHost.
Proof.
  eexists. split; [vm_compute; reflexivity|].
  eapply (LoadConfig_only_reads Scenario.readDocument Scenario.absolute
            Scenario.isAbs Scenario.dirOf Scenario.join 10 "/cfg/a.yaml"
            (Scenario.fresh Scenario.diamondHost)).
  vm_compute. reflexivity.
Defined.

(** ** Inferring the current state *)

Lemma infer_asks_groups runner userName w :
  askedOnly inferCommand runner w (snd (System.listGroupsForUser runner userName w)).
Proof.
  unfold System.listGroupsForUser. cbv zeta. apply askedOnly_bind.
  - intros w0. apply askedOnly_Run. split; [done|]. right. right.
    change (GoStrings.HasPrefix ("groups " +:+ userName) "groups " = true). reflexivity.
  - intros r w0. destruct (snd r).
    + destruct (GoStrings.Contains _ _); [apply askedOnly_ret|apply askedOnly_fail].
    + destruct (String.eqb _ _); apply askedOnly_ret.
Qed.

Lemma infer_asks_usersOf runner gidToName lines w :
  askedOnly inferCommand runner w (snd (System.usersOf runner gidToName lines w)).
Proof.
  revert w. induction lines as [|line lines IH]; intros w; cbn [System.usersOf].
  - apply askedOnly_ret.
  - destruct (System.accountOf gidToName line) as [[userName primary]|]; [|apply IH].
    apply askedOnly_bind; [intros; apply infer_asks_groups|].
    intros gs w0. apply askedOnly_bind; [apply IH|]. intros us w1. apply askedOnly_ret.
Qed.

Lemma infer_asks_users runner w :
  askedOnly inferCommand runner w (snd (System.listUsers runner w)).
Proof.
  unfold System.listUsers. apply askedOnly_bind.
  - unfold System.buildGidToNameMap. apply askedOnly_bind.
    + apply askedOnly_wrapErr. intros w0. apply askedOnly_query.
    + intros f w0. cbv zeta.
      destruct (snd (System.scanFile _ _)); [apply askedOnly_fail|apply askedOnly_ret].
  - intros gidToName w0. cbv zeta. apply askedOnly_bind.
    + apply askedOnly_wrapErr. intros w1. apply askedOnly_query.
    + intros f w1. apply infer_asks_usersOf.
Qed.

Lemma infer_asks_findRunlevel runner rls name w :
  askedOnly inferCommand runner w (snd (System.findRunlevel rls name w)).
Proof.
  revert w. induction rls as [|rl rls IH]; intros w; cbn [System.findRunlevel].
  - apply askedOnly_ret.
  - apply askedOnly_try; [intros; apply askedOnly_query|].
    intros [f|e] w0; [apply askedOnly_ret|apply IH].
Qed.

Lemma infer_asks_servicesOf runner entries w :
  askedOnly inferCommand runner w (snd (System.servicesOf entries w)).
Proof.
  revert w. induction entries as [|entry entries IH]; intros w; cbn [System.servicesOf].
  - apply askedOnly_ret.
  - destruct (Host.isDir (snd entry)); [apply IH|]. cbv zeta.
    destruct (GoStrings.HasSuffix _ _); [apply IH|].
    apply askedOnly_bind; [intros; apply infer_asks_findRunlevel|].
    intros rl w0. apply askedOnly_bind; [apply IH|]. intros ss w1. apply askedOnly_ret.
Qed.

Lemma infer_asks_auditLine runner skip acc line w :
  askedOnly inferCommand runner w (snd (System.auditLine skip acc line w)).
Proof.
  unfold System.auditLine. cbv zeta.
  destruct (_ <? 2)%nat; [apply askedOnly_ret|].
  match goal with |- context [negb ?b] => destruct b end; cbn [negb]; [|apply askedOnly_ret].
  destruct (System.intrinsicReason _); [apply askedOnly_ret|].
  apply askedOnly_bind.
  - intros w0. destruct (String.eqb _ "X"); [apply askedOnly_ret|].
    apply askedOnly_bind; [|intros; apply askedOnly_ret].
    apply askedOnly_wrapErr. intros w1. apply askedOnly_query.
  - intros dir w0. destruct dir; [apply askedOnly_ret|].
    repeat match goal with |- context [String.eqb ?a ?b] => destruct (String.eqb a b) end;
      apply askedOnly_ret.
Qed.

Lemma infer_asks_auditLines runner skip lines acc w :
  askedOnly inferCommand runner w (snd (System.auditLines skip acc lines w)).
Proof.
  revert acc w. induction lines as [|line lines IH]; intros acc w; cbn [System.auditLines].
  - apply askedOnly_ret.
  - apply askedOnly_bind; [intros; apply infer_asks_auditLine|]. intros acc' w0. apply IH.
Qed.

Lemma infer_asks_readConfigs runner cs w :
  askedOnly inferCommand runner w (snd (System.readConfigs cs w)).
Proof.
  revert w. induction cs as [|c cs IH]; intros w; cbn [System.readConfigs].
  - apply askedOnly_ret.
  - apply askedOnly_bind.
    + intros w0. unfold System.readConfig. destruct (Model.Deleted c); [apply askedOnly_ret|].
      apply askedOnly_bind; [apply askedOnly_wrapErr; intros; apply askedOnly_query|].
      intros content w1.
      apply askedOnly_bind; [apply askedOnly_wrapErr; intros; apply askedOnly_query|].
      intros info w2.
      apply askedOnly_try; [intros; apply askedOnly_query|]. intros u w3.
      apply askedOnly_try; [intros; apply askedOnly_query|]. intros g w4.
      apply askedOnly_ret.
    + intros c' w0. apply askedOnly_bind; [apply IH|]. intros r w1. apply askedOnly_ret.
Qed.

Lemma HasPrefix_app (pre s : string) : GoStrings.HasPrefix (pre +:+ s) pre = true.
Proof.
  induction pre as [|c pre IH]; [done|].
  change (GoStrings.HasPrefix (String c (pre +:+ s)) (String c pre) = true).
  cbn [GoStrings.HasPrefix]. by rewrite Ascii.eqb_refl.
Qed.

Lemma infer_asks_configs runner skip w :
  askedOnly inferCommand runner w (snd (System.listSystemConfigs runner skip w)).
Proof.
  unfold System.listSystemConfigs. apply askedOnly_bind.
  - intros w0. apply askedOnly_Run. split; [done|]. by left.
  - intros r w0. destruct (snd r); [apply askedOnly_fail|]. cbv zeta.
    apply askedOnly_bind; [intros; apply infer_asks_auditLines|]. intros acc w1.
    apply askedOnly_bind.
    + intros w2. destruct (System.modifiedFiles acc) as [|f fs]; [apply askedOnly_ret|].
      apply askedOnly_bind; [|intros; apply askedOnly_ret].
      intros w3. unfold System.getPackageOwners. cbv zeta.
      apply askedOnly_bind; [|intros; apply askedOnly_ret].
      intros w4. apply askedOnly_Run. split; [done|]. right. left. cbn [snd].
      change (GoStrings.Join ("info" :: "--who-owns" :: f :: fs) " ")
        with ("info" +:+ " " +:+ "--who-owns" +:+ " " +:+ GoStrings.Join (f :: fs) " ").
      change (GoStrings.HasPrefix
                ("apk info --who-owns" +:+ (" " +:+ GoStrings.Join (f :: fs) " "))
                "apk info --who-owns" = true).
      apply HasPrefix_app.
    + intros cfgs w2. apply askedOnly_bind; [apply infer_asks_readConfigs|].
      intros cfgs' w3. apply askedOnly_ret.
Qed.

(** X26. Inferring the current state only asks: whatever its outcome,
    [InferSystemState] hands the runner nothing but [apk audit], one
    [apk info --who-owns] and the [groups] of the accounts it lists, all
    as the engine's own user; it logs nothing, and leaves the machine as
    it is when the runner does. *)
Theorem inference_only_asks (runner : Host.CommandRunner) (skipIntrinsicIgnores : bool)
    (w : Host.World) :
  let w' := snd (System.InferSystemState runner skipIntrinsicIgnores w) in
  (exists cs, Host.calls w' = Host.calls w ++ cs
              /\ Forall (fun c => fst c = ""
                                  /\ (snd c = "apk audit"
                                      \/ GoStrings.HasPrefix (snd c) "apk info --who-owns"
                                         = true
                                      \/ GoStrings.HasPrefix (snd c) "groups " = true)) cs)
  /\ Host.logged w' = Host.logged w
  /\ ((forall user command m, snd (runner user command m) = m) ->
      Host.machine w' = Host.machine w).
Proof.
  cbv zeta. change (askedOnly inferCommand runner w
                      (snd (System.InferSystemState runner skipIntrinsicIgnores w))).
  unfold System.InferSystemState. apply askedOnly_bind.
  - intros w0. unfold System.listInstalledPackages. cbv zeta.
    apply askedOnly_bind; [|intros; apply askedOnly_ret].
    apply askedOnly_wrapErr. intros w1. apply askedOnly_query.
  - intros packages w0. apply askedOnly_bind.
    + intros w1. unfold System.listServices. cbv zeta.
      apply askedOnly_bind; [|intros; apply infer_asks_servicesOf].
      apply askedOnly_wrapErr. intros w2. apply askedOnly_query.
    + intros services w1. apply askedOnly_bind; [apply infer_asks_users|].
      intros users w2. apply askedOnly_bind; [apply infer_asks_configs|].
      intros r w3. apply askedOnly_ret.
Qed.

(** ** The services of the host *)

Lemma HasPrefix_drop (pre s : string) :
  GoStrings.HasPrefix s pre = true -> s = pre +:+ GoStrings.drop (String.length pre) s.
Proof.
  revert s. induction pre as [|c pre IH]; intros s H; [done|].
  destruct s as [|d s]; [discriminate|]. cbn [GoStrings.HasPrefix] in H.
  destruct (Ascii.eqb c d) eqn:Hc; [|discriminate]. apply Ascii.eqb_eq in Hc. subst d.
  cbn [String.length GoStrings.drop].
  change (String c s = String c (pre +:+ GoStrings.drop (String.length pre) s)).
  f_equal. by apply IH.
Qed.

Lemma length_append (a b : string) :
  String.length (a +:+ b) = String.length a + String.length b.
Proof.
  induction a as [|c a IH]; [done|].
  change (S (String.length (a +:+ b)) = S (String.length a + String.length b)).
  by rewrite IH.
Qed.

Lemma entryName_Some dir path name :
  Afero.entryName dir path = Some name -> path = dir +:+ "/" +:+ name.
Proof.
  unfold Afero.entryName. destruct (GoStrings.HasPrefix path (dir +:+ "/")) eqn:Hp;
    [|discriminate].
  cbv zeta. destruct (_ || _); [discriminate|]. intros H. inversion H; subst.
  apply HasPrefix_drop in Hp. rewrite length_append in Hp. cbn [String.length] in Hp.
  rewrite append_assoc in Hp. exact Hp.
Qed.

Lemma insertEntry_Permutation x l : Permutation (Afero.insertEntry x l) (x :: l).
Proof.
  induction l as [|y l IH]; cbn [Afero.insertEntry]; [done|].
  destruct (String.ltb _ _); [|done]. rewrite IH. apply perm_swap.
Qed.

Lemma sortEntries_Permutation l : Permutation (Afero.sortEntries l) l.
Proof.
  unfold Afero.sortEntries. induction l as [|x l IH]; cbn [fold_right]; [done|].
  rewrite insertEntry_Permutation. by constructor.
Qed.

Lemma readDirIn_entries m dir entries :
  Afero.readDirIn m dir = Ok entries ->
  (forall name f, In (name, f) entries ->
                  Host.files m !! (dir +:+ "/" +:+ name) = Some f)
  /\ NoDup (map fst entries).
Proof.
  unfold Afero.readDirIn. destruct (Host.files m !! dir) as [d|]; [|discriminate].
  destruct (Host.isDir d); [|discriminate]. intros H. inversion H; subst; clear H.
  split.
  - intros name f Hin. apply list_elem_of_In in Hin.
    rewrite sortEntries_Permutation in Hin.
    apply list_elem_of_omap in Hin as ([path f'] & Hin & Hn). cbn [fst snd] in Hn.
    destruct (Afero.entryName dir path) as [n|] eqn:He; [|discriminate].
    inversion Hn; subst. apply entryName_Some in He. subst path.
    by apply elem_of_map_to_list in Hin.
  - rewrite sortEntries_Permutation.
    pose proof (NoDup_fst_map_to_list (Host.files m)) as Hnd.
    induction (map_to_list (Host.files m)) as [|[path f] l IH]; cbn [omap list_omap];
      [constructor|].
    cbn [fmap list_fmap fst] in Hnd. apply NoDup_cons in Hnd as [Hpath Hnd].
    cbn [fst snd]. destruct (Afero.entryName dir path) as [n|] eqn:He; [|by apply IH].
    cbn [map fst]. apply NoDup_cons. split; [|by apply IH].
    intros Hin. apply Hpath. apply list_elem_of_In, in_map_iff in Hin as ([n' f'] & Hn & Hin).
    cbn [fst] in Hn. subst n'. apply list_elem_of_In in Hin.
    apply list_elem_of_omap in Hin as ([path' f''] & Hin & Hn). cbn [fst snd] in Hn.
    destruct (Afero.entryName dir path') as [n'|] eqn:He'; [|discriminate].
    inversion Hn; subst. apply entryName_Some in He, He'. subst.
    apply list_elem_of_fmap. eexists. split; [|exact Hin]. reflexivity.
Qed.

Lemma ValidRunlevels_In rl : Model.ValidRunlevels rl = true <-> In rl System.runlevels.
Proof.
  unfold Model.ValidRunlevels, System.runlevels. rewrite !orb_true_iff, !String.eqb_eq.
  simpl. intuition congruence.
Qed.

Lemma findRunlevel_spec rls name w r w' :
  System.findRunlevel rls name w = (r, w') ->
  w' = w
  /\ match r with
     | Ok (Some rl) =>
         In rl rls
         /\ is_Some (Host.files (Host.machine w)
                       !! ("/etc/runlevels/" +:+ rl +:+ "/" +:+ name))
     | Ok None =>
         forall rl, In rl rls ->
           Host.files (Host.machine w) !! ("/etc/runlevels/" +:+ rl +:+ "/" +:+ name) = None
     | Err _ => False
     end.
Proof.
  revert r w'. induction rls as [|rl rls IH]; intros r w' H; cbn [System.findRunlevel] in H.
  - unfold Host.ret in H. inversion H; subst. split; [done|]. by intros rl [].
  - unfold Host.try, Afero.Stat, Afero.query, Afero.statIn in H.
    destruct (Host.files (Host.machine w) !! _) as [f|] eqn:Hf.
    + unfold Host.ret in H. inversion H; subst. split; [done|].
      split; [by left|]. rewrite Hf. eauto.
    + apply IH in H as [-> H]. split; [done|].
      destruct r as [[rl'|]|e]; [| |done].
      * destruct H as [Hin Hs]. split; [by right|done].
      * intros rl' [<-|Hin]; [done|by apply H].
Qed.

Lemma servicesOf_sound entries :
  forall w svcs w',
    System.servicesOf entries w = (Ok svcs, w') ->
    w' = w
    /\ map Model.ServiceName svcs
       = map fst (List.filter (fun e => negb (Host.isDir (snd e))
                                        && negb (GoStrings.HasSuffix (fst e) ".sh"))
                              entries)
    /\ forall svc, In svc svcs ->
         (Model.Enabled svc = true ->
            Model.ValidRunlevels (Model.Runlevel svc) = true
            /\ is_Some (Host.files (Host.machine w)
                          !! ("/etc/runlevels/" +:+ Model.Runlevel svc +:+ "/"
                              +:+ Model.ServiceName svc)))
         /\ (Model.Enabled svc = false ->
               Model.Runlevel svc = ""
               /\ forall rl, Model.ValidRunlevels rl = true ->
                    Host.files (Host.machine w)
                      !! ("/etc/runlevels/" +:+ rl +:+ "/" +:+ Model.ServiceName svc)
                    = None).
Proof.
  induction entries as [|[name f] entries IH]; intros w svcs w' H;
    cbn [System.servicesOf] in H.
  - apply ret_Ok in H as [-> ->]. by repeat split.
  - cbn [fst snd] in H. cbn [List.filter fst snd].
    destruct (Host.isDir f); cbn [negb andb]; [by apply IH|].
    cbv zeta in H. destruct (GoStrings.HasSuffix name ".sh"); cbn [negb]; [by apply IH|].
    apply bind_Ok in H as (rl & w1 & Hrl & H).
    apply bind_Ok in H as (rest & w2 & Hrest & H).
    apply ret_Ok in H as [-> ->].
    apply findRunlevel_spec in Hrl as [-> Hrl].
    apply IH in Hrest as (-> & Hnames & Hrest).
    split; [done|]. split.
    + cbn [map]. rewrite Hnames. by destruct rl.
    + intros svc [<-|Hin]; [|by apply Hrest].
      destruct rl as [rl|]; cbn [Model.Enabled Model.Runlevel Model.ServiceName].
      * destruct Hrl as [Hin Hs]. split; [|discriminate].
        intros _. split; [by apply ValidRunlevels_In|done].
      * split; [discriminate|]. intros _. split; [done|].
        intros rl Hv. by apply Hrl, ValidRunlevels_In.
Qed.

(** X27. The services the inference lists are the entries of [/etc/init.d]
    that are neither directories nor named [*.sh], each once.  One listed
    as enabled carries a valid runlevel under which it has an entry; one
    listed as disabled carries no runlevel and has an entry under none.
    Nothing is changed. *)
Theorem listServices_sound (w w' : Host.World) (svcs : list Model.ServiceState) :
  System.listServices w = (Ok svcs, w') ->
  w' = w
  /\ NoDup (map Model.ServiceName svcs)
  /\ forall svc, In svc svcs ->
       GoStrings.HasSuffix (Model.ServiceName svc) ".sh" = false
       /\ (exists f, Host.files (Host.machine w) !! ("/etc/init.d/" +:+ Model.ServiceName svc)
                     = Some f /\ Host.isDir f = false)
       /\ (Model.Enabled svc = true ->
             Model.ValidRunlevels (Model.Runlevel svc) = true
             /\ is_Some (Host.files (Host.machine w)
                           !! ("/etc/runlevels/" +:+ Model.Runlevel svc +:+ "/"
                               +:+ Model.ServiceName svc)))
       /\ (Model.Enabled svc = false ->
             Model.Runlevel svc = ""
             /\ forall rl, Model.ValidRunlevels rl = true ->
                  Host.files (Host.machine w)
                    !! ("/etc/runlevels/" +:+ rl +:+ "/" +:+ Model.ServiceName svc)
                  = None).
Proof.
  unfold System.listServices. cbv zeta. intros H.
  apply bind_Ok in H as (entries & w1 & He & H).
  apply wrapErr_Ok in He. unfold Afero.ReadDir in He.
  apply query_inv in He as [-> He].
  apply readDirIn_entries in He as [Hfiles Hnd].
  apply servicesOf_sound in H as (-> & Hnames & Hsvc).
  split; [done|]. split.
  - rewrite Hnames. clear -Hnd. induction entries as [|e entries IH]; [constructor|].
    cbn [map] in Hnd. apply NoDup_cons in Hnd as [He Hnd]. cbn [List.filter].
    destruct (_ && _); [|by apply IH]. cbn [map]. apply NoDup_cons. split; [|by apply IH].
    intros Hin. apply He. apply list_elem_of_In, in_map_iff in Hin as (e' & He' & Hin).
    apply filter_In in Hin as [Hin _]. rewrite <- He'. by apply list_elem_of_In, in_map.
  - intros svc Hin. destruct (Hsvc svc Hin) as [Hen Hdis].
    assert (Hname : In (Model.ServiceName svc) (map Model.ServiceName svcs))
      by (by apply in_map).
    rewrite Hnames in Hname. apply in_map_iff in Hname as ([name f] & Hn & Hf).
    cbn [fst] in Hn. subst name. apply filter_In in Hf as [Hf Hk]. cbn [fst snd] in Hk.
    apply andb_true_iff in Hk as [Hd Hsh]. apply negb_true_iff in Hd, Hsh.
    split; [done|]. split; [|done].
    exists f. split; [|done]. by apply Hfiles.
Qed.

Lemma listServices_sound_witness :
  NoDup (map Model.ServiceName
           [Model.mkServiceState "crond" false ""; Model.mkServiceState "sshd" true "default"]).
Proof.
  eapply (listServices_sound (Scenario.fresh servicesHost)).
  vm_compute. reflexivity.
Defined.

(** ** The accounts of the host *)

Lemma usersOf_sound runner gidToName lines :
  forall w users w',
    System.usersOf runner gidToName lines w = (Ok users, w') ->
    forall u, In u users ->
      exists line, In line lines
        /\ exists primary, System.accountOf gidToName line = Some (Model.UserName u, primary)
                           /\ Model.PrimaryGroup u = primary.
Proof.
  induction lines as [|line lines IH]; intros w users w' H u Hu;
    cbn [System.usersOf] in H.
  - apply ret_Ok in H as [-> _]. done.
  - destruct (System.accountOf gidToName line) as [[name primary]|] eqn:Ha.
    + apply bind_Ok in H as (gs & w1 & _ & H).
      apply bind_Ok in H as (us & w2 & Hus & H).
      apply ret_Ok in H as [-> _]. destruct Hu as [<-|Hu].
      * exists line. split; [by left|]. exists primary. by split.
      * destruct (IH _ _ _ Hus u Hu) as (l & Hl & Hp). exists l. split; [by right|done].
    + destruct (IH _ _ _ H u Hu) as (l & Hl & Hp). exists l. split; [by right|done].
Qed.

Lemma accountOf_Some gidToName line name primary :
  System.accountOf gidToName line = Some (name, primary) ->
  let fields := GoStrings.Split line ":" in
  nth 0 fields "" = name
  /\ (exists uid, Strconv.Atoi (nth 2 fields "") = Some uid /\ (1000 <= uid)%Z)
  /\ nth 6 fields "" <> ""
  /\ GoStrings.Contains (nth 6 fields "") "nologin" = false
  /\ (exists gid, Strconv.Atoi (nth 3 fields "") = Some gid
                  /\ primary = match gidToName !! gid with
                               | Some n => n
                               | None => pretty gid
                               end).
Proof.
  unfold System.accountOf. cbv zeta.
  destruct (GoStrings.Split line ":") as [|f0 [|f1 [|f2 [|f3 [|f4 [|f5 [|f6 rest]]]]]]];
    try discriminate.
  cbn [nth].
  destruct (Strconv.Atoi f2) as [uid|] eqn:Hu; [|discriminate].
  destruct (uid <? 1000)%Z eqn:Hlt; [discriminate|]. apply Z.ltb_ge in Hlt.
  destruct (String.eqb f6 "") eqn:He; [discriminate|]. apply String.eqb_neq in He.
  cbn [orb]. destruct (GoStrings.Contains f6 "nologin") eqn:Hn; [discriminate|].
  destruct (Strconv.Atoi f3) as [gid|] eqn:Hg; [|discriminate].
  intros H. inversion H; subst. repeat split; eauto.
Qed.

(** X28. Every account the inference lists comes from a line of
    [/etc/passwd] with seven fields or more whose numeric id is 1000 or
    more and whose shell is neither empty nor a [nologin]; its name is the
    first field of that line. *)
Theorem listUsers_sound (runner : Host.CommandRunner) (w w' : Host.World)
    (users : list Model.UserState) :
  System.listUsers runner w = (Ok users, w') ->
  forall u, In u users ->
    exists f line,
      Host.files (Host.machine w) !! "/etc/passwd" = Some f
      /\ Host.isDir f = false
      /\ In line (fst (Bufio.ScanLines (Host.data f)))
      /\ nth 0 (GoStrings.Split line ":") "" = Model.UserName u
      /\ (exists uid, Strconv.Atoi (nth 2 (GoStrings.Split line ":") "") = Some uid
                      /\ (1000 <= uid)%Z)
      /\ nth 6 (GoStrings.Split line ":") "" <> ""
      /\ GoStrings.Contains (nth 6 (GoStrings.Split line ":") "") "nologin" = false.
Proof.
  unfold System.listUsers. cbv zeta. intros H u Hu.
  apply bind_Ok in H as (gidToName & w1 & Hg & H).
  assert (w1 = w) as ->.
  { unfold System.buildGidToNameMap in Hg. cbv zeta in Hg.
    apply bind_Ok in Hg as (gf & w2 & Hgf & Hg). apply wrapErr_Ok in Hgf.
    unfold Afero.Open in Hgf. apply query_inv in Hgf as [-> _].
    destruct (snd (System.scanFile _ _)); [discriminate|]. by apply ret_Ok in Hg as [_ ->]. }
  apply bind_Ok in H as (pf & w2 & Hpf & H). apply wrapErr_Ok in Hpf.
  unfold Afero.Open in Hpf. apply query_inv in Hpf as [-> Hpf].
  unfold Afero.openIn in Hpf.
  destruct (Host.files (Host.machine w) !! "/etc/passwd") as [f|] eqn:Hf; [|discriminate].
  inversion Hpf; subst pf; clear Hpf.
  destruct (usersOf_sound _ _ _ _ _ _ H u Hu) as (line & Hline & primary & Ha & _).
  unfold System.scanFile in Hline. destruct (Host.isDir f) eqn:Hd; [done|].
  destruct (Bufio.ScanLines (Host.data f)) as [ls tooLong] eqn:Hs. cbn [fst] in Hline.
  apply accountOf_Some in Ha. cbv zeta in Ha.
  destruct Ha as (H0 & H2 & H6 & H6' & _).
  exists f, line. rewrite Hs. cbn [fst]. repeat split; done.
Qed.

Lemma listUsers_sound_witness :
  exists f line,
    Host.files servicesHost !! "/etc/passwd" = Some f
    /\ Host.isDir f = false
    /\ In line (fst (Bufio.ScanLines (Host.data f)))
    /\ nth 0 (GoStrings.Split line ":") "" = "alice"
    /\ (exists uid, Strconv.Atoi (nth 2 (GoStrings.Split line ":") "") = Some uid
                    /\ (1000 <= uid)%Z)
    /\ nth 6 (GoStrings.Split line ":") "" <> ""
    /\ GoStrings.Contains (nth 6 (GoStrings.Split line ":") "") "nologin" = false.
Proof.
  eapply (listUsers_sound groupsOfAlice (Scenario.fresh servicesHost) _ _ _
            (Model.mkUserState "alice" ["alice"; "wheel"] "alice")).
  Unshelve.
  4: { vm_compute. reflexivity. }
  simpl. left. reflexivity.
Defined.

(** ** A service enabled without a runlevel *)


